(** * PixelMart front-end: wallet-state cache, send flow and NFT ownership resolver

    A shallow embedding of the wallet side-panel (cache helpers,
    [fetchBalance], [fetchTransactions], [handleSend]), of the profile
    page's "available to list" view and of the [useOwnedNFTs] hook,
    with the properties the specification states about them. *)

From Stdlib Require Import ZArith String Ascii List Bool Lia SpecFloat.
From stdpp Require Import base option list strings pretty gmap.

Set Warnings "-register-all".

Local Open Scope Z_scope.
Local Open Scope string_scope.

(** ** JavaScript numbers and values *)

Module JS.

(** A JavaScript [number] is an IEEE 754 binary64 value. *)
Definition number : Type := spec_float.

Definition prec : Z := 53.
Definition emax : Z := 1024.

Definition NaN : number := S754_nan.
Definition Infinity : number := S754_infinity false.

(** The [number] an integer literal or an integer-valued built-in
    (such as [Date.now()]) denotes. *)
Definition of_Z (z : Z) : number := binary_normalize prec emax z 0 false.

Definition mul : number -> number -> number := SFmul prec emax.
Definition div : number -> number -> number := SFdiv prec emax.
Definition sub : number -> number -> number := SFsub prec emax.

(** [x < y], [x <= y], [x > y] and [x === y] on numbers. *)
Definition lt : number -> number -> bool := SFltb.
Definition le : number -> number -> bool := SFleb.
Definition gt (x y : number) : bool := SFltb y x.
Definition strict_eq : number -> number -> bool := SFeqb.

Definition isNaN (x : number) : bool :=
  match x with S754_nan => true | _ => false end.

(** [Math.floor]. *)
Definition floor (x : number) : number :=
  match x with
  | S754_finite s m e =>
      if (0 <=? e)%Z then x
      else
        let q := (cond_Zopp s (Zpos m) / 2 ^ (- e))%Z in
        match q with
        | Z0 => S754_zero s
        | _ => of_Z q
        end
  | _ => x
  end.

(** Run-time values: what [JSON.parse] can produce, plus [undefined]. *)
Inductive value : Type :=
| VUndefined
| VNull
| VBool (b : bool)
| VNum (n : number)
| VStr (s : string)
| VArr (items : list value)
| VObj (fields : list (string * value)).

(** Truthiness, as used by [!x], [x ? a : b]. *)
Definition truthy (v : value) : bool :=
  match v with
  | VUndefined | VNull => false
  | VBool b => b
  | VNum n =>
      match n with
      | S754_nan | S754_zero _ => false
      | _ => true
      end
  | VStr s => negb (String.eqb s "")
  | VArr _ | VObj _ => true
  end.

Fixpoint assoc (k : string) (fields : list (string * value)) : option value :=
  match fields with
  | [] => None
  | (k', v) :: rest => if String.eqb k k' then Some v else assoc k rest
  end.

(** Property read [v.k] for a data property [k] that no prototype
    defines: [None] is the TypeError raised on [null] and [undefined]. *)
Definition get (v : value) (k : string) : option value :=
  match v with
  | VUndefined | VNull => None
  | VObj fields => Some (default VUndefined (assoc k fields))
  | _ => Some VUndefined
  end.

(** [v !== null]. *)
Definition not_null (v : value) : bool :=
  match v with VNull => false | _ => true end.

(** Outcome of a call that may throw. *)
Record Error : Type := { is_Error : bool; message : string }.

Inductive Result (A : Type) : Type :=
| Ok (a : A)
| Throw (e : Error).
Arguments Ok {A} a.
Arguments Throw {A} e.

End JS.

Import JS.

(** ** External collaborators

    The Solana libraries and the browser built-ins the code calls are
    not part of the repository; they enter as a [Platform] of functions
    and as oracles giving the reply of each network call. *)

(** A [PublicKey] is identified by its base58 text: [toString] prints
    it and [equals] compares the keys. *)
Record PublicKey : Type := { toBase58 : string }.

Definition PublicKey_toString (k : PublicKey) : string := toBase58 k.
Definition PublicKey_equals (a b : PublicKey) : bool :=
  String.eqb (toBase58 a) (toBase58 b).

(** What [SystemProgram.transfer] is asked to encode. *)
Record TransferParams : Type :=
  { fromPubkey : PublicKey; toPubkey : PublicKey; lamports : number }.

Record Platform : Type :=
  { (** [JSON.stringify] on a plain data value. *)
    JSON_stringify : value -> string;
    (** [JSON.parse]; [None] is a SyntaxError. *)
    JSON_parse : string -> option value;
    (** [ToNumber] on strings, arrays and objects. *)
    ToNumber_composite : value -> number;
    parseFloat : string -> number;
    (** [new PublicKey(text)]; [None] when the constructor throws, and
        then [PublicKey_error text] is the error it throws. *)
    PublicKey_new : string -> option PublicKey;
    PublicKey_error : string -> Error;
    (** The instruction type of the library and its builder, which
        throws on a quantity it cannot encode. *)
    Instruction : Type;
    SystemProgram_transfer : TransferParams -> Result Instruction;
    (** The successive results of [Math.random()]. *)
    Math_random : nat -> number }.

(** The reply to a network call issued at a given time: its outcome
    and the time that passed until it arrived (milliseconds). *)
Record Reply (A : Type) : Type := { outcome : Result A; elapsed : N }.
Arguments outcome {A} r.
Arguments elapsed {A} r.

(** ** Browser storage *)

(** [localStorage]: the stored items, whether [window] exists, whether
    the storage may be accessed, and how many characters it can hold. *)
Record Storage : Type :=
  { window_defined : bool;
    accessible : bool;
    items : gmap string string;
    quota : nat }.

Definition used (m : gmap string string) : nat :=
  map_fold (fun k v acc => (String.length k + String.length v + acc)%nat) 0%nat m.

Definition SecurityError : Error :=
  {| is_Error := true; message := "The operation is insecure." |}.
Definition QuotaExceededError : Error :=
  {| is_Error := true; message := "The quota has been exceeded." |}.

Definition getItem (st : Storage) (k : string) : Result (option string) :=
  if accessible st then Ok (items st !! k) else Throw SecurityError.

Definition setItem (st : Storage) (k v : string) : Result Storage :=
  if accessible st then
    let m := <[k := v]> (items st) in
    if (used m <=? quota st)%nat then
      Ok {| window_defined := window_defined st; accessible := true;
            items := m; quota := quota st |}
    else Throw QuotaExceededError
  else Throw SecurityError.

(** ** The wallet side-panel ([WalletSheet]) *)

Module WalletSheet.

Inductive TxType : Type := sent | received.
Inductive TxStatus : Type := success | failed.

Module TransactionItem.
Record t : Type :=
  { signature : string;
    type : TxType;
    amount : number;
    timestamp : number;
    status : TxStatus }.
End TransactionItem.

Definition TxType_text (t : TxType) : string :=
  match t with sent => "sent" | received => "received" end.
Definition TxStatus_text (s : TxStatus) : string :=
  match s with success => "success" | failed => "failed" end.

(** The object a [TransactionItem] is at run time. *)
Definition TransactionItem_value (t : TransactionItem.t) : value :=
  VObj [("signature", VStr (TransactionItem.signature t));
        ("type", VStr (TxType_text (TransactionItem.type t)));
        ("amount", VNum (TransactionItem.amount t));
        ("timestamp", VNum (TransactionItem.timestamp t));
        ("status", VStr (TxStatus_text (TransactionItem.status t)))].

Definition TransactionItems_value (txs : list TransactionItem.t) : value :=
  VArr (map TransactionItem_value txs).

(** An entry of [getSignaturesForAddress]: [blockTime] is a number or
    [null], [err] an error object or [null]. *)
Record SignatureInfo : Type :=
  { signature : string; blockTime : value; err : value }.

(** Cache configuration *)
Definition CACHE_KEY_PREFIX : string := "pixelmart_wallet_".
Definition BALANCE_CACHE_TTL : number := of_Z (30 * 1000).
Definition TX_CACHE_TTL : number := of_Z (60 * 1000).
Definition LAMPORTS_PER_SOL : number := of_Z 1000000000.

(** [CachedData<T>]: the envelope written to storage. *)
Definition CachedData (data : value) (stamp : number) : value :=
  VObj [("data", data); ("timestamp", VNum stamp)].

Section Cache.

Context (P : Platform).

Definition ToNumber (v : value) : number :=
  match v with
  | VUndefined => NaN
  | VNull => of_Z 0
  | VBool b => if b then of_Z 1 else of_Z 0
  | VNum n => n
  | VStr _ | VArr _ | VObj _ => ToNumber_composite P v
  end.

Definition getCache (st : Storage) (key : string) : value :=
  if negb (window_defined st) then VNull
  else
    match getItem st (CACHE_KEY_PREFIX ++ key) with
    | Throw _ => VNull
    | Ok None => VNull
    | Ok (Some cached) =>
        if String.eqb cached "" then VNull
        else
          match JSON_parse P cached with
          | None => VNull
          | Some parsed =>
              match get parsed "data" with
              | None => VNull
              | Some data => data
              end
          end
    end.

(** [setCache] leaves the storage it is given unchanged when the write
    throws ("Storage full or unavailable"). *)
Definition setCache (now : number) (st : Storage) (key : string) (data : value)
  : Storage :=
  if negb (window_defined st) then st
  else
    let cached := CachedData data now in
    match setItem st (CACHE_KEY_PREFIX ++ key) (JSON_stringify P cached) with
    | Ok st' => st'
    | Throw _ => st
    end.

Definition isCacheValid (now : number) (st : Storage) (key : string) (ttl : number)
  : bool :=
  if negb (window_defined st) then false
  else
    match getItem st (CACHE_KEY_PREFIX ++ key) with
    | Throw _ => false
    | Ok None => false
    | Ok (Some cached) =>
        if String.eqb cached "" then false
        else
          match JSON_parse P cached with
          | None => false
          | Some parsed =>
              match get parsed "timestamp" with
              | None => false
              | Some stamp => lt (sub now (ToNumber stamp)) ttl
              end
          end
    end.

End Cache.

(** *** Component state and its environment *)

(** The [useState] cells the fetch and send callbacks read or write.
    [balance] and [transactions] hold run-time values: what a fetch
    produced or what was read back from the cache. *)
Record Sheet : Type :=
  { balance : value;
    loadingBalance : bool;
    transactions : value;
    loadingTxs : bool;
    recipient : string;
    amount : string;
    sending : bool;
    sendError : string;
    sendSuccess : string }.

Definition Transaction (P : Platform) : Type := list (Instruction P).

(** Calls that leave the browser. *)
Inductive NetCall (P : Platform) : Type :=
| CallGetBalance (owner : PublicKey)
| CallGetSignaturesForAddress (owner : PublicKey) (limit : nat)
| CallSendTransaction (transaction : Transaction P)
| CallConfirmTransaction (sig : string) (commitment : string).
Arguments CallGetBalance {P} owner.
Arguments CallGetSignaturesForAddress {P} owner limit.
Arguments CallSendTransaction {P} transaction.
Arguments CallConfirmTransaction {P} sig commitment.

(** What lies outside the component: storage, the clock read by
    [Date.now()] (milliseconds), the network calls made so far, the
    console, and how many random numbers were drawn. *)
Record World (P : Platform) : Type :=
  { localStorage : Storage;
    clock : Z;
    net_log : list (NetCall P);
    console : list (string * Error);
    draws : nat }.
Arguments localStorage {P} w.
Arguments clock {P} w.
Arguments net_log {P} w.
Arguments console {P} w.
Arguments draws {P} w.

(** The chain-query object: the reply to each call, given the time the
    call is issued. *)
Record Connection : Type :=
  { getBalance : PublicKey -> Z -> Reply number;
    getSignaturesForAddress : PublicKey -> nat -> Z -> Reply (list SignatureInfo);
    confirmTransaction : string -> string -> Z -> Reply unit }.

(** What [useConnection] and [useWallet] hand to the component. *)
Record Hooks (P : Platform) : Type :=
  { connection : option Connection;
    publicKey : option PublicKey;
    sendTransaction : option (Transaction P -> Z -> Reply string) }.
Arguments connection {P} h.
Arguments publicKey {P} h.
Arguments sendTransaction {P} h.

(** *** A state monad for the callbacks *)

Section Callbacks.

Context (P : Platform) (H : Hooks P).

Record St : Type := { sheet : Sheet; world : World P }.

Definition M (A : Type) : Type := St -> A * St.

Definition ret {A : Type} (a : A) : M A := fun s => (a, s).
Definition bind {A B : Type} (m : M A) (k : A -> M B) : M B :=
  fun s => let (a, s') := m s in k a s'.

Notation "x <- m ;; k" := (bind m (fun x => k))
  (at level 100, m at next level, right associativity).
Notation "m ;; k" := (bind m (fun _ => k))
  (at level 100, right associativity).

Definition gets {A : Type} (f : Sheet -> A) : M A := fun s => (f (sheet s), s).
Definition on_sheet (f : Sheet -> Sheet) : M unit :=
  fun s => (tt, {| sheet := f (sheet s); world := world s |}).
Definition on_world (f : World P -> World P) : M unit :=
  fun s => (tt, {| sheet := sheet s; world := f (world s) |}).

Definition setBalance (v : value) : M unit :=
  on_sheet (fun u =>
    {| balance := v; loadingBalance := loadingBalance u;
       transactions := transactions u; loadingTxs := loadingTxs u;
       recipient := recipient u; amount := amount u;
       sending := sending u; sendError := sendError u;
       sendSuccess := sendSuccess u |}).

Definition setLoadingBalance (b : bool) : M unit :=
  on_sheet (fun u =>
    {| balance := balance u; loadingBalance := b;
       transactions := transactions u; loadingTxs := loadingTxs u;
       recipient := recipient u; amount := amount u;
       sending := sending u; sendError := sendError u;
       sendSuccess := sendSuccess u |}).

Definition setTransactions (v : value) : M unit :=
  on_sheet (fun u =>
    {| balance := balance u; loadingBalance := loadingBalance u;
       transactions := v; loadingTxs := loadingTxs u;
       recipient := recipient u; amount := amount u;
       sending := sending u; sendError := sendError u;
       sendSuccess := sendSuccess u |}).

Definition setLoadingTxs (b : bool) : M unit :=
  on_sheet (fun u =>
    {| balance := balance u; loadingBalance := loadingBalance u;
       transactions := transactions u; loadingTxs := b;
       recipient := recipient u; amount := amount u;
       sending := sending u; sendError := sendError u;
       sendSuccess := sendSuccess u |}).

Definition setRecipient (t : string) : M unit :=
  on_sheet (fun u =>
    {| balance := balance u; loadingBalance := loadingBalance u;
       transactions := transactions u; loadingTxs := loadingTxs u;
       recipient := t; amount := amount u;
       sending := sending u; sendError := sendError u;
       sendSuccess := sendSuccess u |}).

Definition setAmount (t : string) : M unit :=
  on_sheet (fun u =>
    {| balance := balance u; loadingBalance := loadingBalance u;
       transactions := transactions u; loadingTxs := loadingTxs u;
       recipient := recipient u; amount := t;
       sending := sending u; sendError := sendError u;
       sendSuccess := sendSuccess u |}).

Definition setSending (b : bool) : M unit :=
  on_sheet (fun u =>
    {| balance := balance u; loadingBalance := loadingBalance u;
       transactions := transactions u; loadingTxs := loadingTxs u;
       recipient := recipient u; amount := amount u;
       sending := b; sendError := sendError u;
       sendSuccess := sendSuccess u |}).

Definition setSendError (t : string) : M unit :=
  on_sheet (fun u =>
    {| balance := balance u; loadingBalance := loadingBalance u;
       transactions := transactions u; loadingTxs := loadingTxs u;
       recipient := recipient u; amount := amount u;
       sending := sending u; sendError := t;
       sendSuccess := sendSuccess u |}).

Definition setSendSuccess (t : string) : M unit :=
  on_sheet (fun u =>
    {| balance := balance u; loadingBalance := loadingBalance u;
       transactions := transactions u; loadingTxs := loadingTxs u;
       recipient := recipient u; amount := amount u;
       sending := sending u; sendError := sendError u;
       sendSuccess := t |}).

(** [Date.now()] *)
Definition Date_now (w : World P) : number := of_Z (clock w).

(** [await call]: the call is issued now, logged, and its reply
    arrives [elapsed] milliseconds later. *)
Definition await {A : Type} (call : NetCall P) (reply : Z -> Reply A)
  : M (Result A) :=
  fun s =>
    let w := world s in
    let r := reply (clock w) in
    (outcome r,
     {| sheet := sheet s;
        world := {| localStorage := localStorage w;
                    clock := clock w + Z.of_N (elapsed r);
                    net_log := net_log w ++ [call];
                    console := console w;
                    draws := draws w |} |}).

Definition console_error (label : string) (e : Error) : M unit :=
  on_world (fun w =>
    {| localStorage := localStorage w; clock := clock w;
       net_log := net_log w; console := console w ++ [(label, e)];
       draws := draws w |}).

Definition readCache (key : string) : M value :=
  fun s => (getCache P (localStorage (world s)) key, s).

Definition checkCache (key : string) (ttl : number) : M bool :=
  fun s =>
    (isCacheValid P (Date_now (world s)) (localStorage (world s)) key ttl, s).

Definition writeCache (key : string) (data : value) : M unit :=
  on_world (fun w =>
    {| localStorage := setCache P (Date_now w) (localStorage w) key data;
       clock := clock w; net_log := net_log w; console := console w;
       draws := draws w |}).

(** Cache key based on wallet address *)
Definition walletAddress : string :=
  match publicKey H with
  | Some pk => PublicKey_toString pk
  | None => ""
  end.

Definition balanceCacheKey : string :=
  match publicKey H with
  | Some _ => "balance_" ++ walletAddress
  | None => ""
  end.

Definition txCacheKey : string :=
  match publicKey H with
  | Some _ => "txs_" ++ walletAddress
  | None => ""
  end.

(** Fetch balance with caching. The result of the cache check is
    [true] when the callback has returned from the cache. *)
Definition balanceFromCache (forceRefresh : bool) : M bool :=
  if negb forceRefresh then
    valid <- checkCache balanceCacheKey BALANCE_CACHE_TTL ;;
    if valid then
      cached <- readCache balanceCacheKey ;;
      if not_null cached then setBalance cached ;; ret true
      else ret false
    else ret false
  else ret false.

Definition fetchBalance (forceRefresh : bool) : M unit :=
  match publicKey H, connection H with
  | Some pk, Some conn =>
      served <- balanceFromCache forceRefresh ;;
      if served then ret tt
      else
        setLoadingBalance true ;;
        bal <- await (CallGetBalance pk) (getBalance conn pk) ;;
        match bal with
        | Ok bal =>
            let balanceInSol := div bal LAMPORTS_PER_SOL in
            setBalance (VNum balanceInSol) ;;
            writeCache balanceCacheKey (VNum balanceInSol)
        | Throw err =>
            console_error "Failed to fetch balance:" err ;;
            setBalance VNull
        end ;;
        setLoadingBalance false
  | _, _ => ret tt
  end.

(** Fetch transactions with caching *)
Definition half : number := div (of_Z 1) (of_Z 2).

Fixpoint summarise (now : number) (i : nat) (signatures : list SignatureInfo)
  : list TransactionItem.t :=
  match signatures with
  | [] => []
  | sig :: rest =>
      {| TransactionItem.signature := signature sig;
         TransactionItem.type :=
           if gt (Math_random P i) half then sent else received;
         TransactionItem.amount := mul (Math_random P (S i)) (of_Z 2);
         TransactionItem.timestamp :=
           if truthy (blockTime sig)
           then mul (ToNumber P (blockTime sig)) (of_Z 1000)
           else now;
         TransactionItem.status :=
           if truthy (err sig) then failed else success |}
      :: summarise now (S (S i)) rest
  end.

Definition mapSignatures (signatures : list SignatureInfo)
  : M (list TransactionItem.t) :=
  fun s =>
    let w := world s in
    (summarise (Date_now w) (draws w) signatures,
     {| sheet := sheet s;
        world := {| localStorage := localStorage w; clock := clock w;
                    net_log := net_log w; console := console w;
                    draws := (draws w + 2 * length signatures)%nat |} |}).

Definition transactionsFromCache (forceRefresh : bool) : M bool :=
  if negb forceRefresh then
    valid <- checkCache txCacheKey TX_CACHE_TTL ;;
    if valid then
      cached <- readCache txCacheKey ;;
      if not_null cached then setTransactions cached ;; ret true
      else ret false
    else ret false
  else ret false.

Definition fetchTransactions (forceRefresh : bool) : M unit :=
  match publicKey H, connection H with
  | Some pk, Some conn =>
      served <- transactionsFromCache forceRefresh ;;
      if served then ret tt
      else
        setLoadingTxs true ;;
        signatures <- await (CallGetSignaturesForAddress pk 10)
                            (getSignaturesForAddress conn pk 10) ;;
        match signatures with
        | Ok signatures =>
            txs <- mapSignatures signatures ;;
            setTransactions (TransactionItems_value txs) ;;
            writeCache txCacheKey (TransactionItems_value txs)
        | Throw err =>
            console_error "Failed to fetch transactions:" err
        end ;;
        setLoadingTxs false
  | _, _ => ret tt
  end.

(** Handle send *)
Definition sendFailed (err : Error) : M unit :=
  console_error "Send error:" err ;;
  setSendError (if is_Error err then message err else "Transaction failed").

Definition submitTransfer (pk recipientPubkey : PublicKey) (conn : Connection)
    (send : Transaction P -> Z -> Reply string) (amountNum : number) : M unit :=
  match SystemProgram_transfer P
          {| fromPubkey := pk; toPubkey := recipientPubkey;
             lamports := floor (mul amountNum LAMPORTS_PER_SOL) |} with
  | Throw err => sendFailed err
  | Ok instruction =>
      let transaction := [instruction] in
      sent <- await (CallSendTransaction transaction) (send transaction) ;;
      match sent with
      | Throw err => sendFailed err
      | Ok sig =>
          confirmed <- await (CallConfirmTransaction sig "confirmed")
                             (confirmTransaction conn sig "confirmed") ;;
          match confirmed with
          | Throw err => sendFailed err
          | Ok _ =>
              setSendSuccess "Transaction sent successfully!" ;;
              setRecipient "" ;;
              setAmount "" ;;
              (* Force refresh balance after sending. The call is not
                 awaited: what it does after its own [await] comes
                 after the [finally] below, which touches another
                 cell of the state. *)
              fetchBalance true
          end
      end
  end.

Definition handleSend : M unit :=
  match publicKey H, connection H, sendTransaction H with
  | Some pk, Some conn, Some send =>
      setSendError "" ;;
      setSendSuccess "" ;;
      (* Validate recipient *)
      to <- gets recipient ;;
      match PublicKey_new P to with
      | None => setSendError "Invalid recipient address"
      | Some recipientPubkey =>
          (* Validate amount *)
          text <- gets amount ;;
          let amountNum := parseFloat P text in
          if isNaN amountNum || le amountNum (of_Z 0) then
            setSendError "Invalid amount"
          else
            known <- gets balance ;;
            if not_null known && gt amountNum (ToNumber P known) then
              setSendError "Insufficient balance"
            else
              setSending true ;;
              submitTransfer pk recipientPubkey conn send amountNum ;;
              setSending false
      end
  | _, _, _ => ret tt
  end.

End Callbacks.

Arguments sheet {P} s.
Arguments world {P} s.

End WalletSheet.


(** ** NFT metadata and the owned-NFT hook ([useOwnedNFTs], [useNFTs]) *)

Module OwnedNFTs.

(** [NFTMetadata] is declared in the program library; these are the
    fields the pages read. *)
Record NFTMetadata : Type :=
  { name : string;
    image : string;
    description : option string;
    symbol : option string;
    attributes : list (string * string);
    collection : option string }.

Record OwnedNFT : Type :=
  { mint : PublicKey;
    tokenAccount : PublicKey;
    amount : option number;
    metadata : option NFTMetadata;
    isListed : bool }.

(** A parsed token account, as [getParsedTokenAccountsByOwner] returns
    it: [uiAmount] is a number or [null]. *)
Record TokenAmount : Type := { uiAmount : option number; decimals : number }.
Module ParsedInfo.
Record t : Type := { mint : string; tokenAmount : TokenAmount }.
End ParsedInfo.
Record TokenAccount : Type := { pubkey : PublicKey; info : ParsedInfo.t }.

Record AccountInfo : Type := { owner : PublicKey; account_lamports : number }.

(** The chain as one resolution pass reads it. *)
Record Connection : Type :=
  { getParsedTokenAccountsByOwner : PublicKey -> Result (list TokenAccount);
    getAccountInfo : PublicKey -> Result (option AccountInfo) }.

(** The two functions of the program library the hook calls: the
    listing address of a mint (with its bump seed) and the metadata
    fetch, which may throw. *)
Record Program : Type :=
  { getListingPDA : PublicKey -> PublicKey * nat;
    fetchNFTMetadataFromChain : PublicKey -> Result (option NFTMetadata) }.

Record HookState : Type :=
  { nfts : list OwnedNFT; loading : bool; error : option string }.

(** [x === 1] for a number or [null]. *)
Definition is_one (x : option number) : bool :=
  match x with
  | Some n => strict_eq n (of_Z 1)
  | None => false
  end.

(** Filter for NFTs (amount = 1, decimals = 0) *)
Definition isNFT (account : TokenAccount) : bool :=
  let parsed := info account in
  is_one (uiAmount (ParsedInfo.tokenAmount parsed))
  && strict_eq (decimals (ParsedInfo.tokenAmount parsed)) (of_Z 0).

Section Resolver.

Context (P : Platform) (G : Program) (connection : Connection).

(** The [map] after the filter; it throws at the first mint text the
    [PublicKey] constructor rejects. *)
Fixpoint toOwned (accounts : list TokenAccount) : Result (list OwnedNFT) :=
  match accounts with
  | [] => Ok []
  | account :: rest =>
      let parsed := info account in
      match PublicKey_new P (ParsedInfo.mint parsed) with
      | None => Throw (PublicKey_error P (ParsedInfo.mint parsed))
      | Some key =>
          match toOwned rest with
          | Throw e => Throw e
          | Ok others =>
              Ok ({| mint := key;
                     tokenAccount := pubkey account;
                     amount := uiAmount (ParsedInfo.tokenAmount parsed);
                     metadata := None;
                     isListed := false (* Will be updated *) |} :: others)
          end
      end
  end.

Definition nftAccounts (value : list TokenAccount) : Result (list OwnedNFT) :=
  toOwned (List.filter isNFT value).

(** What the [catch] of the per-NFT callback returns. *)
Definition unresolved (nft : OwnedNFT) : OwnedNFT :=
  {| mint := mint nft; tokenAccount := tokenAccount nft; amount := amount nft;
     metadata := None; isListed := false |}.

Definition resolved (nft : OwnedNFT) (listingAccount : option AccountInfo)
    (found : option NFTMetadata) : OwnedNFT :=
  {| mint := mint nft; tokenAccount := tokenAccount nft; amount := amount nft;
     metadata := found;
     isListed := match listingAccount with Some _ => true | None => false end |}.

(** The per-NFT callback is suspended at each [await]: first on the
    listing account, then on the metadata. *)
Inductive Task : Type :=
| AwaitListing (nft : OwnedNFT)
| AwaitMetadata (nft : OwnedNFT) (listingAccount : option AccountInfo)
| Settled (result : OwnedNFT).

Definition metadataError (nft : OwnedNFT) : string :=
  "Error fetching metadata for " ++ PublicKey_toString (mint nft) ++ ":".

(** One resumption of a suspended callback: the awaited reply arrives
    and the callback runs to its next [await] or to its [return]. The
    second component is what it writes to the console. *)
Definition resume (t : Task) : Task * list (string * Error) :=
  match t with
  | AwaitListing nft =>
      let (listingPDA, _) := getListingPDA G (mint nft) in
      match getAccountInfo connection listingPDA with
      | Ok listingAccount => (AwaitMetadata nft listingAccount, [])
      | Throw err => (Settled (unresolved nft), [(metadataError nft, err)])
      end
  | AwaitMetadata nft listingAccount =>
      match fetchNFTMetadataFromChain G (mint nft) with
      | Ok found => (Settled (resolved nft listingAccount found), [])
      | Throw err => (Settled (unresolved nft), [(metadataError nft, err)])
      end
  | Settled result => (Settled result, [])
  end.

(** The callbacks in flight under [Promise.all], one slot per NFT. *)
Record Pool : Type := { tasks : list Task; console : list (string * Error) }.

(** The event loop resumes the callback in slot [i]. *)
Definition deliver (pool : Pool) (i : nat) : Pool :=
  match tasks pool !! i with
  | Some t =>
      let (t', lines) := resume t in
      {| tasks := <[i := t']> (tasks pool); console := (console pool ++ lines)%list |}
  | None => pool
  end.

(** The order in which replies arrive is a list of slots. *)
Definition run (schedule : list nat) (pool : Pool) : Pool :=
  fold_left deliver schedule pool.

Definition result_of (t : Task) : option OwnedNFT :=
  match t with Settled r => Some r | _ => None end.

(** [Promise.all]: fulfilled, with the results slot by slot, once every
    callback has returned; pending until then. *)
Definition Promise_all (pool : Pool) : option (list OwnedNFT) :=
  mapM result_of (tasks pool).

Definition launch (owned : list OwnedNFT) : Pool :=
  {| tasks := map AwaitListing owned; console := [] |}.

(** [refetch], with the arrival order of the replies as a parameter.
    The result is the hook state and the console output. *)
Definition refetch (schedule : list nat) (publicKey : option PublicKey)
    (s : HookState) : HookState * list (string * Error) :=
  match publicKey with
  | None => ({| nfts := []; loading := false; error := error s |}, [])
  | Some owner =>
      let failed e :=
        ({| nfts := nfts s; loading := false;
            error := Some "Failed to fetch NFTs" |},
         [("Error fetching NFTs:", e)]) in
      (* Fetch all token accounts for the wallet *)
      match getParsedTokenAccountsByOwner connection owner with
      | Throw e => failed e
      | Ok tokenAccounts =>
          match nftAccounts tokenAccounts with
          | Throw e => failed e
          | Ok owned =>
              (* Check which NFTs are listed and fetch their metadata *)
              let pool := run schedule (launch owned) in
              match Promise_all pool with
              | Some nftsWithListingStatus =>
                  ({| nfts := nftsWithListingStatus; loading := false;
                      error := None |}, console pool)
              | None =>
                  ({| nfts := nfts s; loading := true; error := None |},
                   console pool)
              end
          end
      end
  end.

End Resolver.

(** [useNFTs]: the simplified records the pages use. *)
Module NFT.
Record t : Type :=
  { mint : string;
    name : string;
    image : string;
    description : option string;
    symbol : option string;
    attributes : option (list (string * string));
    collection : option string;
    isListed : bool }.
End NFT.

(** [a || b] on strings: the empty string is falsy. *)
Definition or_else (text : option string) (fallback : string) : string :=
  match text with
  | Some t => if String.eqb t "" then fallback else t
  | None => fallback
  end.

Definition simplify (PLACEHOLDER_IMAGE : string) (nft : OwnedNFT) : NFT.t :=
  {| NFT.mint := PublicKey_toString (mint nft);
     NFT.name :=
       or_else (name <$> metadata nft)
         ("NFT #" ++ substring 0 4 (PublicKey_toString (mint nft)));
     NFT.image := or_else (image <$> metadata nft) PLACEHOLDER_IMAGE;
     NFT.description := metadata nft ≫= description;
     NFT.symbol := metadata nft ≫= symbol;
     NFT.attributes := attributes <$> metadata nft;
     NFT.collection := metadata nft ≫= collection;
     NFT.isListed := isListed nft |}.

Definition useNFTs (PLACEHOLDER_IMAGE : string) (owned : list OwnedNFT)
  : list NFT.t :=
  map (simplify PLACEHOLDER_IMAGE) owned.

End OwnedNFTs.

(** ** The profile page *)

Module ProfilePage.
Import OwnedNFTs.

(** A listing account of the marketplace program, as [useListings]
    returns it; the page reads the seller and the mint. *)
Record ListingAccount : Type :=
  { seller : PublicKey; nftMint : PublicKey; price : number }.
Record Listing : Type := { listing_publicKey : PublicKey; account : ListingAccount }.

(** Filter listings to show only user's listings *)
Definition myListings (publicKey : option PublicKey) (listings : list Listing)
  : list Listing :=
  match publicKey with
  | None => []
  | Some key =>
      List.filter (fun l => PublicKey_equals (seller (account l)) key) listings
  end.

(** Filter owned NFTs to exclude those already listed *)
Definition listedMints (mine : list Listing) : gset string :=
  list_to_set (map (fun l => PublicKey_toString (nftMint (account l))) mine).

Definition ownedNotListed (nfts : list NFT.t) (listed : gset string)
  : list NFT.t :=
  List.filter (fun n => negb (bool_decide (NFT.mint n ∈ listed))) nfts.

(** The "available to list" view the page renders. *)
Definition availableToList (publicKey : option PublicKey)
    (listings : list Listing) (nfts : list NFT.t) : list NFT.t :=
  ownedNotListed nfts (listedMints (myListings publicKey listings)).

End ProfilePage.

(** ** The wallet side-panel: effects and the MAX button *)

Module WalletPanel.
Import WalletSheet.

Inductive TabType : Type := assets | send | receive | activity.

(** [Math.max] of two numbers. *)
Definition Math_max (a b : number) : number :=
  if isNaN a || isNaN b then NaN
  else if lt a b then b
  else if lt b a then a
  else match a with
       | S754_zero true => b
       | _ => a
       end.

(** The literal [0.001]. *)
Definition milli : number := div (of_Z 1) (of_Z 1000).

Section Effects.

Context (P : Platform) (H : Hooks P).

Notation "x <- m ;; k" := (bind P m (fun x => k))
  (at level 100, m at next level, right associativity).
Notation "m ;; k" := (bind P m (fun _ => k))
  (at level 100, right associativity).

(** Load cached data on mount: whatever the cache holds is shown,
    without a look at its age. *)
Definition loadCached : M P unit :=
  match publicKey H with
  | Some _ =>
      (* Load from cache immediately *)
      cachedBalance <- readCache P (balanceCacheKey P H) ;;
      (if not_null cachedBalance then setBalance P cachedBalance else ret P tt) ;;
      cachedTxs <- readCache P (txCacheKey P H) ;;
      if not_null cachedTxs then setTransactions P cachedTxs else ret P tt
  | None => ret P tt
  end.

(** Set max amount. [toFixed] is the built-in of that name. *)
Definition setMaxAmount (toFixed : number -> nat -> string) : M P unit :=
  known <- gets P balance ;;
  if not_null known then
    let max := Math_max (of_Z 0) (sub (ToNumber P known) milli) in
    setAmount P (toFixed max 6%nat)
  else ret P tt.

(** *** The two halves of a fetch

    The effect below starts both fetches without awaiting either, so
    each is split at its [await]: up to the request, and from the
    reply on. *)

(** The request goes out: it is logged, and its reply is known to the
    environment. *)
Definition issue {A : Type} (call : NetCall P) (reply : Z -> Reply A)
  : M P (Reply A) :=
  fun s =>
    let w := world s in
    (reply (clock w),
     {| sheet := sheet s;
        world := {| localStorage := localStorage w; clock := clock w;
                    net_log := net_log w ++ [call];
                    console := console w; draws := draws w |} |}).

(** A reply arrives: the clock is at its time of arrival. *)
Definition arrive (time : Z) : M P unit :=
  on_world P (fun w =>
    {| localStorage := localStorage w; clock := time;
       net_log := net_log w; console := console w; draws := draws w |}).

Definition now : M P Z := fun s => (clock (world s), s).

(** [fetchBalance] up to its [await]: [None] when it has returned. *)
Definition beginBalance (forceRefresh : bool) : M P (option (Reply number)) :=
  match publicKey H, connection H with
  | Some pk, Some conn =>
      served <- balanceFromCache P H forceRefresh ;;
      if served then ret P None
      else
        setLoadingBalance P true ;;
        reply <- issue (CallGetBalance pk) (getBalance conn pk) ;;
        ret P (Some reply)
  | _, _ => ret P None
  end.

(** [fetchBalance] from the reply on. *)
Definition completeBalance (bal : Result number) : M P unit :=
  match bal with
  | Ok bal =>
      let balanceInSol := div bal LAMPORTS_PER_SOL in
      setBalance P (VNum balanceInSol) ;;
      writeCache P (balanceCacheKey P H) (VNum balanceInSol)
  | Throw err =>
      console_error P "Failed to fetch balance:" err ;;
      setBalance P VNull
  end ;;
  setLoadingBalance P false.

Definition beginTransactions (forceRefresh : bool)
  : M P (option (Reply (list SignatureInfo))) :=
  match publicKey H, connection H with
  | Some pk, Some conn =>
      served <- transactionsFromCache P H forceRefresh ;;
      if served then ret P None
      else
        setLoadingTxs P true ;;
        reply <- issue (CallGetSignaturesForAddress pk 10)
                       (getSignaturesForAddress conn pk 10) ;;
        ret P (Some reply)
  | _, _ => ret P None
  end.

Definition completeTransactions (signatures : Result (list SignatureInfo))
  : M P unit :=
  match signatures with
  | Ok signatures =>
      txs <- mapSignatures P signatures ;;
      setTransactions P (TransactionItems_value txs) ;;
      writeCache P (txCacheKey P H) (TransactionItems_value txs)
  | Throw err =>
      console_error P "Failed to fetch transactions:" err
  end ;;
  setLoadingTxs P false.

(** A fetch run on its own: the request, then the reply. *)
Definition alone {A : Type} (begin : M P (option (Reply A)))
    (complete : Result A -> M P unit) : M P unit :=
  issued <- now ;;
  pending <- begin ;;
  match pending with
  | None => ret P tt
  | Some reply =>
      arrive (issued + Z.of_N (elapsed reply)) ;;
      complete (outcome reply)
  end.

(** The effect run when the sheet opens: fetch with cache check.
    Both requests go out at once; the replies are handled in the order
    of their arrival, the balance first when they arrive together. *)
Definition openEffect (isOpen connected : bool) (activeTab : TabType) : M P unit :=
  if isOpen && connected
     && match publicKey H with Some _ => true | None => false end then
    issued <- now ;;
    balanceReply <- beginBalance false ;;
    txsReply <- match activeTab with
                | activity => beginTransactions false
                | _ => ret P None
                end ;;
    match balanceReply, txsReply with
    | None, None => ret P tt
    | Some b, None =>
        arrive (issued + Z.of_N (elapsed b)) ;; completeBalance (outcome b)
    | None, Some t =>
        arrive (issued + Z.of_N (elapsed t)) ;; completeTransactions (outcome t)
    | Some b, Some t =>
        if (elapsed b <=? elapsed t)%N then
          arrive (issued + Z.of_N (elapsed b)) ;; completeBalance (outcome b) ;;
          arrive (issued + Z.of_N (elapsed t)) ;; completeTransactions (outcome t)
        else
          arrive (issued + Z.of_N (elapsed t)) ;; completeTransactions (outcome t) ;;
          arrive (issued + Z.of_N (elapsed b)) ;; completeBalance (outcome b)
    end
  else ret P tt.

End Effects.

End WalletPanel.

(** ** The profile page: what the two tabs render *)

Module ProfileTabs.
Import OwnedNFTs ProfilePage.

Definition ALL_LISTED : string :=
  "All your NFTs are currently listed on the marketplace.".
Definition NONE_OWNED : string :=
  "You don't own any NFTs yet. Buy some from the marketplace!".

(** The "Owned" tab: the loading grid, the empty state with its
    description, or one card per NFT. *)
Inductive OwnedTab : Type :=
| OwnedLoading
| OwnedEmpty (description : string)
| OwnedGrid (cards : list NFT.t).

(** The "Listed" tab; the empty state may carry the "List an NFT"
    button. *)
Inductive ListedTab : Type :=
| ListedLoading
| ListedEmpty (listAnNFT : bool)
| ListedGrid (cards : list Listing).

Inductive Screen : Type :=
| ConnectYourWallet
| Profile (owned : OwnedTab) (listed : ListedTab).

Section Render.

Context (publicKey : option PublicKey) (listings : list Listing)
  (nfts : list NFT.t) (listingsLoading nftsLoading : bool).

Definition ownedTab : OwnedTab :=
  let ownedNotListed := availableToList publicKey listings nfts in
  if nftsLoading then OwnedLoading
  else if (length ownedNotListed =? 0)%nat then
    OwnedEmpty (if (0 <? length nfts)%nat then ALL_LISTED else NONE_OWNED)
  else OwnedGrid ownedNotListed.

Definition listedTab : ListedTab :=
  let myListings := myListings publicKey listings in
  let ownedNotListed := availableToList publicKey listings nfts in
  if listingsLoading then ListedLoading
  else if (length myListings =? 0)%nat then
    ListedEmpty (0 <? length ownedNotListed)%nat
  else ListedGrid myListings.

Definition render (connected : bool) : Screen :=
  match connected, publicKey with
  | true, Some _ => Profile ownedTab listedTab
  | _, _ => ConnectYourWallet
  end.

End Render.

End ProfileTabs.

(** ** The NFT detail page *)

Module NFTDetailPage.
Import ProfilePage.

Inductive TransactionState : Type := idle | pending | success | error.

(** What a [setTimeout] callback of the page does when it fires. *)
Inductive Timeout : Type :=
| Refetch
| RouterPush (href : string)
| ClearCopied.

(** The [useState] cells of the page and, outside the component, the
    clock (milliseconds), the timers set with the time they are due,
    and the console. *)
Record Page : Type :=
  { txState : TransactionState;
    txMessage : string;
    txSignature : string;
    copied : option string;
    now : Z;
    timeouts : list (Z * Timeout);
    console : list (string * Error) }.

(** The two calls into the program library: each signs and sends a
    transaction and yields its signature. *)
Record Library : Type :=
  { ProgramClient : Type;
    buyNft : ProgramClient -> PublicKey -> Z -> Reply string;
    cancelListing : ProgramClient -> PublicKey -> Z -> Reply string }.

Inductive Action : Type := ConnectWalletToBuy | CancelListing | BuyNow.

Inductive Screen : Type :=
| LoadingSkeleton
| NotFound (reason : string)
| Detail (yourListing : bool) (action : Action).

Definition setTxState (t : TransactionState) (s : Page) : Page :=
  {| txState := t; txMessage := txMessage s; txSignature := txSignature s;
     copied := copied s; now := now s; timeouts := timeouts s;
     console := console s |}.

Definition setTxMessage (m : string) (s : Page) : Page :=
  {| txState := txState s; txMessage := m; txSignature := txSignature s;
     copied := copied s; now := now s; timeouts := timeouts s;
     console := console s |}.

Definition setTxSignature (sig : string) (s : Page) : Page :=
  {| txState := txState s; txMessage := txMessage s; txSignature := sig;
     copied := copied s; now := now s; timeouts := timeouts s;
     console := console s |}.

Definition setTimeout (f : Timeout) (delay : Z) (s : Page) : Page :=
  {| txState := txState s; txMessage := txMessage s;
     txSignature := txSignature s; copied := copied s; now := now s;
     timeouts := (timeouts s ++ [(now s + delay, f)])%list;
     console := console s |}.

Definition console_error (label : string) (e : Error) (s : Page) : Page :=
  {| txState := txState s; txMessage := txMessage s;
     txSignature := txSignature s; copied := copied s; now := now s;
     timeouts := timeouts s;
     console := (console s ++ [(label, e)])%list |}.

(** The reply of an awaited call arrives. *)
Definition wait (ms : N) (s : Page) : Page :=
  {| txState := txState s; txMessage := txMessage s;
     txSignature := txSignature s; copied := copied s;
     now := now s + Z.of_N ms; timeouts := timeouts s;
     console := console s |}.

Section Component.

Context (P : Platform) (L : Library).
Context (publicKey : option PublicKey) (connected : bool).
Context (program : option (ProgramClient L)).
Context (listing : option Listing) (loading : bool) (error_text : option string).
Context (mintAddress : string).

Definition isOwner : bool :=
  match listing, publicKey with
  | Some l, Some key => PublicKey_equals key (seller (account l))
  | _, _ => false
  end.

(** The [catch] of both handlers. *)
Definition caught (label : string) (err : Error) (s : Page) : Page :=
  setTxMessage (if is_Error err then message err else "Transaction failed")
    (setTxState error (console_error label err s)).

Definition handleBuy (s : Page) : Page :=
  match program, listing with
  | Some program, Some _ =>
      let s := setTxMessage "Processing purchase..." (setTxState pending s) in
      match PublicKey_new P mintAddress with
      | None => caught "Buy error:" (PublicKey_error P mintAddress) s
      | Some mint =>
          let reply := buyNft L program mint (now s) in
          let s := wait (elapsed reply) s in
          match outcome reply with
          | Ok signature =>
              let s := setTxSignature signature s in
              let s := setTxState success s in
              let s := setTxMessage "NFT purchased successfully!" s in
              (* Refresh listing after successful purchase *)
              setTimeout Refetch 2000 s
          | Throw err => caught "Buy error:" err s
          end
      end
  | _, _ => s
  end.

Definition handleCancel (s : Page) : Page :=
  match program, listing with
  | Some program, Some _ =>
      let s := setTxMessage "Cancelling listing..." (setTxState pending s) in
      match PublicKey_new P mintAddress with
      | None => caught "Cancel error:" (PublicKey_error P mintAddress) s
      | Some mint =>
          let reply := cancelListing L program mint (now s) in
          let s := wait (elapsed reply) s in
          match outcome reply with
          | Ok signature =>
              let s := setTxSignature signature s in
              let s := setTxState success s in
              let s := setTxMessage "Listing cancelled successfully!" s in
              (* Redirect to profile after successful cancel *)
              setTimeout (RouterPush "/profile") 2000 s
          | Throw err => caught "Cancel error:" err s
          end
      end
  | _, _ => s
  end.

Definition closeModal (s : Page) : Page :=
  setTxSignature "" (setTxMessage "" (setTxState idle s)).

(** The button of the price card. *)
Definition action : Action :=
  if negb connected then ConnectWalletToBuy
  else if isOwner then CancelListing
  else BuyNow.

Definition render : Screen :=
  if loading then LoadingSkeleton
  else
    match error_text, listing with
    | Some reason, _ =>
        if String.eqb reason ""
        then match listing with
             | Some _ => Detail isOwner action
             | None => NotFound "This listing may have been sold or cancelled."
             end
        else NotFound reason
    | None, Some _ => Detail isOwner action
    | None, None => NotFound "This listing may have been sold or cancelled."
    end.

(** What a click on the button of the price card runs. *)
Definition click (s : Page) : Page :=
  match action with
  | ConnectWalletToBuy => s
  | CancelListing => handleCancel s
  | BuyNow => handleBuy s
  end.

(** The modal over the page. *)
Definition isOpen (s : Page) : bool :=
  match txState s with idle => false | _ => true end.

Definition title (s : Page) : string :=
  match txState s with
  | pending => "Processing..."
  | success => "Success!"
  | _ => "Transaction Failed"
  end.

End Component.

End NFTDetailPage.

(** ** A reference platform

    Stand-ins for the built-ins, used to run the callbacks on concrete
    inputs: decimal printing and reading of numbers, JSON printing of
    data values with parsing as the inverse of printing over a given
    set of values, and base58 text as the test of a public key. *)

Module Reference.
Import WalletSheet.

Definition quote : string := String "034"%char EmptyString.

Definition is_zero_char (c : ascii) : bool := Ascii.eqb c "0"%char.

Fixpoint drop_zeros (cs : list ascii) : list ascii :=
  match cs with
  | c :: rest => if is_zero_char c then drop_zeros rest else cs
  | [] => []
  end.

(** [n / 10^k] in decimal, without trailing zeros. *)
Definition decimal_text (n : N) (k : nat) : string :=
  let digits := list_ascii_of_string (pretty n) in
  let padded := (repeat "0"%char (S k - length digits) ++ digits)%list in
  let whole := take (length padded - k) padded in
  let fraction := rev (drop_zeros (rev (drop (length padded - k) padded))) in
  match fraction with
  | [] => string_of_list_ascii whole
  | _ => string_of_list_ascii whole ++ "." ++ string_of_list_ascii fraction
  end.

(** The exact decimal numeral of a number; [null] for what JSON cannot
    write. *)
Definition number_text (x : number) : string :=
  match x with
  | S754_zero _ => "0"
  | S754_finite s m e =>
      (if s then "-" else "") ++
      match e with
      | Zneg k => decimal_text (Npos m * 5 ^ Npos k) (Pos.to_nat k)
      | _ => pretty (Z.to_N (Zpos m * 2 ^ e))
      end
  | _ => "null"
  end.

Fixpoint stringify (v : value) : string :=
  match v with
  | VUndefined | VNull => "null"
  | VBool b => if b then "true" else "false"
  | VNum n => number_text n
  | VStr s => quote ++ s ++ quote
  | VArr items =>
      "[" ++
      (fix elements (l : list value) : string :=
         match l with
         | [] => ""
         | [x] => stringify x
         | x :: rest => stringify x ++ "," ++ elements rest
         end) items ++ "]"
  | VObj fields =>
      "{" ++
      (fix members (l : list (string * value)) : string :=
         match l with
         | [] => ""
         | [(k, x)] => quote ++ k ++ quote ++ ":" ++ stringify x
         | (k, x) :: rest =>
             quote ++ k ++ quote ++ ":" ++ stringify x ++ "," ++ members rest
         end) fields ++ "}"
  end.

(** Parsing, for the texts of the values in [known]. *)
Definition parse_among (known : list value) (text : string) : option value :=
  List.find (fun v => String.eqb (stringify v) text) known.

Definition digit_of (c : ascii) : option Z :=
  let n := nat_of_ascii c in
  if ((48 <=? n) && (n <=? 57))%nat then Some (Z.of_nat (n - 48)) else None.

Fixpoint read_digits (s : string) (acc : Z) (count : nat) : Z * nat * string :=
  match s with
  | String c rest =>
      match digit_of c with
      | Some d => read_digits rest (10 * acc + d) (S count)
      | None => (acc, count, s)
      end
  | EmptyString => (acc, count, s)
  end.

(** [parseFloat] on a sign, digits and a fraction; what follows them is
    ignored, and a text without a leading numeral gives [NaN]. *)
Definition decimal_parseFloat (text : string) : number :=
  let '(negative, body) :=
    match text with
    | String "-"%char rest => (true, rest)
    | String "+"%char rest => (false, rest)
    | _ => (false, text)
    end in
  let '(whole, n_whole, rest) := read_digits body 0 0 in
  let '(fraction, n_fraction, _) :=
    match rest with
    | String "."%char digits => read_digits digits 0 0
    | _ => (0, 0%nat, rest)
    end in
  if (n_whole + n_fraction =? 0)%nat then NaN
  else
    let magnitude :=
      div (of_Z (whole * 10 ^ Z.of_nat n_fraction + fraction))
          (of_Z (10 ^ Z.of_nat n_fraction)) in
    if negative then SFopp magnitude else magnitude.

Definition base58_alphabet : list ascii :=
  list_ascii_of_string
    "123456789ABCDEFGHJKLMNPQRSTUVWXYZabcdefghijkmnopqrstuvwxyz".

Definition is_base58 (text : string) : bool :=
  forallb (fun c => existsb (Ascii.eqb c) base58_alphabet)
          (list_ascii_of_string text).

(** A public key is 32 bytes: 32 to 44 base58 characters. *)
Definition base58_PublicKey (text : string) : option PublicKey :=
  if is_base58 text
     && (32 <=? String.length text)%nat && (String.length text <=? 44)%nat
  then Some {| toBase58 := text |} else None.

(** The decoder rejects a character outside the alphabet; the
    constructor rejects a decoded text of another length. *)
Definition base58_error (text : string) : Error :=
  {| is_Error := true;
     message := if is_base58 text then "Invalid public key input"
                else "Non-base58 character" |}.

Definition RangeError : Error :=
  {| is_Error := true; message := "The number cannot be converted to a BigInt" |}.

(** The transfer instruction carries its parameters; a quantity that
    is not a non-negative finite number cannot be encoded. *)
Definition encode_transfer (p : TransferParams) : Result TransferParams :=
  match lamports p with
  | S754_zero _ | S754_finite false _ _ => Ok p
  | _ => Throw RangeError
  end.

Definition platform (known : list value) : Platform :=
  {| JSON_stringify := stringify;
     JSON_parse := parse_among known;
     ToNumber_composite := fun _ => NaN;
     parseFloat := decimal_parseFloat;
     PublicKey_new := base58_PublicKey;
     PublicKey_error := base58_error;
     Instruction := TransferParams;
     SystemProgram_transfer := encode_transfer;
     Math_random := fun i => div (of_Z (Z.of_nat (i mod 4))) (of_Z 4) |}.

End Reference.

(** ** Concrete scenarios *)

Module Scenario.
Import WalletSheet.

Definition wallet : PublicKey :=
  {| toBase58 := "7xKXtg2CW87d97TXJSDpbD5jBkheTqA83TZRuJosgAsU" |}.

Definition TransportError : Error :=
  {| is_Error := true; message := "failed to fetch" |}.

(** A node that answers every query after 120 ms: 3 SOL of balance. *)
Definition healthy : Connection :=
  {| getBalance := fun _ _ =>
       {| outcome := Ok (of_Z 3000000000); elapsed := 120 |};
     getSignaturesForAddress := fun _ _ _ =>
       {| outcome :=
            Ok [ {| signature := "5VERv8NMvzbJMEkV8xnrLkEaWRtSz9CosKDYjCJjBRnb";
                    blockTime := VNum (of_Z 1700000000);
                    err := VNull |} ];
          elapsed := 120 |};
     confirmTransaction := fun _ _ _ => {| outcome := Ok tt; elapsed := 120 |} |}.

(** A node that cannot be reached. *)
Definition unreachable : Connection :=
  {| getBalance := fun _ _ =>
       {| outcome := Throw TransportError; elapsed := 5000 |};
     getSignaturesForAddress := fun _ _ _ =>
       {| outcome := Throw TransportError; elapsed := 5000 |};
     confirmTransaction := fun _ _ _ =>
       {| outcome := Throw TransportError; elapsed := 5000 |} |}.

Definition hooks (P : Platform) (conn : Connection) : Hooks P :=
  {| connection := Some conn;
     publicKey := Some wallet;
     sendTransaction := Some (fun _ _ =>
       {| outcome := Ok "3nQ1fJ7mRk"; elapsed := 800 |}) |}.

Definition empty_storage : Storage :=
  {| window_defined := true; accessible := true; items := ∅; quota := 5000 |}.

Definition blank : Sheet :=
  {| balance := VNull; loadingBalance := false;
     transactions := VArr []; loadingTxs := false;
     recipient := ""; amount := "";
     sending := false; sendError := ""; sendSuccess := "" |}.

(** A balance of 2.5 SOL cached at time [t0]. *)
Definition t0 : Z := 1700000000000.
Definition cached_balance : value := VNum (div (of_Z 5) (of_Z 2)).
Definition entry : value := CachedData cached_balance (of_Z t0).

(** The fresh entry a later refetch writes: 3 SOL at [t0 + 45120]. *)
Definition fresh_entry : value :=
  CachedData (VNum (of_Z 3)) (of_Z (t0 + 45120)).

Definition P0 : Platform := Reference.platform [entry; fresh_entry].

Definition stored : Storage :=
  setCache P0 (of_Z t0) empty_storage ("balance_" ++ toBase58 wallet) cached_balance.

(** The panel [age] milliseconds after the balance was cached. *)
Definition after (age : Z) (u : Sheet) : St P0 :=
  {| sheet := u;
     world := {| localStorage := stored; clock := t0 + age;
                 net_log := []; console := []; draws := 0 |} |}.

(** The send form filled in with a recipient and an amount of 100,
    the panel showing the given balance. *)
Definition filled (shown : value) : St P0 :=
  {| sheet :=
       {| balance := shown; loadingBalance := false;
          transactions := VArr []; loadingTxs := false;
          recipient := "9WzDXwBbmkg8ZTbNMqUxvQRAyrZzDsGYdLVL9zYtAWWM";
          amount := "100"; sending := false;
          sendError := ""; sendSuccess := "" |};
     world := world (after 0 blank) |}.

(** A platform whose transfer builder encodes the quantity as an
    unsigned 64-bit integer, as the library does, and the send form on
    it: no balance known, and an amount of twenty thousand million. *)
Definition OutOfRange : Error :=
  {| is_Error := true;
     message := "The value is out of range for an unsigned 64-bit integer" |}.

Definition encode_u64 (p : TransferParams) : Result TransferParams :=
  match lamports p with
  | S754_zero _ => Ok p
  | S754_finite false m e =>
      if (Z.shiftl (Zpos m) e <? 2 ^ 64)%Z then Ok p else Throw OutOfRange
  | _ => Throw OutOfRange
  end.

Definition P64 : Platform :=
  {| JSON_stringify := JSON_stringify P0;
     JSON_parse := JSON_parse P0;
     ToNumber_composite := ToNumber_composite P0;
     parseFloat := parseFloat P0;
     PublicKey_new := PublicKey_new P0;
     PublicKey_error := PublicKey_error P0;
     Instruction := TransferParams;
     SystemProgram_transfer := encode_u64;
     Math_random := Math_random P0 |}.

Definition payee : PublicKey :=
  {| toBase58 := "9WzDXwBbmkg8ZTbNMqUxvQRAyrZzDsGYdLVL9zYtAWWM" |}.

Definition oversized : St P64 :=
  {| sheet :=
       {| balance := VNull; loadingBalance := false;
          transactions := VArr []; loadingTxs := false;
          recipient := "9WzDXwBbmkg8ZTbNMqUxvQRAyrZzDsGYdLVL9zYtAWWM";
          amount := "20000000000"; sending := false;
          sendError := ""; sendSuccess := "" |};
     world := {| localStorage := stored; clock := t0;
                 net_log := []; console := []; draws := 0 |} |}.

End Scenario.

Module ResolverScenario.
Import OwnedNFTs.

Definition wallet : PublicKey := Scenario.wallet.

Definition mintA : string := "4Nd1mBQtrMJVYVfKf2PJy9NZUZdTAsp7D4xWLs4gDB4T".
Definition mintB : string := "8JUjWjAyXTMB4ZXcV7nk3p6Gg1fWAAoSck7xekuyADKL".
Definition mintC : string := "EPjFWdd5AufqSSqeM2qN1xzybapC8G4wEGGkZwyTDt1v".

Definition holding (account mint : string) (ui decimal_places : Z) : TokenAccount :=
  {| pubkey := {| toBase58 := account |};
     info := {| ParsedInfo.mint := mint;
                ParsedInfo.tokenAmount :=
                  {| uiAmount := Some (of_Z ui);
                     decimals := of_Z decimal_places |} |} |}.

(** Three token accounts: two unit holdings and, between them, a
    fungible balance of 1000 with six decimals. *)
Definition holdings : list TokenAccount :=
  [ holding "3h1zGmCwsRJnVk5BuRNMLsPaQu1y2aqXqXDWYCgrp5UG" mintA 1 0;
    holding "5Q544fKrFoe6tsEbD7S8EmxGTJYAKtTVhAW5Q5pge4j1" mintC 1000 6;
    holding "9xQeWvG816bUx9EPjHmaT23yvVM2ZWbrrpZb9PusVFin" mintB 1 0 ].

Definition listing_of (mint : PublicKey) : PublicKey :=
  {| toBase58 := "listing/" ++ toBase58 mint |}.

Definition artwork : NFTMetadata :=
  {| name := "Pixel Cat"; image := "https://arweave.net/cat.png";
     description := Some "A cat"; symbol := Some "PXL";
     attributes := [("background", "blue")]; collection := None |}.

(** The metadata of [mintB] cannot be fetched. *)
Definition program : Program :=
  {| getListingPDA := fun mint => (listing_of mint, 255%nat);
     fetchNFTMetadataFromChain := fun mint =>
       if String.eqb (toBase58 mint) mintB
       then Throw Scenario.TransportError
       else Ok (Some artwork) |}.

(** [mintB] is listed, [mintA] is not. *)
Definition chain : Connection :=
  {| getParsedTokenAccountsByOwner := fun _ => Ok holdings;
     getAccountInfo := fun address =>
       if String.eqb (toBase58 address) ("listing/" ++ mintB)
       then Ok (Some {| owner := wallet; account_lamports := of_Z 2039280 |})
       else Ok None |}.

(** Every listing address holds an account. *)
Definition chain_all_listed : Connection :=
  {| getParsedTokenAccountsByOwner := fun _ => Ok holdings;
     getAccountInfo := fun _ =>
       Ok (Some {| owner := wallet; account_lamports := of_Z 2039280 |}) |}.

(** The replies for the second NFT arrive before those for the first. *)
Definition second_first : list nat := [1; 0; 1; 0]%nat.
Definition in_turn : list nat := [0; 1; 0; 1]%nat.

Definition idle : HookState := {| nfts := []; loading := true; error := None |}.

Definition P0 : Platform := Reference.platform [].

Definition resolution : HookState * list (string * Error) :=
  refetch P0 program chain second_first (Some wallet) idle.

(** The record of [mintA] when its listing exists and its metadata is
    fetched, and the record of [mintB], whose metadata fetch throws. *)
Definition recordA : OwnedNFT :=
  {| mint := {| toBase58 := mintA |};
     tokenAccount := {| toBase58 := "3h1zGmCwsRJnVk5BuRNMLsPaQu1y2aqXqXDWYCgrp5UG" |};
     amount := Some (of_Z 1);
     metadata := Some artwork;
     isListed := true |}.

Definition recordB : OwnedNFT :=
  {| mint := {| toBase58 := mintB |};
     tokenAccount := {| toBase58 := "9xQeWvG816bUx9EPjHmaT23yvVM2ZWbrrpZb9PusVFin" |};
     amount := Some (of_Z 1);
     metadata := None;
     isListed := false |}.

End ResolverScenario.

(** ** Further scenarios *)

Module MoreScenarios.
Import WalletSheet Scenario.

(** No wallet is connected. *)
Definition no_wallet (P : Platform) : Hooks P :=
  {| connection := Some healthy; publicKey := None; sendTransaction := None |}.

(** Storage that refuses every access (a browser with storage
    disabled), and the panel on top of it. *)
Definition blocked_storage : Storage :=
  {| window_defined := true; accessible := false; items := ∅; quota := 5000 |}.

Definition on_storage (st : Storage) (now : Z) (u : Sheet) : St P0 :=
  {| sheet := u;
     world := {| localStorage := st; clock := now;
                 net_log := []; console := []; draws := 0 |} |}.

(** A second wallet, on the same browser. *)
Definition other_wallet : PublicKey :=
  {| toBase58 := "9WzDXwBbmkg8ZTbNMqUxvQRAyrZzDsGYdLVL9zYtAWWM" |}.

Definition other_hooks (P : Platform) : Hooks P :=
  {| connection := Some healthy;
     publicKey := Some other_wallet;
     sendTransaction := None |}.

(** A node whose history holds a finalised and a failed transaction,
    the second without block time. *)
Definition InstructionError : value :=
  VObj [("InstructionError", VArr [VNum (of_Z 0); VStr "Custom"])].

Definition with_history : Connection :=
  {| getBalance := fun _ _ =>
       {| outcome := Ok (of_Z 3000000000); elapsed := 120 |};
     getSignaturesForAddress := fun _ _ _ =>
       {| outcome :=
            Ok [ {| signature := "5VERv8NMvzbJMEkV8xnrLkEaWRtSz9CosKDYjCJjBRnb";
                    blockTime := VNum (of_Z 1700000000);
                    err := VNull |};
                 {| signature := "2jg9xbGLtZRsiJBrDWQnz33JuLjDkiKSZuxZPdjJ3qrJ";
                    blockTime := VNull;
                    err := InstructionError |} ];
          elapsed := 200 |};
     confirmTransaction := fun _ _ _ => {| outcome := Ok tt; elapsed := 120 |} |}.

(** The user declines the signature in the wallet. *)
Definition UserRejected : Error :=
  {| is_Error := true; message := "User rejected the request." |}.

Definition declining (P : Platform) : Hooks P :=
  {| connection := Some healthy;
     publicKey := Some wallet;
     sendTransaction := Some (fun _ _ =>
       {| outcome := Throw UserRejected; elapsed := 4000 |}) |}.

(** A [toFixed] for whole numbers: the digits, a point and as many
    zeros as asked for; [NaN] otherwise. *)
Definition whole_toFixed (x : number) (digits : nat) : string :=
  match x with
  | S754_zero _ => "0." ++ string_of_list_ascii (repeat "0"%char digits)
  | S754_finite false m (Zpos _ | Z0) =>
      Reference.number_text x ++ "." ++ string_of_list_ascii (repeat "0"%char digits)
  | _ => "NaN"
  end.

(** The panel showing a balance of a ten-thousandth of a SOL. *)
Definition dust : St P0 :=
  {| sheet :=
       {| balance := VNum (div (of_Z 1) (of_Z 10000)); loadingBalance := false;
          transactions := VArr []; loadingTxs := false;
          recipient := ""; amount := "";
          sending := false; sendError := ""; sendSuccess := "" |};
     world := world (after 0 blank) |}.

End MoreScenarios.

Module MoreResolverScenarios.
Import OwnedNFTs ResolverScenario.

(** The enumeration itself fails. *)
Definition offline : Connection :=
  {| getParsedTokenAccountsByOwner := fun _ => Throw Scenario.TransportError;
     getAccountInfo := fun _ => Throw Scenario.TransportError |}.

(** The hook showing the records of an earlier pass. *)
Definition showing : HookState :=
  {| nfts := [recordA]; loading := false; error := None |}.

(** The replies for the second NFT never arrive. *)
Definition first_only : list nat := [0; 0]%nat.

Definition PLACEHOLDER_IMAGE : string := "/placeholder-nft.png".

End MoreResolverScenarios.

(** ** Scenarios for the pages *)

Module PageScenarios.
Import OwnedNFTs ProfilePage.

Definition wallet : PublicKey := Scenario.wallet.
Definition visitor : PublicKey := MoreScenarios.other_wallet.

Definition keyA : PublicKey := {| toBase58 := ResolverScenario.mintA |}.
Definition keyB : PublicKey := {| toBase58 := ResolverScenario.mintB |}.

(** [mintB] listed by the wallet for 1.5 SOL, [mintA] listed by
    another seller. *)
Definition listingB : Listing :=
  {| listing_publicKey := ResolverScenario.listing_of keyB;
     account := {| seller := wallet; nftMint := keyB;
                   price := of_Z 1500000000 |} |}.

Definition foreignA : Listing :=
  {| listing_publicKey := ResolverScenario.listing_of keyA;
     account := {| seller := visitor; nftMint := keyA;
                   price := of_Z 900000000 |} |}.

Definition market : list Listing := [foreignA; listingB].

(** The two records of the resolver scenario as the pages get them. *)
Definition cards : list NFT.t :=
  useNFTs MoreResolverScenarios.PLACEHOLDER_IMAGE
    [ResolverScenario.recordA; ResolverScenario.recordB].

(** A relabelling of a card that leaves its mint alone. *)
Definition flagged (b : bool) (n : NFT.t) : NFT.t :=
  {| NFT.mint := NFT.mint n; NFT.name := NFT.name n; NFT.image := NFT.image n;
     NFT.description := NFT.description n; NFT.symbol := NFT.symbol n;
     NFT.attributes := NFT.attributes n; NFT.collection := NFT.collection n;
     NFT.isListed := b |}.

End PageScenarios.

Module DetailScenarios.
Import NFTDetailPage.

(** A program library whose purchase goes through after 900 ms and
    whose cancellation is declined in the wallet after 4 s. *)
Definition library : Library :=
  {| ProgramClient := unit;
     buyNft := fun _ _ _ =>
       {| outcome := Ok "4sGjMW1sUnHzSxGspuhpqLDx6wiyjNtZ"; elapsed := 900 |};
     cancelListing := fun _ _ _ =>
       {| outcome := Throw MoreScenarios.UserRejected; elapsed := 4000 |} |}.

(** The page at rest, showing the signature of an earlier purchase. *)
Definition at_rest : Page :=
  {| txState := idle; txMessage := "";
     txSignature := "2jg9xbGLtZRsiJBrDWQnz33JuLjDkiKSZuxZPdjJ3qrJ";
     copied := None; now := Scenario.t0; timeouts := []; console := [] |}.

End DetailScenarios.

(** ** Vocabulary of the specification *)

Module Vocabulary.
Import WalletSheet.

(** The platform's JSON functions return [v] from the text they print
    for it, and that text is not the empty string. *)
Definition JSON_roundtrips (P : Platform) (v : value) : Prop :=
  JSON_stringify P v <> "" /\ JSON_parse P (JSON_stringify P v) = Some v.

(** The storage takes the item: it exists, may be accessed and has room. *)
Definition storage_accepts (st : Storage) (k v : string) : bool :=
  window_defined st && accessible st
  && (used (<[k := v]> (items st)) <=? quota st)%nat.

(** The two kinds of cached data, with the type of their payload. *)
Inductive CacheKind : Type := KBalance | KTransactions.

Definition payload (k : CacheKind) : Type :=
  match k with
  | KBalance => number
  | KTransactions => list TransactionItem.t
  end.

Definition payload_value {k : CacheKind} : payload k -> value :=
  match k with
  | KBalance => VNum
  | KTransactions => TransactionItems_value
  end.

Definition cacheKey {P : Platform} (H : Hooks P) (k : CacheKind) : string :=
  match k with
  | KBalance => balanceCacheKey P H
  | KTransactions => txCacheKey P H
  end.

Definition cacheTTL (k : CacheKind) : number :=
  match k with
  | KBalance => BALANCE_CACHE_TTL
  | KTransactions => TX_CACHE_TTL
  end.

(** The read path of a kind and the state cell it fills. *)
Definition fetchKind {P : Platform} (H : Hooks P) (k : CacheKind)
    (forceRefresh : bool) : M P unit :=
  match k with
  | KBalance => fetchBalance P H forceRefresh
  | KTransactions => fetchTransactions P H forceRefresh
  end.

Definition shown (k : CacheKind) (u : Sheet) : value :=
  match k with
  | KBalance => balance u
  | KTransactions => transactions u
  end.

(** The cases in which a read goes to the network: it is forced, the
    entry is not valid, or the cached payload reads as [null]. *)
Definition goes_live (P : Platform) (key : string) (ttl : number)
    (forceRefresh : bool) (s : St P) : Prop :=
  forceRefresh = true
  \/ isCacheValid P (Date_now P (world s)) (localStorage (world s)) key ttl = false
  \/ getCache P (localStorage (world s)) key = VNull.

(** What the panel shows after a rejected send: the message, and the
    success notice cleared. *)
Definition rejected (u : Sheet) (message : string) : Sheet :=
  {| balance := balance u; loadingBalance := loadingBalance u;
     transactions := transactions u; loadingTxs := loadingTxs u;
     recipient := recipient u; amount := amount u;
     sending := sending u; sendError := message; sendSuccess := "" |}.

End Vocabulary.

Module ResolverVocabulary.
Import OwnedNFTs.

(** A holding of exactly one unit of an indivisible token. *)
Definition unit_holding (a : TokenAccount) : Prop :=
  exists n,
    uiAmount (ParsedInfo.tokenAmount (info a)) = Some n
    /\ strict_eq n (of_Z 1) = true
    /\ strict_eq (decimals (ParsedInfo.tokenAmount (info a))) (of_Z 0) = true.

(** The mint text of every retained holding is a public key. *)
Definition well_formed_mints (P : Platform) (accounts : list TokenAccount) : Prop :=
  Forall (fun a => is_Some (PublicKey_new P (ParsedInfo.mint (info a))))
         (List.filter isNFT accounts).

(** What the [map] of the enumeration stage leaves in each record. *)
Definition drawn_from (P : Platform) (a : TokenAccount) (o : OwnedNFT) : Prop :=
  tokenAccount o = pubkey a
  /\ PublicKey_new P (ParsedInfo.mint (info a)) = Some (mint o).

(** The callback of one NFT run to its end. *)
Definition settle (G : Program) (connection : Connection) (nft : OwnedNFT)
  : OwnedNFT :=
  match getAccountInfo connection (fst (getListingPDA G (mint nft))) with
  | Throw _ => unresolved nft
  | Ok listingAccount =>
      match fetchNFTMetadataFromChain G (mint nft) with
      | Ok found => resolved nft listingAccount found
      | Throw _ => unresolved nft
      end
  end.

Definition advance (G : Program) (connection : Connection) (t : Task) : Task :=
  fst (resume G connection t).

(** How many replies a schedule delivers to slot [j]. *)
Definition arrivals (schedule : list nat) (j : nat) : nat :=
  count_occ Nat.eq_dec schedule j.

(** Every callback among [n] gets both of its replies. *)
Definition all_arrive (schedule : list nat) (n : nat) : Prop :=
  forall j, (j < n)%nat -> (2 <= arrivals schedule j)%nat.

End ResolverVocabulary.

(** ** Further vocabulary *)

Module SendVocabulary.
Import WalletSheet.

(** The form passes the three local checks of [handleSend]: the
    recipient is a public key, the amount is a positive number, and it
    does not exceed a known balance. *)
Definition passes_validation (P : Platform) (u : Sheet) (to : PublicKey) : Prop :=
  PublicKey_new P (recipient u) = Some to
  /\ isNaN (parseFloat P (amount u)) || le (parseFloat P (amount u)) (of_Z 0) = false
  /\ not_null (balance u)
     && gt (parseFloat P (amount u)) (ToNumber P (balance u)) = false.

(** The transfer [handleSend] asks the library to build. *)
Definition transfer_of (P : Platform) (u : Sheet) (pk to : PublicKey)
  : TransferParams :=
  {| fromPubkey := pk; toPubkey := to;
     lamports := floor (mul (parseFloat P (amount u)) LAMPORTS_PER_SOL) |}.

(** The message shown for a thrown value. *)
Definition error_text (e : Error) : string :=
  if is_Error e then message e else "Transaction failed".

(** The form as [handleSend] leaves it when the checks have passed and
    the transfer is about to be built. *)
Definition primed (P : Platform) (s : St P) : St P :=
  snd (setSending P true (snd (setSendSuccess P "" (snd (setSendError P "" s))))).

End SendVocabulary.

Module ConsoleVocabulary.
Import OwnedNFTs ResolverVocabulary.

(** One of the two lookups of an NFT throws. *)
Definition failing (G : Program) (connection : Connection) (nft : OwnedNFT) : bool :=
  match getAccountInfo connection (fst (getListingPDA G (mint nft))) with
  | Throw _ => true
  | Ok _ =>
      match fetchNFTMetadataFromChain G (mint nft) with
      | Throw _ => true
      | Ok _ => false
      end
  end.

(** The number of console lines a callback writes in its next [k]
    resumptions. *)
Fixpoint emitted (G : Program) (connection : Connection) (k : nat) (t : Task) : nat :=
  match k with
  | O => 0
  | S k' =>
      length (snd (resume G connection t))
      + emitted G connection k' (advance G connection t)
  end.

(** What slot [j] of a pool will still write under a schedule. *)
Definition to_come (G : Program) (connection : Connection) (schedule : list nat)
    (pool : Pool) (j : nat) : nat :=
  match tasks pool !! j with
  | Some t => emitted G connection (arrivals schedule j) t
  | None => 0
  end.

End ConsoleVocabulary.

Module DetailVocabulary.
Import NFTDetailPage.

(** The transaction of a handler goes through with signature [sig]:
    the address is a public key and the library call it is passed to
    is fulfilled. *)
Definition goes_through (P : Platform) (mintAddress : string)
    (call : PublicKey -> Z -> Reply string) (s : Page) (sig : string) : Prop :=
  exists mint,
    PublicKey_new P mintAddress = Some mint
    /\ outcome (call mint (now s)) = Ok sig.

(** The transaction of a handler fails with the thrown value [e]: the
    [PublicKey] constructor rejects the address and throws [e], or the
    library call it is passed to is rejected with [e]. *)
Definition fails_with (P : Platform) (mintAddress : string)
    (call : PublicKey -> Z -> Reply string) (s : Page) (e : Error) : Prop :=
  (PublicKey_new P mintAddress = None /\ e = PublicKey_error P mintAddress)
  \/ exists mint,
       PublicKey_new P mintAddress = Some mint
       /\ outcome (call mint (now s)) = Throw e.

(** The message the modal shows for a thrown value. *)
Definition shown_for (e : Error) : string :=
  if is_Error e then message e else "Transaction failed".

(** How a handler that got past its guard leaves the page: the modal
    is open, and either the transaction went through, its signature
    and the notice are shown and the timer [T] is set two seconds
    after the reply, or it failed with a thrown value, which is on the
    console under [label] with its message in the modal, no timer set
    and the signature cell untouched. *)
Definition settles (P : Platform) (mintAddress : string)
    (call : PublicKey -> Z -> Reply string) (label notice : string)
    (T : Timeout) (s s' : Page) : Prop :=
  isOpen s' = true
  /\ copied s' = copied s
  /\ ((exists sig,
         goes_through P mintAddress call s sig
         /\ txState s' = success
         /\ txSignature s' = sig
         /\ txMessage s' = notice
         /\ console s' = console s
         /\ timeouts s' = (timeouts s ++ [(now s' + 2000, T)])%list)
      \/
      (exists e,
         fails_with P mintAddress call s e
         /\ txState s' = error
         /\ txMessage s' = shown_for e
         /\ console s' = (console s ++ [(label, e)])%list
         /\ txSignature s' = txSignature s
         /\ timeouts s' = timeouts s)).

End DetailVocabulary.
(** ** Properties of the cache helpers *)

Module CacheFacts.
Import WalletSheet Vocabulary.

Section Facts.

Context (P : Platform).

Lemma setCache_accepted now st key data :
  storage_accepts st (CACHE_KEY_PREFIX ++ key)
    (JSON_stringify P (CachedData data now)) = true ->
  setCache P now st key data =
    {| window_defined := true; accessible := true;
       items := <[CACHE_KEY_PREFIX ++ key :=
                    JSON_stringify P (CachedData data now)]> (items st);
       quota := quota st |}.
Proof.
  unfold storage_accepts, setCache, setItem.
  intros Hacc. apply andb_prop in Hacc as [Hacc Hroom].
  apply andb_prop in Hacc as [Hwin Hopen].
  rewrite Hwin, Hopen. cbn. rewrite Hroom. reflexivity.
Qed.

Lemma setCache_items now st key data :
  storage_accepts st (CACHE_KEY_PREFIX ++ key)
    (JSON_stringify P (CachedData data now)) = true ->
  items (setCache P now st key data) !! (CACHE_KEY_PREFIX ++ key)
  = Some (JSON_stringify P (CachedData data now)).
Proof.
  intros Hacc. rewrite (setCache_accepted _ _ _ _ Hacc). cbn.
  apply lookup_insert_eq.
Qed.

Lemma string_eqb_empty (s : string) : s <> "" -> String.eqb s "" = false.
Proof. intros Hs. apply String.eqb_neq. exact Hs. Qed.

(** Reading an entry whose text parses to an envelope. *)
Lemma getCache_entry st key text data stamp :
  window_defined st = true -> accessible st = true ->
  items st !! (CACHE_KEY_PREFIX ++ key) = Some text ->
  text <> "" ->
  JSON_parse P text = Some (CachedData data stamp) ->
  getCache P st key = data.
Proof.
  intros Hwin Hopen Hitem Htext Hparse.
  unfold getCache, getItem. rewrite Hwin, Hopen. cbn.
  rewrite Hitem, (string_eqb_empty _ Htext), Hparse. reflexivity.
Qed.

Lemma isCacheValid_entry now st key ttl text parsed stamp :
  window_defined st = true -> accessible st = true ->
  items st !! (CACHE_KEY_PREFIX ++ key) = Some text ->
  text <> "" ->
  JSON_parse P text = Some parsed ->
  get parsed "timestamp" = Some stamp ->
  isCacheValid P now st key ttl = lt (sub now (ToNumber P stamp)) ttl.
Proof.
  intros Hwin Hopen Hitem Htext Hparse Hstamp.
  unfold isCacheValid, getItem. rewrite Hwin, Hopen. cbn.
  rewrite Hitem, (string_eqb_empty _ Htext), Hparse, Hstamp. reflexivity.
Qed.

(** put then get: the payload comes back, and the entry is valid for
    as long as its age is below the TTL. *)
Lemma getCache_setCache now st key data :
  storage_accepts st (CACHE_KEY_PREFIX ++ key)
    (JSON_stringify P (CachedData data now)) = true ->
  JSON_roundtrips P (CachedData data now) ->
  getCache P (setCache P now st key data) key = data.
Proof.
  intros Hacc [Htext Hparse].
  apply getCache_entry
    with (text := JSON_stringify P (CachedData data now)) (stamp := now);
    try assumption.
  - rewrite (setCache_accepted _ _ _ _ Hacc). reflexivity.
  - rewrite (setCache_accepted _ _ _ _ Hacc). reflexivity.
  - apply setCache_items. exact Hacc.
Qed.

Lemma isCacheValid_setCache now later st key data ttl :
  storage_accepts st (CACHE_KEY_PREFIX ++ key)
    (JSON_stringify P (CachedData data now)) = true ->
  JSON_roundtrips P (CachedData data now) ->
  isCacheValid P later (setCache P now st key data) key ttl
  = lt (sub later now) ttl.
Proof.
  intros Hacc [Htext Hparse].
  rewrite isCacheValid_entry
    with (text := JSON_stringify P (CachedData data now))
         (parsed := CachedData data now) (stamp := VNum now);
    try assumption; try reflexivity.
  - rewrite (setCache_accepted _ _ _ _ Hacc). reflexivity.
  - rewrite (setCache_accepted _ _ _ _ Hacc). reflexivity.
  - apply setCache_items. exact Hacc.
Qed.

(** An entry read at the very time it was written has age zero, which
    is below both TTLs. *)
Lemma age_zero (x : number) :
  match x with S754_zero _ | S754_finite _ _ _ => True | _ => False end ->
  sub x x = S754_zero false.
Proof.
  destruct x as [[]|[]| |s m e]; cbn; try contradiction; intros _;
    try reflexivity.
  unfold sub, SFsub. rewrite Z.sub_diag. reflexivity.
Qed.

Lemma isCacheValid_at_once now st key data ttl :
  match now with S754_zero _ | S754_finite _ _ _ => True | _ => False end ->
  lt (S754_zero false) ttl = true ->
  storage_accepts st (CACHE_KEY_PREFIX ++ key)
    (JSON_stringify P (CachedData data now)) = true ->
  JSON_roundtrips P (CachedData data now) ->
  isCacheValid P now (setCache P now st key data) key ttl = true.
Proof.
  intros Hfinite Httl Hacc Hjson.
  rewrite isCacheValid_setCache by assumption.
  rewrite age_zero by assumption. exact Httl.
Qed.

End Facts.

(** The numbers of the configuration and [Math.floor], evaluated. *)
Example ttl_window :
  lt (sub (of_Z 1700000029999) (of_Z 1700000000000)) BALANCE_CACHE_TTL = true
  /\ lt (sub (of_Z 1700000030000) (of_Z 1700000000000)) BALANCE_CACHE_TTL = false
  /\ lt (sub (of_Z 1700000045000) (of_Z 1700000000000)) TX_CACHE_TTL = true.
Proof. repeat split; reflexivity. Qed.

Example floor_lamports :
  floor (mul (div (of_Z 3) (of_Z 2)) LAMPORTS_PER_SOL) = of_Z 1500000000
  /\ floor (div (of_Z (-3)) (of_Z 2)) = of_Z (-2)
  /\ floor (div (of_Z 1) (of_Z 2)) = of_Z 0.
Proof. repeat split; reflexivity. Qed.

End CacheFacts.

(** ** The read path of the cache *)

Module CacheClaims.
Import WalletSheet Vocabulary CacheFacts Scenario.

#[local] Arguments getCache : simpl never.
#[local] Arguments isCacheValid : simpl never.
#[local] Arguments setCache : simpl never.

Lemma payload_not_null (k : CacheKind) (v : payload k) :
  not_null (payload_value v) = true.
Proof. destruct k; reflexivity. Qed.

(** A read served from the cache: the cell is filled with the cached
    payload and the world is left as it was. *)
Lemma served_from_cache (P : Platform) (H : Hooks P) (pk : PublicKey)
    (conn : Connection) (k : CacheKind) (s : St P) (data : value) :
  publicKey H = Some pk -> connection H = Some conn ->
  isCacheValid P (Date_now P (world s)) (localStorage (world s))
    (cacheKey H k) (cacheTTL k) = true ->
  getCache P (localStorage (world s)) (cacheKey H k) = data ->
  not_null data = true ->
  shown k (sheet (snd (fetchKind H k false s))) = data /\
  world (snd (fetchKind H k false s)) = world s.
Proof.
  intros Hpk Hconn Hvalid Hread Hdata.
  destruct k; cbn [fetchKind cacheKey cacheTTL shown] in *.
  - unfold fetchBalance, balanceFromCache, bind, checkCache, readCache.
    rewrite Hpk, Hconn. cbn. rewrite Hvalid, Hread, Hdata. cbn. split; reflexivity.
  - unfold fetchTransactions, transactionsFromCache, bind, checkCache, readCache.
    rewrite Hpk, Hconn. cbn. rewrite Hvalid, Hread, Hdata. cbn. split; reflexivity.
Qed.

(** C4. Cache round-trip: for either kind of cached data, any wallet
    and any payload of the kind that the JSON functions carry through
    unchanged, once [setCache] has written the payload (the storage
    taking the write), a read while the entry's age is below the TTL
    returns the payload, shows it, and leaves the world untouched: no
    call is made on the connection. *)
Theorem cache_round_trip (P : Platform) (H : Hooks P) (pk : PublicKey)
    (conn : Connection) (k : CacheKind) (v : payload k) (st : Storage)
    (written : Z) (s : St P) :
  publicKey H = Some pk -> connection H = Some conn ->
  storage_accepts st (CACHE_KEY_PREFIX ++ cacheKey H k)
    (JSON_stringify P (CachedData (payload_value v) (of_Z written))) = true ->
  JSON_roundtrips P (CachedData (payload_value v) (of_Z written)) ->
  localStorage (world s) = setCache P (of_Z written) st (cacheKey H k) (payload_value v) ->
  lt (sub (Date_now P (world s)) (of_Z written)) (cacheTTL k) = true ->
  getCache P (localStorage (world s)) (cacheKey H k) = payload_value v /\
  shown k (sheet (snd (fetchKind H k false s))) = payload_value v /\
  net_log (world (snd (fetchKind H k false s))) = net_log (world s) /\
  world (snd (fetchKind H k false s)) = world s.
Proof.
  intros Hpk Hconn Hacc Hjson Hstore Hage.
  assert (Hread : getCache P (localStorage (world s)) (cacheKey H k) = payload_value v).
  { rewrite Hstore. apply getCache_setCache; assumption. }
  assert (Hvalid : isCacheValid P (Date_now P (world s)) (localStorage (world s))
                     (cacheKey H k) (cacheTTL k) = true).
  { rewrite Hstore, isCacheValid_setCache; assumption. }
  destruct (served_from_cache P H pk conn k s (payload_value v) Hpk Hconn Hvalid Hread
              (payload_not_null k v)) as [Hshown Hworld].
  repeat split; try assumption. rewrite Hworld. reflexivity.
Qed.

Lemma cache_round_trip_witness :
  shown KBalance
    (sheet (snd (fetchKind (hooks P0 healthy) KBalance false (after 10000 blank))))
  = cached_balance /\
  net_log (world (snd (fetchKind (hooks P0 healthy) KBalance false
                         (after 10000 blank)))) = [].
Proof.
  destruct (cache_round_trip P0 (hooks P0 healthy) wallet healthy KBalance
              (div (of_Z 5) (of_Z 2)) empty_storage t0 (after 10000 blank))
    as (_ & Hshown & Hlog & _).
  - reflexivity.
  - reflexivity.
  - vm_compute. reflexivity.
  - split.
    + vm_compute. discriminate.
    + vm_compute. reflexivity.
  - reflexivity.
  - vm_compute. reflexivity.
  - split; assumption.
Defined.

Lemma bind_run {P : Platform} {A B : Type} (m : M P A) (k : A -> M P B)
    (s s1 : St P) (a : A) :
  m s = (a, s1) -> bind P m k s = k a s1.
Proof. intros Hm. unfold bind. rewrite Hm. reflexivity. Qed.

(** A read that is not served from the cache goes to the network. *)
Lemma balance_cache_stale (P : Platform) (H : Hooks P) (s : St P) :
  isCacheValid P (Date_now P (world s)) (localStorage (world s))
    (balanceCacheKey P H) BALANCE_CACHE_TTL = false ->
  balanceFromCache P H false s = (false, s).
Proof.
  intros Hstale. unfold balanceFromCache, bind, checkCache. cbn.
  rewrite Hstale. reflexivity.
Qed.



Lemma transactions_not_served (P : Platform) (H : Hooks P) (force : bool) (s : St P) :
  goes_live P (txCacheKey P H) TX_CACHE_TTL force s ->
  transactionsFromCache P H force s = (false, s).
Proof.
  unfold transactionsFromCache, bind, checkCache, readCache.
  intros [-> | [Hstale | Hnull]]; [reflexivity | |].
  - destruct force; cbn; [reflexivity|]. rewrite Hstale. reflexivity.
  - destruct force; cbn; [reflexivity|].
    destruct (isCacheValid _ _ _ _ _); [rewrite Hnull|]; reflexivity.
Qed.

Lemma balance_not_served (P : Platform) (H : Hooks P) (force : bool) (s : St P) :
  goes_live P (balanceCacheKey P H) BALANCE_CACHE_TTL force s ->
  balanceFromCache P H force s = (false, s).
Proof.
  unfold balanceFromCache, bind, checkCache, readCache.
  intros [-> | [Hstale | Hnull]]; [reflexivity | |].
  - destruct force; cbn; [reflexivity|]. rewrite Hstale. reflexivity.
  - destruct force; cbn; [reflexivity|].
    destruct (isCacheValid _ _ _ _ _); [rewrite Hnull|]; reflexivity.
Qed.



End CacheClaims.

(** ** The send flow *)

Module SendClaims.
Import WalletSheet Vocabulary SendVocabulary CacheClaims Scenario.

(** A positive number is neither [NaN] nor at most zero. *)
Lemma positive_passes (a : number) :
  lt (of_Z 0) a = true -> isNaN a || le a (of_Z 0) = false.
Proof.
  destruct a as [[]|[]| |[] m e]; cbn; intros Hpos;
    try discriminate; reflexivity.
Qed.

#[local] Arguments lt : simpl never.
#[local] Arguments le : simpl never.
#[local] Arguments gt : simpl never.
#[local] Arguments isNaN : simpl never.
#[local] Arguments of_Z : simpl never.

(** C8. With the wallet connected, a recipient the [PublicKey]
    constructor rejects, or an amount that parses to [NaN] or to a
    number that is not positive, ends [handleSend] in the validation
    branch: the matching message is shown and nothing else changes; in
    particular the world, with its log of network calls, is as before,
    whatever the connection and the wallet would have answered. *)
Theorem validation_error_before_network (P : Platform) (H : Hooks P)
    (pk : PublicKey) (conn : Connection)
    (send : Transaction P -> Z -> Reply string) (s : St P) :
  publicKey H = Some pk -> connection H = Some conn ->
  sendTransaction H = Some send ->
  PublicKey_new P (recipient (sheet s)) = None
  \/ isNaN (parseFloat P (amount (sheet s))) = true
  \/ le (parseFloat P (amount (sheet s))) (of_Z 0) = true ->
  sheet (snd (handleSend P H s))
  = rejected (sheet s)
      (match PublicKey_new P (recipient (sheet s)) with
       | None => "Invalid recipient address"
       | Some _ => "Invalid amount"
       end) /\
  world (snd (handleSend P H s)) = world s /\
  net_log (world (snd (handleSend P H s))) = net_log (world s).
Proof.
  intros Hpk Hconn Hsend Hbad.
  unfold handleSend. rewrite Hpk, Hconn, Hsend.
  unfold bind, setSendError, setSendSuccess, gets, on_sheet. cbn.
  destruct (PublicKey_new P (recipient (sheet s))) as [to|] eqn:Hto.
  - assert (Hamount : isNaN (parseFloat P (amount (sheet s)))
                      || le (parseFloat P (amount (sheet s))) (of_Z 0) = true).
    { destruct Hbad as [Hnone | [Hnan | Hle]].
      - discriminate.
      - rewrite Hnan. reflexivity.
      - rewrite Hle. apply orb_true_r. }
    cbn in Hamount |- *. rewrite Hamount. cbn. repeat split.
  - cbn. repeat split.
Qed.

Lemma validation_error_before_network_witness :
  let s := {| sheet :=
                {| balance := VNum (of_Z 3); loadingBalance := false;
                   transactions := VArr []; loadingTxs := false;
                   recipient := "7xKXtg2CW87d97TXJSDpbD5jBkheTqA83TZRuJosgAsU";
                   amount := "-2"; sending := false;
                   sendError := ""; sendSuccess := "" |};
              world := world (after 0 blank) |} in
  sendError (sheet (snd (handleSend P0 (hooks P0 healthy) s))) = "Invalid amount" /\
  net_log (world (snd (handleSend P0 (hooks P0 healthy) s))) = [].
Proof.
  intros s.
  destruct (validation_error_before_network P0 (hooks P0 healthy) wallet healthy
              (fun _ _ => {| outcome := Ok "3nQ1fJ7mRk"; elapsed := 800 |}) s
              eq_refl eq_refl eq_refl) as (Hsheet & _ & Hlog).
  - right; right. vm_compute. reflexivity.
  - split; [rewrite Hsheet; reflexivity | exact Hlog].
Defined.

(** Whatever it does, a forced balance refresh only adds to the log of
    network calls. *)
Lemma forced_refresh_extends_log (P : Platform) (H : Hooks P) (s : St P) :
  exists rest,
    net_log (world (snd (fetchBalance P H true s)))
    = (net_log (world s) ++ rest)%list.
Proof.
  unfold fetchBalance.
  destruct (publicKey H) as [pk|]; [destruct (connection H) as [conn|] |];
    try (exists []; cbn; rewrite app_nil_r; reflexivity).
  unfold bind, balanceFromCache, setLoadingBalance, setBalance, writeCache,
    console_error, on_sheet, on_world, await, ret. cbn.
  destruct (outcome (getBalance conn pk (clock (world s)))); cbn;
    eexists; reflexivity.
Qed.

Lemma bind_on_sheet {P : Platform} {B : Type} (f : Sheet -> Sheet)
    (k : unit -> M P B) (s : St P) :
  bind P (on_sheet P f) k s = k tt {| sheet := f (sheet s); world := world s |}.
Proof. reflexivity. Qed.

Lemma bind_gets {P : Platform} {A B : Type} (f : Sheet -> A)
    (k : A -> M P B) (s : St P) :
  bind P (gets P f) k s = k (f (sheet s)) s.
Proof. reflexivity. Qed.

Lemma world_then_on_sheet {P : Platform} {A : Type} (m : M P A)
    (f : Sheet -> Sheet) (s : St P) :
  world (snd (bind P m (fun _ => on_sheet P f) s)) = world (snd (m s)).
Proof. unfold bind, on_sheet. destruct (m s). reflexivity. Qed.

(** Once the instruction is built, the transfer is submitted before
    anything else reaches the network. *)
Lemma submitTransfer_log (P : Platform) (H : Hooks P) (pk to : PublicKey)
    (conn : Connection) (send : Transaction P -> Z -> Reply string)
    (a : number) (s : St P) (instruction : Instruction P) :
  SystemProgram_transfer P
    {| fromPubkey := pk; toPubkey := to;
       lamports := floor (mul a LAMPORTS_PER_SOL) |} = Ok instruction ->
  exists rest,
    net_log (world (snd (submitTransfer P H pk to conn send a s)))
    = (net_log (world s) ++ CallSendTransaction [instruction] :: rest)%list.
Proof.
  intros Hbuilt. unfold submitTransfer. rewrite Hbuilt.
  unfold bind at 1, await. cbv beta iota zeta.
  destruct (outcome (send [instruction] (clock (world s)))) as [sig|err].
  - unfold bind at 1. cbv beta iota zeta. cbn [sheet world clock].
    destruct (outcome (confirmTransaction conn sig "confirmed" _)) as [[]|err].
    + unfold setSendSuccess, setRecipient, setAmount.
      rewrite !bind_on_sheet.
      match goal with
      | |- context [fetchBalance P H true ?st] =>
          destruct (forced_refresh_extends_log P H st) as [more Hmore]
      end.
      rewrite Hmore. cbn [sheet world net_log].
      rewrite <- !app_assoc. eexists. reflexivity.
    + unfold sendFailed, console_error, setSendError.
      unfold bind, on_world, on_sheet. cbn.
      rewrite <- !app_assoc. eexists. reflexivity.
  - unfold sendFailed, console_error, setSendError.
    unfold bind, on_world, on_sheet. cbn. eexists. reflexivity.
Qed.

(** A form that passes the three checks goes on to the transfer, the
    notices cleared and the sending flag up, and lowers the flag at
    the end. *)
Lemma handleSend_valid (P : Platform) (H : Hooks P) (pk to : PublicKey)
    (conn : Connection) (send : Transaction P -> Z -> Reply string) :
  publicKey H = Some pk -> connection H = Some conn ->
  sendTransaction H = Some send ->
  forall s : St P,
    passes_validation P (sheet s) to ->
    snd (handleSend P H s)
    = snd (setSending P false
             (snd (submitTransfer P H pk to conn send
                     (parseFloat P (amount (sheet s))) (primed P s)))).
Proof.
  intros Hpk Hconn Hsend s (Hto & Hamount & Hbalance).
  unfold handleSend, primed. rewrite Hpk, Hconn, Hsend.
  unfold setSendError, setSendSuccess, setSending.
  rewrite !bind_on_sheet, bind_gets. cbn [sheet recipient].
  rewrite Hto, bind_gets. cbn [sheet amount].
  rewrite Hamount, bind_gets. cbn [sheet balance].
  rewrite Hbalance. rewrite bind_on_sheet.
  unfold bind, on_sheet. cbn [snd].
  destruct (submitTransfer _ _ _ _ _ _ _ _) as [[] s1]. reflexivity.
Qed.

(** When the library throws on the quantity, the handler shows its
    error and nothing has reached the network. *)
Lemma handleSend_not_built (P : Platform) (H : Hooks P) (pk to : PublicKey)
    (conn : Connection) (send : Transaction P -> Z -> Reply string)
    (s : St P) (e : Error) :
  publicKey H = Some pk -> connection H = Some conn ->
  sendTransaction H = Some send ->
  passes_validation P (sheet s) to ->
  SystemProgram_transfer P (transfer_of P (sheet s) pk to) = Throw e ->
  sendError (sheet (snd (handleSend P H s))) = error_text e /\
  sendSuccess (sheet (snd (handleSend P H s))) = "" /\
  sending (sheet (snd (handleSend P H s))) = false /\
  net_log (world (snd (handleSend P H s))) = net_log (world s).
Proof.
  intros Hpk Hconn Hsend Hpasses Hbuilt.
  rewrite (handleSend_valid P H pk to conn send Hpk Hconn Hsend s Hpasses).
  unfold submitTransfer. unfold transfer_of in Hbuilt.
  rewrite Hbuilt. repeat split.
Qed.




End SendClaims.

(** ** Properties of the ownership resolver *)

Module ResolverFacts.
Import OwnedNFTs ResolverVocabulary.

Section Facts.

Context (P : Platform) (G : Program) (connection : Connection).

Abbreviation resume := (resume G connection).
Abbreviation run := (run G connection).
Abbreviation deliver := (deliver G connection).
Abbreviation settle := (settle G connection).
Abbreviation advance := (advance G connection).

Lemma advance_settled (r : OwnedNFT) : advance (Settled r) = Settled r.
Proof. reflexivity. Qed.

Lemma advance_twice (nft : OwnedNFT) :
  advance (advance (AwaitListing nft)) = Settled (settle nft).
Proof.
  unfold ResolverVocabulary.advance, ResolverVocabulary.settle. cbn.
  destruct (getListingPDA G (mint nft)) as [pda bump]. cbn.
  destruct (getAccountInfo connection pda) as [account|e]; cbn; [|reflexivity].
  destruct (fetchNFTMetadataFromChain G (mint nft)); reflexivity.
Qed.

Lemma iter_advance_settled (k : nat) (r : OwnedNFT) :
  Nat.iter k advance (Settled r) = Settled r.
Proof.
  induction k as [|k IH]; [reflexivity|].
  rewrite Nat.iter_succ, IH. reflexivity.
Qed.

Lemma iter_shift (k : nat) (t : Task) :
  Nat.iter (S k) advance t = Nat.iter k advance (advance t).
Proof. apply Nat.iter_succ_r. Qed.

Lemma iter_advance_enough (k : nat) (nft : OwnedNFT) :
  (2 <= k)%nat -> Nat.iter k advance (AwaitListing nft) = Settled (settle nft).
Proof.
  intros Hk. destruct k as [|[|k]]; try lia.
  rewrite !iter_shift, advance_twice. apply iter_advance_settled.
Qed.

(** A callback that has returned has returned [settle]. *)
Lemma iter_advance_result (k : nat) (nft r : OwnedNFT) :
  result_of (Nat.iter k advance (AwaitListing nft)) = Some r -> r = settle nft.
Proof.
  destruct k as [|[|k]].
  - discriminate.
  - cbn. unfold ResolverVocabulary.advance, ResolverVocabulary.settle. cbn.
    destruct (getListingPDA G (mint nft)) as [pda bump]. cbn.
    destruct (getAccountInfo connection pda); cbn; congruence.
  - rewrite iter_advance_enough by lia. cbn. congruence.
Qed.

Lemma deliver_lookup (pool : Pool) (i j : nat) :
  tasks (deliver pool i) !! j
  = if decide (i = j) then advance <$> tasks pool !! j else tasks pool !! j.
Proof.
  unfold OwnedNFTs.deliver, ResolverVocabulary.advance.
  destruct (tasks pool !! i) as [t|] eqn:Hi.
  - destruct (resume t) as [t' lines] eqn:Hstep. cbn.
    destruct (decide (i = j)) as [<-|Hne].
    + rewrite list_lookup_insert_eq by (eapply lookup_lt_Some; eassumption).
      rewrite Hi. cbn. rewrite Hstep. reflexivity.
    + apply list_lookup_insert_ne. exact Hne.
  - destruct (decide (i = j)) as [<-|Hne]; [|reflexivity].
    rewrite Hi. reflexivity.
Qed.

(** Slot [j] has been resumed once per reply delivered to it, in
    whatever order the replies of the other slots came. *)
Lemma run_lookup (schedule : list nat) :
  forall (pool : Pool) (j : nat),
    tasks (run schedule pool) !! j
    = Nat.iter (arrivals schedule j) advance <$> tasks pool !! j.
Proof.
  induction schedule as [|i schedule IH]; intros pool j.
  - cbn. destruct (tasks pool !! j); reflexivity.
  - unfold OwnedNFTs.run in *. cbn [fold_left]. rewrite IH, deliver_lookup.
    unfold arrivals. cbn [count_occ].
    destruct (decide (i = j)) as [<-|Hne].
    + destruct (Nat.eq_dec i i) as [_|Hn]; [|congruence].
      destruct (tasks pool !! i) as [t|]; [|reflexivity].
      cbn [fmap option_fmap option_map]. rewrite iter_shift. reflexivity.
    + destruct (Nat.eq_dec i j) as [He|_]; [congruence|reflexivity].
Qed.

Lemma launch_lookup (owned : list OwnedNFT) (j : nat) :
  tasks (launch owned) !! j = AwaitListing <$> owned !! j.
Proof. unfold launch. cbn. apply list_lookup_fmap. Qed.

Lemma run_length (schedule : list nat) (pool : Pool) :
  length (tasks (run schedule pool)) = length (tasks pool).
Proof.
  revert pool. induction schedule as [|i schedule IH]; intros pool; [reflexivity|].
  unfold OwnedNFTs.run in *. cbn [fold_left]. rewrite IH.
  unfold OwnedNFTs.deliver. destruct (tasks pool !! i); [|reflexivity].
  destruct (resume t). cbn. apply length_insert.
Qed.

(** Whatever [Promise.all] is fulfilled with, it is the settled
    records in the order of the NFTs. *)
Lemma Promise_all_result (schedule : list nat) (owned out : list OwnedNFT) :
  Promise_all (run schedule (launch owned)) = Some out ->
  out = map settle owned.
Proof.
  unfold Promise_all. intros Hall. apply mapM_Some in Hall.
  apply list_eq. intros j.
  pose proof (proj1 (Forall2_lookup _ _ _) Hall j) as Hj. clear Hall.
  rewrite run_lookup, launch_lookup in Hj.
  change (map settle owned) with (settle <$> owned). rewrite list_lookup_fmap.
  destruct (owned !! j) as [nft|]; cbn in *.
  - inversion Hj as [t r Hr| ]; subst.
    apply iter_advance_result in Hr. congruence.
  - inversion Hj. reflexivity.
Qed.

(** Once every reply has arrived, [Promise.all] is fulfilled. *)
Lemma Promise_all_fulfilled (schedule : list nat) (owned : list OwnedNFT) :
  all_arrive schedule (length owned) ->
  Promise_all (run schedule (launch owned)) = Some (map settle owned).
Proof.
  intros Hall. unfold Promise_all. apply mapM_Some.
  apply Forall2_same_length_lookup. split.
  - rewrite run_length. unfold launch. cbn. rewrite !length_map. reflexivity.
  - intros j t r Ht Hr.
    rewrite run_lookup, launch_lookup in Ht.
    change (map settle owned) with (settle <$> owned) in Hr.
    rewrite list_lookup_fmap in Hr.
    destruct (owned !! j) as [nft|] eqn:Hj; cbn in *; [|discriminate].
    injection Ht as <-. injection Hr as <-.
    rewrite iter_advance_enough; [reflexivity|].
    apply Hall. eapply lookup_lt_Some. eassumption.
Qed.

End Facts.

Lemma toOwned_amount (P : Platform) (l : list TokenAccount) :
  forall owned,
    toOwned P l = Ok owned ->
    Forall2 (fun a o => amount o = uiAmount (ParsedInfo.tokenAmount (info a)))
            l owned.
Proof.
  induction l as [|a l IH]; intros owned; cbn.
  - intros [= <-]. constructor.
  - destruct (PublicKey_new P (ParsedInfo.mint (info a))); [|discriminate].
    destruct (toOwned P l) as [others|e]; [|discriminate].
    intros [= <-]. constructor; [reflexivity|apply IH; reflexivity].
Qed.

Lemma settle_amount (G : Program) (connection : Connection) (o : OwnedNFT) :
  amount (settle G connection o) = amount o.
Proof.
  unfold settle.
  destruct (getAccountInfo _ _); [destruct (fetchNFTMetadataFromChain _ _)|];
    reflexivity.
Qed.

End ResolverFacts.

(** ** The ownership resolver *)

Module ResolverClaims.
Import OwnedNFTs ResolverVocabulary ResolverFacts ResolverScenario.

Section Resolution.

Context (P : Platform) (G : Program) (connection : Connection).

Lemma isNFT_unit_holding (a : TokenAccount) : isNFT a = true <-> unit_holding a.
Proof.
  unfold isNFT, unit_holding, is_one. split.
  - intros Hnft. apply andb_prop in Hnft as [Hone Hzero].
    destruct (uiAmount (ParsedInfo.tokenAmount (info a))) as [n|]; [|discriminate].
    exists n. auto.
  - intros (n & -> & Hone & Hzero). rewrite Hone, Hzero. reflexivity.
Qed.

Lemma toOwned_drawn (l : list TokenAccount) :
  forall owned, toOwned P l = Ok owned -> Forall2 (drawn_from P) l owned.
Proof.
  induction l as [|a l IH]; intros owned; cbn.
  - intros [= <-]. constructor.
  - destruct (PublicKey_new P (ParsedInfo.mint (info a))) as [key|] eqn:Hkey;
      [|discriminate].
    destruct (toOwned P l) as [others|e]; [|discriminate].
    intros [= <-]. constructor; [|apply IH; reflexivity].
    split; [reflexivity|exact Hkey].
Qed.

Lemma toOwned_total (l : list TokenAccount) :
  Forall (fun a => is_Some (PublicKey_new P (ParsedInfo.mint (info a)))) l ->
  exists owned, toOwned P l = Ok owned.
Proof.
  induction 1 as [|a l [key Hkey] _ [others IH]]; cbn.
  - eexists. reflexivity.
  - rewrite Hkey, IH. eexists. reflexivity.
Qed.

Lemma settle_drawn (a : TokenAccount) (o : OwnedNFT) :
  drawn_from P a o -> drawn_from P a (settle G connection o).
Proof.
  unfold drawn_from, settle. intros [Hacc Hmint].
  destruct (getAccountInfo _ _); [destruct (fetchNFTMetadataFromChain _ _)|];
    cbn; auto.
Qed.

(** When every reply arrives, [refetch] ends with the settled records
    of the retained holdings, no error and the loading flag down. *)
Lemma refetch_resolved (schedule : list nat) (owner : PublicKey)
    (accounts : list TokenAccount) (s : HookState) :
  getParsedTokenAccountsByOwner connection owner = Ok accounts ->
  well_formed_mints P accounts ->
  all_arrive schedule (length (List.filter isNFT accounts)) ->
  exists owned,
    nftAccounts P accounts = Ok owned
    /\ Forall2 (drawn_from P) (List.filter isNFT accounts) owned
    /\ fst (refetch P G connection schedule (Some owner) s)
       = {| nfts := map (settle G connection) owned;
            loading := false; error := None |}.
Proof.
  intros Henum Hmints Hall.
  destruct (toOwned_total _ Hmints) as [owned Howned].
  pose proof (toOwned_drawn _ _ Howned) as Hdrawn.
  exists owned. split; [exact Howned|]. split; [exact Hdrawn|].
  unfold refetch, nftAccounts. rewrite Henum, Howned.
  rewrite (Promise_all_fulfilled G connection schedule owned); [reflexivity|].
  rewrite <- (Forall2_length _ _ _ Hdrawn). exact Hall.
Qed.

Lemma settled_drawn (retained : list TokenAccount) (owned : list OwnedNFT) :
  Forall2 (drawn_from P) retained owned ->
  Forall2 (drawn_from P) retained (map (settle G connection) owned).
Proof.
  induction 1 as [|a o retained owned Hao _ IH]; cbn; constructor.
  - apply settle_drawn. exact Hao.
  - exact IH.
Qed.

Lemma settle_listed (o : OwnedNFT) :
  isListed (settle G connection o) = true <->
  (exists account,
     getAccountInfo connection (fst (getListingPDA G (mint o))) = Ok (Some account))
  /\ (exists found, fetchNFTMetadataFromChain G (mint o) = Ok found).
Proof.
  unfold settle.
  destruct (getAccountInfo connection (fst (getListingPDA G (mint o))))
    as [[account|]|e];
    destruct (fetchNFTMetadataFromChain G (mint o)) as [found|e']; cbn;
    (split;
     [ intros Hlisted; try discriminate; split; eexists; reflexivity
     | intros [[account' Haccount] [found' Hfound]];
       first [reflexivity | discriminate] ]).
Qed.

Lemma settle_mint (o : OwnedNFT) : mint (settle G connection o) = mint o.
Proof.
  unfold settle.
  destruct (getAccountInfo _ _); [destruct (fetchNFTMetadataFromChain _ _)|];
    reflexivity.
Qed.

Lemma settle_found (o : OwnedNFT) (listingAccount : option AccountInfo)
    (found : option NFTMetadata) :
  getAccountInfo connection (fst (getListingPDA G (mint o))) = Ok listingAccount ->
  fetchNFTMetadataFromChain G (mint o) = Ok found ->
  metadata (settle G connection o) = found
  /\ isListed (settle G connection o)
     = match listingAccount with Some _ => true | None => false end.
Proof. unfold settle. intros -> ->. split; reflexivity. Qed.

Lemma settle_metadata_absent (o : OwnedNFT) (e : Error) :
  fetchNFTMetadataFromChain G (mint o) = Throw e ->
  metadata (settle G connection o) = None
  /\ isListed (settle G connection o) = false.
Proof.
  unfold settle. intros ->.
  destruct (getAccountInfo _ _); split; reflexivity.
Qed.

End Resolution.

Lemma retained_member (accounts : list TokenAccount) (a : TokenAccount) :
  a ∈ List.filter isNFT accounts <-> a ∈ accounts /\ unit_holding a.
Proof.
  rewrite !list_elem_of_In, filter_In, isNFT_unit_holding. reflexivity.
Qed.

Lemma drawn_mints (P : Platform) (retained : list TokenAccount)
    (out : list OwnedNFT) :
  Forall2 (drawn_from P) retained out ->
  map (fun o => Some (mint o)) out
  = map (fun a => PublicKey_new P (ParsedInfo.mint (info a))) retained.
Proof.
  induction 1 as [|a o retained out [_ Hmint] _ IH]; cbn; [reflexivity|].
  rewrite Hmint, IH. reflexivity.
Qed.

(** C2. The resolver retains a holding exactly when its quantity is 1
    and its decimals are 0. When the enumeration succeeds and the
    replies of the per-NFT lookups arrive, every record of the output
    is drawn from such a holding of the wallet, every such holding has
    its record, and the mints of the output are, in order, the mints
    of those holdings. *)
Theorem resolver_keeps_unit_holdings (P : Platform) (G : Program)
    (connection : Connection) (schedule : list nat) (owner : PublicKey)
    (accounts : list TokenAccount) (s : HookState) :
  getParsedTokenAccountsByOwner connection owner = Ok accounts ->
  well_formed_mints P accounts ->
  all_arrive schedule (length (List.filter isNFT accounts)) ->
  let out := nfts (fst (refetch P G connection schedule (Some owner) s)) in
  (forall a, isNFT a = true <-> unit_holding a) /\
  (forall o, o ∈ out ->
     exists a, a ∈ accounts /\ unit_holding a /\ drawn_from P a o) /\
  (forall a, a ∈ accounts -> unit_holding a ->
     exists o, o ∈ out /\ drawn_from P a o) /\
  map (fun o => Some (mint o)) out
  = map (fun a => PublicKey_new P (ParsedInfo.mint (info a)))
        (List.filter isNFT accounts).
Proof.
  intros Henum Hmints Hall out.
  destruct (refetch_resolved P G connection schedule owner accounts s
              Henum Hmints Hall) as (owned & _ & Hdrawn & Hstate).
  pose proof (settled_drawn P G connection _ _ Hdrawn) as Hout.
  assert (Heq : out = map (settle G connection) owned).
  { subst out. rewrite Hstate. reflexivity. }
  rewrite <- Heq in Hout. clear Heq Hstate Hdrawn owned.
  split; [exact isNFT_unit_holding|]. split; [|split].
  - intros o Ho. apply list_elem_of_lookup in Ho as [i Hi].
    destruct (Forall2_lookup_r _ _ _ _ _ Hout Hi) as (a & Ha & Hao).
    apply list_elem_of_lookup_2, retained_member in Ha as [Ha Hunit].
    exists a. auto.
  - intros a Ha Hunit.
    assert (Hin : a ∈ List.filter isNFT accounts)
      by (apply retained_member; auto).
    apply list_elem_of_lookup in Hin as [i Hi].
    destruct (Forall2_lookup_l _ _ _ _ _ Hout Hi) as (o & Ho & Hao).
    exists o. split; [eapply list_elem_of_lookup_2; eassumption|exact Hao].
  - apply drawn_mints. exact Hout.
Qed.

Lemma scenario_well_formed : well_formed_mints P0 holdings.
Proof.
  unfold well_formed_mints.
  repeat (constructor; [eexists; vm_compute; reflexivity|]). constructor.
Qed.

Lemma scenario_all_arrive (schedule : list nat) :
  (2 <=? arrivals schedule 0)%nat && (2 <=? arrivals schedule 1)%nat = true ->
  all_arrive schedule (length (List.filter isNFT holdings)).
Proof.
  intros Hboth. apply andb_prop in Hboth as [H0 H1].
  apply Nat.leb_le in H0, H1.
  intros j Hj. change (j < 2)%nat in Hj.
  destruct j as [|[|j]]; [exact H0|exact H1|lia].
Qed.

Lemma resolver_keeps_unit_holdings_witness :
  map (fun o => Some (mint o)) (nfts (fst resolution))
  = [Some {| toBase58 := mintA |}; Some {| toBase58 := mintB |}].
Proof.
  apply (resolver_keeps_unit_holdings P0 program chain second_first wallet
           holdings idle eq_refl scenario_well_formed
           (scenario_all_arrive second_first eq_refl)).
Defined.

(** C7. The merge preserves the order of the holdings: when every
    reply arrives, the output has one record per retained holding, in
    the order of the enumeration; and whatever the order in which the
    replies of the concurrent lookups arrive, a call that has completed
    has produced that same output. *)
Theorem merge_preserves_holdings_order (P : Platform) (G : Program)
    (connection : Connection) (schedule : list nat) (owner : PublicKey)
    (accounts : list TokenAccount) (s : HookState) :
  getParsedTokenAccountsByOwner connection owner = Ok accounts ->
  well_formed_mints P accounts ->
  all_arrive schedule (length (List.filter isNFT accounts)) ->
  Forall2 (drawn_from P) (List.filter isNFT accounts)
    (nfts (fst (refetch P G connection schedule (Some owner) s))) /\
  (forall schedule',
     loading (fst (refetch P G connection schedule' (Some owner) s)) = false ->
     fst (refetch P G connection schedule' (Some owner) s)
     = fst (refetch P G connection schedule (Some owner) s)).
Proof.
  intros Henum Hmints Hall.
  destruct (refetch_resolved P G connection schedule owner accounts s
              Henum Hmints Hall) as (owned & Howned & Hdrawn & Hstate).
  split.
  - rewrite Hstate. cbn. apply settled_drawn. exact Hdrawn.
  - intros schedule'. rewrite Hstate.
    unfold refetch. rewrite Henum, Howned.
    destruct (Promise_all (run G connection schedule' (launch owned)))
      as [out|] eqn:Hall'; cbn; [|discriminate].
    intros _. apply Promise_all_result in Hall'. rewrite Hall'. reflexivity.
Qed.

Lemma merge_preserves_holdings_order_witness :
  map tokenAccount (nfts (fst resolution))
  = [ {| toBase58 := "3h1zGmCwsRJnVk5BuRNMLsPaQu1y2aqXqXDWYCgrp5UG" |};
      {| toBase58 := "9xQeWvG816bUx9EPjHmaT23yvVM2ZWbrrpZb9PusVFin" |} ]
  /\ fst (refetch P0 program chain in_turn (Some wallet) idle) = fst resolution.
Proof.
  destruct (merge_preserves_holdings_order P0 program chain second_first wallet
              holdings idle eq_refl scenario_well_formed
              (scenario_all_arrive second_first eq_refl)) as [Horder Hsame].
  split.
  - change (List.filter isNFT holdings)
      with [ holding "3h1zGmCwsRJnVk5BuRNMLsPaQu1y2aqXqXDWYCgrp5UG" mintA 1 0;
             holding "9xQeWvG816bUx9EPjHmaT23yvVM2ZWbrrpZb9PusVFin" mintB 1 0 ]
      in Horder.
    change (refetch P0 program chain second_first (Some wallet) idle)
      with resolution in Horder.
    destruct (nfts (fst resolution)) as [|o1 [|o2 [|o3 rest]]];
      inversion Horder as [|a1 b1 l1 k1 [H1 _] Htail]; subst;
      inversion Htail as [|a2 b2 l2 k2 [H2 _] Hnil]; subst;
      inversion Hnil; subst.
    cbn. rewrite H1, H2. reflexivity.
  - apply Hsame. reflexivity.
Defined.

(** C6. A metadata fetch that throws for one mint fails nothing but
    that record: when the enumeration succeeds and every reply arrives,
    whatever the per-NFT lookups answer, the call ends without error,
    with one record per retained holding in order. The record of a
    mint whose metadata fetch throws has its metadata absent and is not
    flagged as listed; the record of every mint whose two lookups
    return carries the metadata found and the listing flag of its own
    lookup, whatever happened to the others. *)
Theorem metadata_failure_is_absorbed (P : Platform) (G : Program)
    (connection : Connection) (schedule : list nat) (owner : PublicKey)
    (accounts : list TokenAccount) (s : HookState) :
  getParsedTokenAccountsByOwner connection owner = Ok accounts ->
  well_formed_mints P accounts ->
  all_arrive schedule (length (List.filter isNFT accounts)) ->
  let after := fst (refetch P G connection schedule (Some owner) s) in
  error after = None /\ loading after = false /\
  Forall2 (fun a o =>
             drawn_from P a o /\
             amount o = uiAmount (ParsedInfo.tokenAmount (info a)) /\
             (forall e, fetchNFTMetadataFromChain G (mint o) = Throw e ->
                        metadata o = None /\ isListed o = false) /\
             (forall listingAccount found,
                getAccountInfo connection (fst (getListingPDA G (mint o)))
                = Ok listingAccount ->
                fetchNFTMetadataFromChain G (mint o) = Ok found ->
                metadata o = found
                /\ isListed o
                   = match listingAccount with Some _ => true | None => false end))
          (List.filter isNFT accounts) (nfts after).
Proof.
  intros Henum Hmints Hall after.
  destruct (refetch_resolved P G connection schedule owner accounts s
              Henum Hmints Hall) as (owned & Howned & Hdrawn & Hstate).
  subst after. rewrite Hstate. cbn. split; [reflexivity|]. split; [reflexivity|].
  pose proof (toOwned_amount P _ _ Howned) as Hamounts.
  clear - Hdrawn Hamounts.
  induction Hdrawn as [|a o retained owned Hao _ IH]; cbn;
    inversion Hamounts as [|a' o' l' k' Hamount Hrest]; subst;
    constructor; [|apply IH; exact Hrest].
  split; [apply settle_drawn; exact Hao|].
  split; [rewrite settle_amount; exact Hamount|]. split.
  - intros e He. rewrite settle_mint in He.
    apply (settle_metadata_absent G connection o e He).
  - intros listingAccount found Hlisting Hfound. rewrite settle_mint in *.
    apply settle_found; assumption.
Qed.

Lemma metadata_failure_is_absorbed_witness :
  error (fst resolution) = None /\
  length (nfts (fst resolution)) = 2%nat /\
  (forall o, nfts (fst resolution) !! 1%nat = Some o ->
     mint o = {| toBase58 := mintB |} /\ metadata o = None) /\
  (forall o, nfts (fst resolution) !! 0%nat = Some o ->
     mint o = {| toBase58 := mintA |} /\ metadata o = Some artwork
     /\ isListed o = false).
Proof.
  destruct (metadata_failure_is_absorbed P0 program chain second_first wallet
              holdings idle eq_refl scenario_well_formed
              (scenario_all_arrive second_first eq_refl))
    as (Herror & _ & Hrecords).
  split; [exact Herror|]. split; [|split].
  - symmetry. exact (Forall2_length _ _ _ Hrecords).
  - intros o Ho.
    destruct (Forall2_lookup_r _ _ _ _ _ Hrecords Ho)
      as (a & Ha & [_ Hmint] & _ & Habsent & _).
    vm_compute in Ha. injection Ha as <-.
    change (Some {| toBase58 := mintB |} = Some (mint o)) in Hmint.
    injection Hmint as Hmint.
    split; [symmetry; exact Hmint|].
    apply (Habsent Scenario.TransportError). rewrite <- Hmint. reflexivity.
  - intros o Ho.
    destruct (Forall2_lookup_r _ _ _ _ _ Hrecords Ho)
      as (a & Ha & [_ Hmint] & _ & _ & Hfound).
    vm_compute in Ha. injection Ha as <-.
    change (Some {| toBase58 := mintA |} = Some (mint o)) in Hmint.
    injection Hmint as Hmint.
    split; [symmetry; exact Hmint|].
    apply (Hfound None (Some artwork)); rewrite <- Hmint; reflexivity.
Defined.

(** C1 (as amended). In the output of a resolution, a record is
    flagged as listed exactly when the lookup of its listing account
    returned an account and its metadata fetch returned as well; when
    either lookup throws the flag is false and the metadata is absent,
    whatever account the listing address holds. *)
Theorem listed_iff_lookups_succeed (P : Platform) (G : Program)
    (connection : Connection) (schedule : list nat) (owner : PublicKey)
    (accounts : list TokenAccount) (s : HookState) (o : OwnedNFT) :
  getParsedTokenAccountsByOwner connection owner = Ok accounts ->
  well_formed_mints P accounts ->
  all_arrive schedule (length (List.filter isNFT accounts)) ->
  o ∈ nfts (fst (refetch P G connection schedule (Some owner) s)) ->
  (isListed o = true <->
   (exists account,
      getAccountInfo connection (fst (getListingPDA G (mint o)))
      = Ok (Some account))
   /\ (exists found, fetchNFTMetadataFromChain G (mint o) = Ok found)) /\
  ((exists e,
      getAccountInfo connection (fst (getListingPDA G (mint o))) = Throw e)
   \/ (exists e, fetchNFTMetadataFromChain G (mint o) = Throw e) ->
   isListed o = false /\ metadata o = None).
Proof.
  intros Henum Hmints Hall Ho.
  destruct (refetch_resolved P G connection schedule owner accounts s
              Henum Hmints Hall) as (owned & _ & _ & Hstate).
  rewrite Hstate in Ho. cbn in Ho.
  change (map (settle G connection) owned) with (settle G connection <$> owned) in Ho.
  apply list_elem_of_fmap in Ho as (o0 & -> & _).
  rewrite settle_mint. split; [apply settle_listed|].
  intros [[e He] | [e He]].
  - unfold settle. rewrite He. split; reflexivity.
  - destruct (settle_metadata_absent G connection o0 e He). auto.
Qed.

Lemma listed_iff_lookups_succeed_witness :
  (isListed recordA = true <->
   (exists account,
      getAccountInfo chain_all_listed (fst (getListingPDA program (mint recordA)))
      = Ok (Some account))
   /\ (exists found, fetchNFTMetadataFromChain program (mint recordA) = Ok found)) /\
  (isListed recordB = false /\ metadata recordB = None).
Proof.
  split.
  - apply (listed_iff_lookups_succeed P0 program chain_all_listed second_first
             wallet holdings idle recordA eq_refl scenario_well_formed
             (scenario_all_arrive second_first eq_refl)).
    apply list_elem_of_In. vm_compute. left. reflexivity.
  - apply (listed_iff_lookups_succeed P0 program chain second_first
             wallet holdings idle recordB eq_refl scenario_well_formed
             (scenario_all_arrive second_first eq_refl)).
    + apply list_elem_of_In. vm_compute. right. left. reflexivity.
    + right. exists Scenario.TransportError. reflexivity.
Defined.

(** C1 as stated fails: [mintB] is listed (the account at its listing
    address is not null) and its metadata fetch throws; its record is
    in the output and is not flagged as listed. *)
Lemma listed_flag_counterexample :
  ~ (forall o,
       o ∈ nfts (fst resolution) ->
       isListed o = true <->
       exists account,
         getAccountInfo chain (fst (getListingPDA program (mint o)))
         = Ok (Some account)).
Proof.
  intros Hclaim.
  assert (Hin : recordB ∈ nfts (fst resolution)).
  { apply list_elem_of_In. vm_compute. right. left. reflexivity. }
  destruct (Hclaim recordB Hin) as [_ Hback].
  assert (Hlisted : isListed recordB = true).
  { apply Hback. eexists. vm_compute. reflexivity. }
  discriminate Hlisted.
Qed.

End ResolverClaims.

(** ** The profile page *)

Module ProfileClaims.
Import OwnedNFTs ProfilePage.

Lemma listedMints_member (mine : list Listing) (m : string) :
  m ∈ listedMints mine <->
  exists l, l ∈ mine /\ PublicKey_toString (nftMint (account l)) = m.
Proof.
  unfold listedMints. rewrite elem_of_list_to_set.
  change (map ?f mine) with (f <$> mine). rewrite list_elem_of_fmap.
  split; intros (l & H1 & H2); exists l; auto.
Qed.

Lemma myListings_member (key : PublicKey) (listings : list Listing) (l : Listing) :
  l ∈ myListings (Some key) listings <->
  l ∈ listings /\ PublicKey_equals (seller (account l)) key = true.
Proof.
  unfold myListings. rewrite !list_elem_of_In, filter_In. reflexivity.
Qed.

(** C3. An owned NFT is in the "available to list" view exactly when
    no current listing whose seller equals the connected wallet's key
    is for its mint; so a listing of the wallet for a mint keeps every
    NFT of that mint out of the view. *)
Theorem available_iff_not_listed (key : PublicKey) (listings : list Listing)
    (nfts : list NFT.t) :
  (forall n,
     n ∈ availableToList (Some key) listings nfts <->
     n ∈ nfts /\
     ~ exists l,
         l ∈ listings
         /\ PublicKey_equals (seller (account l)) key = true
         /\ PublicKey_toString (nftMint (account l)) = NFT.mint n) /\
  (forall l n,
     l ∈ listings ->
     PublicKey_equals (seller (account l)) key = true ->
     NFT.mint n = PublicKey_toString (nftMint (account l)) ->
     n ∉ availableToList (Some key) listings nfts).
Proof.
  assert (Hview : forall n,
     n ∈ availableToList (Some key) listings nfts <->
     n ∈ nfts /\
     ~ exists l,
         l ∈ listings
         /\ PublicKey_equals (seller (account l)) key = true
         /\ PublicKey_toString (nftMint (account l)) = NFT.mint n).
  { intros n. unfold availableToList, ownedNotListed.
    rewrite list_elem_of_In, filter_In, <- list_elem_of_In.
    rewrite negb_true_iff, bool_decide_eq_false, listedMints_member.
    split; intros [Hn Hnot]; (split; [exact Hn|]);
      intros (l & H1 & H2).
    - destruct H2 as [Hseller Hmint]. apply Hnot. exists l.
      split; [apply myListings_member; auto|exact Hmint].
    - apply myListings_member in H1 as [Hl Hseller]. apply Hnot. exists l. auto. }
  split; [exact Hview|].
  intros l n Hl Hseller Hmint Hn. apply Hview in Hn as [_ Hnot].
  apply Hnot. exists l. auto.
Qed.

End ProfileClaims.

(** ** More on the wallet side-panel: the two paths of a fetch *)

Module SheetFacts.
Import WalletSheet Vocabulary CacheFacts.

#[local] Arguments getCache : simpl never.
#[local] Arguments isCacheValid : simpl never.
#[local] Arguments setCache : simpl never.
#[local] Arguments of_Z : simpl never.
#[local] Arguments div : simpl never.
#[local] Arguments LAMPORTS_PER_SOL : simpl never.

Section Paths.

Context (P : Platform) (H : Hooks P) (pk : PublicKey) (conn : Connection).
Hypothesis (Hpk : publicKey H = Some pk) (Hconn : connection H = Some conn).

(** A forced read is never served from the cache. *)
Lemma forced_balance_not_served (s : St P) :
  balanceFromCache P H true s = (false, s).
Proof. reflexivity. Qed.

Lemma forced_transactions_not_served (s : St P) :
  transactionsFromCache P H true s = (false, s).
Proof. reflexivity. Qed.

(** The state in which the live path of [fetchBalance] ends. *)
Lemma fetchBalance_live (force : bool) (s : St P) :
  balanceFromCache P H force s = (false, s) ->
  snd (fetchBalance P H force s)
  = let r := getBalance conn pk (clock (world s)) in
    let arrival := clock (world s) + Z.of_N (elapsed r) in
    {| sheet :=
         {| balance :=
              match outcome r with
              | Ok bal => VNum (div bal LAMPORTS_PER_SOL)
              | Throw _ => VNull
              end;
            loadingBalance := false;
            transactions := transactions (sheet s);
            loadingTxs := loadingTxs (sheet s);
            recipient := recipient (sheet s);
            amount := amount (sheet s);
            sending := sending (sheet s);
            sendError := sendError (sheet s);
            sendSuccess := sendSuccess (sheet s) |};
       world :=
         {| localStorage :=
              match outcome r with
              | Ok bal =>
                  setCache P (of_Z arrival) (localStorage (world s))
                    (balanceCacheKey P H) (VNum (div bal LAMPORTS_PER_SOL))
              | Throw _ => localStorage (world s)
              end;
            clock := arrival;
            net_log := net_log (world s) ++ [CallGetBalance pk];
            console :=
              match outcome r with
              | Ok _ => console (world s)
              | Throw e => console (world s) ++ [("Failed to fetch balance:", e)]
              end;
            draws := draws (world s) |} |}.
Proof.
  intros Hlive. unfold fetchBalance. rewrite Hpk, Hconn.
  unfold bind at 1. rewrite Hlive.
  unfold bind, setLoadingBalance, setBalance, writeCache, console_error,
    on_sheet, on_world, await, Date_now.
  cbn. destruct (outcome (getBalance conn pk (clock (world s)))); reflexivity.
Qed.

(** The state in which the live path of [fetchTransactions] ends. *)
Lemma fetchTransactions_live (force : bool) (s : St P) :
  transactionsFromCache P H force s = (false, s) ->
  snd (fetchTransactions P H force s)
  = let r := getSignaturesForAddress conn pk 10 (clock (world s)) in
    let arrival := clock (world s) + Z.of_N (elapsed r) in
    let txs signatures :=
      TransactionItems_value
        (summarise P (of_Z arrival) (draws (world s)) signatures) in
    {| sheet :=
         {| balance := balance (sheet s);
            loadingBalance := loadingBalance (sheet s);
            transactions :=
              match outcome r with
              | Ok signatures => txs signatures
              | Throw _ => transactions (sheet s)
              end;
            loadingTxs := false;
            recipient := recipient (sheet s);
            amount := amount (sheet s);
            sending := sending (sheet s);
            sendError := sendError (sheet s);
            sendSuccess := sendSuccess (sheet s) |};
       world :=
         {| localStorage :=
              match outcome r with
              | Ok signatures =>
                  setCache P (of_Z arrival) (localStorage (world s))
                    (txCacheKey P H) (txs signatures)
              | Throw _ => localStorage (world s)
              end;
            clock := arrival;
            net_log := net_log (world s) ++ [CallGetSignaturesForAddress pk 10];
            console :=
              match outcome r with
              | Ok _ => console (world s)
              | Throw e =>
                  console (world s) ++ [("Failed to fetch transactions:", e)]
              end;
            draws :=
              match outcome r with
              | Ok signatures => (draws (world s) + 2 * length signatures)%nat
              | Throw _ => draws (world s)
              end |} |}.
Proof.
  intros Hlive. unfold fetchTransactions. rewrite Hpk, Hconn.
  unfold bind at 1. rewrite Hlive.
  unfold bind, setLoadingTxs, setTransactions, writeCache, console_error,
    mapSignatures, on_sheet, on_world, await, Date_now.
  cbn. destruct (outcome (getSignaturesForAddress conn pk 10 (clock (world s))));
    reflexivity.
Qed.

(** What the cache check of a non-forced read decides. *)
Lemma balanceFromCache_cases (s : St P) :
  let valid := isCacheValid P (Date_now P (world s)) (localStorage (world s))
                 (balanceCacheKey P H) BALANCE_CACHE_TTL in
  let cached := getCache P (localStorage (world s)) (balanceCacheKey P H) in
  balanceFromCache P H false s
  = if valid && not_null cached
    then (true, snd (setBalance P cached s))
    else (false, s).
Proof.
  unfold balanceFromCache, bind, checkCache, readCache, ret. cbn.
  destruct (isCacheValid _ _ _ _ _); [|reflexivity].
  destruct (not_null _); reflexivity.
Qed.

Lemma transactionsFromCache_cases (s : St P) :
  let valid := isCacheValid P (Date_now P (world s)) (localStorage (world s))
                 (txCacheKey P H) TX_CACHE_TTL in
  let cached := getCache P (localStorage (world s)) (txCacheKey P H) in
  transactionsFromCache P H false s
  = if valid && not_null cached
    then (true, snd (setTransactions P cached s))
    else (false, s).
Proof.
  unfold transactionsFromCache, bind, checkCache, readCache, ret. cbn.
  destruct (isCacheValid _ _ _ _ _); [|reflexivity].
  destruct (not_null _); reflexivity.
Qed.

(** A cache check that does not serve changes nothing. *)
Lemma balanceFromCache_miss (force : bool) (s s1 : St P) :
  balanceFromCache P H force s = (false, s1) -> s1 = s.
Proof.
  destruct force; [intros [= <-]; reflexivity|].
  rewrite balanceFromCache_cases. cbn zeta.
  destruct (_ && _); [discriminate|]. intros [= <-]. reflexivity.
Qed.

Lemma transactionsFromCache_miss (force : bool) (s s1 : St P) :
  transactionsFromCache P H force s = (false, s1) -> s1 = s.
Proof.
  destruct force; [intros [= <-]; reflexivity|].
  rewrite transactionsFromCache_cases. cbn zeta.
  destruct (_ && _); [discriminate|]. intros [= <-]. reflexivity.
Qed.

(** A read that was served ends with the state of the cache check. *)
Lemma fetchBalance_served (force : bool) (s s1 : St P) :
  balanceFromCache P H force s = (true, s1) ->
  snd (fetchBalance P H force s) = s1.
Proof.
  intros Hserved. unfold fetchBalance. rewrite Hpk, Hconn.
  unfold bind at 1. rewrite Hserved. reflexivity.
Qed.

Lemma fetchTransactions_served (force : bool) (s s1 : St P) :
  transactionsFromCache P H force s = (true, s1) ->
  snd (fetchTransactions P H force s) = s1.
Proof.
  intros Hserved. unfold fetchTransactions. rewrite Hpk, Hconn.
  unfold bind at 1. rewrite Hserved. reflexivity.
Qed.

End Paths.

(** The activity items built from a page of signatures. *)
Lemma summarise_length (P : Platform) (now : number) (signatures : list SignatureInfo) :
  forall i, length (summarise P now i signatures) = length signatures.
Proof.
  induction signatures as [|sig rest IH]; intros i; cbn; [reflexivity|].
  rewrite IH. reflexivity.
Qed.

Lemma summarise_items (P : Platform) (now : number) (signatures : list SignatureInfo) :
  forall i,
    Forall2 (fun sig tx =>
               TransactionItem.signature tx = signature sig
               /\ (TransactionItem.status tx = failed <-> truthy (err sig) = true)
               /\ (truthy (blockTime sig) = false ->
                   TransactionItem.timestamp tx = now))
            signatures (summarise P now i signatures).
Proof.
  induction signatures as [|sig rest IH]; intros i; cbn; constructor.
  - cbn. split; [reflexivity|]. split.
    + destruct (truthy (err sig)); split; congruence.
    + intros ->. reflexivity.
  - apply IH.
Qed.

(** Direction and amount of an item are drawn, not read off the
    signature. *)
Lemma summarise_drawn (P : Platform) (now now' : number)
    (signatures signatures' : list SignatureInfo) :
  length signatures = length signatures' ->
  forall i,
    map (fun tx => (TransactionItem.type tx, TransactionItem.amount tx))
        (summarise P now i signatures)
    = map (fun tx => (TransactionItem.type tx, TransactionItem.amount tx))
          (summarise P now' i signatures').
Proof.
  revert signatures'.
  induction signatures as [|sig rest IH]; intros [|sig' rest'] Hlen i;
    try discriminate; cbn; [reflexivity|].
  f_equal. apply IH. cbn in Hlen. congruence.
Qed.

(** Keys of the storage: the prefix is cancelled, and the two kinds
    of key never meet. *)
Lemma append_cancel (p a b : string) : p ++ a = p ++ b -> a = b.
Proof.
  induction p as [|c p IH]; cbn; [auto|]. intros [= Heq]. auto.
Qed.

Lemma cacheKey_inj (P : Platform) (H1 H2 : Hooks P) (pk1 pk2 : PublicKey)
    (k1 k2 : CacheKind) :
  publicKey H1 = Some pk1 -> publicKey H2 = Some pk2 ->
  cacheKey H1 k1 = cacheKey H2 k2 ->
  k1 = k2 /\ toBase58 pk1 = toBase58 pk2.
Proof.
  intros Hpk1 Hpk2.
  unfold cacheKey, balanceCacheKey, txCacheKey, walletAddress, PublicKey_toString.
  rewrite Hpk1, Hpk2.
  destruct k1, k2; cbn; intros [= Heq]; auto.
Qed.

(** A write under one key leaves what is read under another. *)
Lemma setCache_other (P : Platform) (now : number) (st : Storage)
    (key key' : string) (data : value) :
  key <> key' ->
  getCache P (setCache P now st key data) key' = getCache P st key' /\
  forall later ttl,
    isCacheValid P later (setCache P now st key data) key' ttl
    = isCacheValid P later st key' ttl.
Proof.
  intros Hne.
  assert (Hkeys : CACHE_KEY_PREFIX ++ key <> CACHE_KEY_PREFIX ++ key').
  { intros Heq. apply Hne. eapply append_cancel. exact Heq. }
  unfold setCache, setItem.
  destruct (window_defined st) eqn:Hwin; cbn; [|auto].
  destruct (accessible st) eqn:Hopen; cbn; [|auto].
  destruct (used _ <=? quota st)%nat; cbn; [|auto].
  unfold getCache, isCacheValid, getItem. cbn. rewrite Hwin, Hopen. cbn.
  rewrite lookup_insert_ne by exact Hkeys. auto.
Qed.

End SheetFacts.

(** ** More on the wallet side-panel: reads, refreshes and flags *)

Module SheetExtras.
Import WalletSheet Vocabulary CacheFacts CacheClaims SheetFacts Scenario MoreScenarios.

#[local] Arguments getCache : simpl never.
#[local] Arguments isCacheValid : simpl never.
#[local] Arguments setCache : simpl never.
#[local] Arguments of_Z : simpl never.
#[local] Arguments div : simpl never.
#[local] Arguments LAMPORTS_PER_SOL : simpl never.

(** X1. A forced refresh goes to the network whatever the cache
    holds: [fetchBalance(true)] and [fetchTransactions(true)] each make
    exactly one call, and a balance query that succeeds replaces the
    balance shown by the fetched one. *)
Theorem forced_refresh_goes_live (P : Platform) (H : Hooks P)
    (pk : PublicKey) (conn : Connection) (s : St P) :
  publicKey H = Some pk -> connection H = Some conn ->
  net_log (world (snd (fetchBalance P H true s)))
  = (net_log (world s) ++ [CallGetBalance pk])%list /\
  net_log (world (snd (fetchTransactions P H true s)))
  = (net_log (world s) ++ [CallGetSignaturesForAddress pk 10])%list /\
  (forall bal,
     outcome (getBalance conn pk (clock (world s))) = Ok bal ->
     balance (sheet (snd (fetchBalance P H true s)))
     = VNum (div bal LAMPORTS_PER_SOL)).
Proof.
  intros Hpk Hconn.
  rewrite (fetchBalance_live P H pk conn Hpk Hconn true s eq_refl).
  rewrite (fetchTransactions_live P H pk conn Hpk Hconn true s eq_refl).
  cbn. repeat split. intros bal ->. reflexivity.
Qed.

Lemma forced_refresh_goes_live_witness :
  net_log (world (snd (fetchBalance P0 (hooks P0 healthy) true (after 10000 blank))))
  = [CallGetBalance wallet] /\
  balance (sheet (snd (fetchBalance P0 (hooks P0 healthy) true (after 10000 blank))))
  = VNum (of_Z 3).
Proof.
  destruct (forced_refresh_goes_live P0 (hooks P0 healthy) wallet healthy
              (after 10000 blank) eq_refl eq_refl) as (Hlog & _ & Hshown).
  split; [exact Hlog|]. exact (Hshown (of_Z 3000000000) eq_refl).
Defined.

(** X2. Without a connected wallet (no public key, or no connection)
    [fetchBalance] and [fetchTransactions] return at once, the state
    and the world untouched; so does [handleSend], also when the
    wallet adapter offers no [sendTransaction]. *)
Theorem callbacks_need_a_wallet (P : Platform) (H : Hooks P)
    (force : bool) (s : St P) :
  (publicKey H = None \/ connection H = None ->
   fetchBalance P H force s = (tt, s) /\
   fetchTransactions P H force s = (tt, s)) /\
  (publicKey H = None \/ connection H = None \/ sendTransaction H = None ->
   handleSend P H s = (tt, s)).
Proof.
  unfold fetchBalance, fetchTransactions, handleSend.
  destruct (publicKey H) as [pk|], (connection H) as [conn|],
    (sendTransaction H) as [send|];
    split; intros Hnone; repeat split;
    repeat (destruct Hnone as [Hnone|Hnone]); discriminate.
Qed.

Lemma callbacks_need_a_wallet_witness :
  fetchBalance P0 (no_wallet P0) false (after 90000 blank) = (tt, after 90000 blank) /\
  fetchTransactions P0 (no_wallet P0) false (after 90000 blank)
  = (tt, after 90000 blank) /\
  handleSend P0 (no_wallet P0) (filled VNull) = (tt, filled VNull).
Proof.
  destruct (callbacks_need_a_wallet P0 (no_wallet P0) false (after 90000 blank))
    as [Hfetch _].
  destruct (Hfetch (or_introl eq_refl)) as [Hbalance Htxs].
  destruct (callbacks_need_a_wallet P0 (no_wallet P0) false (filled VNull))
    as [_ Hsend].
  split; [exact Hbalance|]. split; [exact Htxs|].
  exact (Hsend (or_introl eq_refl)).
Defined.

(** X3. When the storage cannot be used ([window] undefined, or every
    access throwing) the cache is an always-miss and never an error:
    [getCache] gives [null], [isCacheValid] gives [false], [setCache]
    changes nothing, and a non-forced [fetchBalance] makes its one
    call, shows the fetched balance and leaves the storage alone. *)
Theorem unusable_storage_is_a_miss (P : Platform) (H : Hooks P)
    (pk : PublicKey) (conn : Connection) (s : St P) :
  publicKey H = Some pk -> connection H = Some conn ->
  window_defined (localStorage (world s)) = false
  \/ accessible (localStorage (world s)) = false ->
  (forall key now ttl data,
     getCache P (localStorage (world s)) key = VNull /\
     isCacheValid P now (localStorage (world s)) key ttl = false /\
     setCache P now (localStorage (world s)) key data = localStorage (world s)) /\
  net_log (world (snd (fetchBalance P H false s)))
  = (net_log (world s) ++ [CallGetBalance pk])%list /\
  localStorage (world (snd (fetchBalance P H false s))) = localStorage (world s) /\
  (forall bal,
     outcome (getBalance conn pk (clock (world s))) = Ok bal ->
     balance (sheet (snd (fetchBalance P H false s)))
     = VNum (div bal LAMPORTS_PER_SOL)).
Proof.
  intros Hpk Hconn Hbad.
  assert (Hmiss : forall key now ttl data,
     getCache P (localStorage (world s)) key = VNull /\
     isCacheValid P now (localStorage (world s)) key ttl = false /\
     setCache P now (localStorage (world s)) key data = localStorage (world s)).
  { intros key now ttl data.
    unfold getCache, isCacheValid, setCache, getItem, setItem.
    destruct Hbad as [-> | ->]; [repeat split|].
    destruct (window_defined _); repeat split. }
  split; [exact Hmiss|].
  assert (Hlive : balanceFromCache P H false s = (false, s)).
  { rewrite balanceFromCache_cases.
    destruct (Hmiss (balanceCacheKey P H) (Date_now P (world s))
                BALANCE_CACHE_TTL VNull) as (_ & -> & _). reflexivity. }
  rewrite (fetchBalance_live P H pk conn Hpk Hconn false s Hlive). cbn.
  split; [reflexivity|]. split.
  - destruct (outcome _);
      [exact (proj2 (proj2 (Hmiss _ _ BALANCE_CACHE_TTL _)))|reflexivity].
  - intros bal ->. reflexivity.
Qed.

Lemma unusable_storage_is_a_miss_witness :
  let s := on_storage blocked_storage t0 blank in
  net_log (world (snd (fetchBalance P0 (hooks P0 healthy) false s)))
  = [CallGetBalance wallet] /\
  localStorage (world (snd (fetchBalance P0 (hooks P0 healthy) false s)))
  = blocked_storage /\
  balance (sheet (snd (fetchBalance P0 (hooks P0 healthy) false s)))
  = VNum (of_Z 3).
Proof.
  intros s.
  destruct (unusable_storage_is_a_miss P0 (hooks P0 healthy) wallet healthy s
              eq_refl eq_refl (or_intror eq_refl))
    as (_ & Hlog & Hstorage & Hshown).
  split; [exact Hlog|]. split; [exact Hstorage|].
  exact (Hshown (of_Z 3000000000) eq_refl).
Defined.

(** X4. A fetch never leaves its spinner on: with [loadingBalance]
    down before the call it is down after [fetchBalance], with
    [loadingTxs] down before it is down after [fetchTransactions],
    whether the read was served from the cache, the query succeeded
    or the query threw; and neither fetch touches the other's cells. *)
Theorem loading_flags_are_lowered (P : Platform) (H : Hooks P)
    (force : bool) (s : St P) :
  (loadingBalance (sheet s) = false ->
   loadingBalance (sheet (snd (fetchBalance P H force s))) = false) /\
  (loadingTxs (sheet s) = false ->
   loadingTxs (sheet (snd (fetchTransactions P H force s))) = false) /\
  transactions (sheet (snd (fetchBalance P H force s))) = transactions (sheet s) /\
  loadingTxs (sheet (snd (fetchBalance P H force s))) = loadingTxs (sheet s) /\
  balance (sheet (snd (fetchTransactions P H force s))) = balance (sheet s) /\
  loadingBalance (sheet (snd (fetchTransactions P H force s)))
  = loadingBalance (sheet s).
Proof.
  destruct (publicKey H) as [pk|] eqn:Hpk;
    [destruct (connection H) as [conn|] eqn:Hconn|].
  - assert (Hb : exists served s1,
               balanceFromCache P H force s = (served, s1) /\
               (served = false -> s1 = s) /\
               (served = true ->
                exists v, s1 = snd (setBalance P v s))).
    { destruct force; [exists false, s; repeat split; discriminate|].
      rewrite balanceFromCache_cases. cbn zeta.
      destruct (_ && _); eexists _, _; (split; [reflexivity|]);
        split; try discriminate; eauto. }
    assert (Ht : exists served s1,
               transactionsFromCache P H force s = (served, s1) /\
               (served = false -> s1 = s) /\
               (served = true ->
                exists v, s1 = snd (setTransactions P v s))).
    { destruct force; [exists false, s; repeat split; discriminate|].
      rewrite transactionsFromCache_cases. cbn zeta.
      destruct (_ && _); eexists _, _; (split; [reflexivity|]);
        split; try discriminate; eauto. }
    destruct Hb as (sb & s1 & Hb & Hb0 & Hb1).
    destruct Ht as (st & s2 & Ht & Ht0 & Ht1).
    assert (Hbal : snd (fetchBalance P H force s)
                   = if sb then s1 else snd (fetchBalance P H force s)) by
      (destruct sb; [apply (fetchBalance_served P H pk conn Hpk Hconn _ _ _ Hb)
                    |reflexivity]).
    assert (Htx : snd (fetchTransactions P H force s)
                  = if st then s2 else snd (fetchTransactions P H force s)) by
      (destruct st; [apply (fetchTransactions_served P H pk conn Hpk Hconn _ _ _ Ht)
                    |reflexivity]).
    destruct sb, st.
    + rewrite Hbal, Htx.
      destruct (Hb1 eq_refl) as [v ->]. destruct (Ht1 eq_refl) as [v' ->].
      cbn. repeat split; auto.
    + rewrite Hbal. destruct (Hb1 eq_refl) as [v ->].
      rewrite (Ht0 eq_refl) in Ht.
      rewrite (fetchTransactions_live P H pk conn Hpk Hconn force s Ht).
      cbn. repeat split; auto.
    + rewrite Htx. destruct (Ht1 eq_refl) as [v' ->].
      rewrite (Hb0 eq_refl) in Hb.
      rewrite (fetchBalance_live P H pk conn Hpk Hconn force s Hb).
      cbn. repeat split; auto.
    + rewrite (Hb0 eq_refl) in Hb. rewrite (Ht0 eq_refl) in Ht.
      rewrite (fetchBalance_live P H pk conn Hpk Hconn force s Hb).
      rewrite (fetchTransactions_live P H pk conn Hpk Hconn force s Ht).
      cbn. repeat split; auto.
  - unfold fetchBalance, fetchTransactions. rewrite Hpk, Hconn. cbn. repeat split; auto.
  - unfold fetchBalance, fetchTransactions. rewrite Hpk. cbn. repeat split; auto.
Qed.

Lemma loading_flags_are_lowered_witness :
  loadingBalance
    (sheet (snd (fetchBalance P0 (hooks P0 unreachable) false (after 90000 blank))))
  = false /\
  loadingTxs
    (sheet (snd (fetchTransactions P0 (hooks P0 unreachable) false
                   (after 90000 blank))))
  = false.
Proof.
  destruct (loading_flags_are_lowered P0 (hooks P0 unreachable) false
              (after 90000 blank)) as (Hbalance & Htxs & _).
  split; [exact (Hbalance eq_refl)|exact (Htxs eq_refl)].
Defined.

(** X5. Cache entries are scoped by kind and by wallet: a write for
    one kind and wallet changes neither what [getCache] returns nor
    what [isCacheValid] answers for another kind or another wallet. *)
Theorem cache_entries_do_not_collide (P : Platform) (H1 H2 : Hooks P)
    (pk1 pk2 : PublicKey) (k1 k2 : CacheKind) (now : number) (st : Storage)
    (data : value) :
  publicKey H1 = Some pk1 -> publicKey H2 = Some pk2 ->
  k1 <> k2 \/ toBase58 pk1 <> toBase58 pk2 ->
  getCache P (setCache P now st (cacheKey H1 k1) data) (cacheKey H2 k2)
  = getCache P st (cacheKey H2 k2) /\
  forall later ttl,
    isCacheValid P later (setCache P now st (cacheKey H1 k1) data)
      (cacheKey H2 k2) ttl
    = isCacheValid P later st (cacheKey H2 k2) ttl.
Proof.
  intros Hpk1 Hpk2 Hdiff. apply setCache_other.
  intros Heq. destruct (cacheKey_inj P H1 H2 pk1 pk2 k1 k2 Hpk1 Hpk2 Heq).
  destruct Hdiff; contradiction.
Qed.

Lemma cache_entries_do_not_collide_witness :
  getCache P0
    (setCache P0 (of_Z (t0 + 5)) stored
       (cacheKey (other_hooks P0) KBalance) (VNum (of_Z 9)))
    (cacheKey (hooks P0 healthy) KBalance)
  = cached_balance.
Proof.
  destruct (cache_entries_do_not_collide P0 (other_hooks P0) (hooks P0 healthy)
              other_wallet wallet KBalance KBalance (of_Z (t0 + 5)) stored
              (VNum (of_Z 9)) eq_refl eq_refl) as [Hread _].
  - right. discriminate.
  - rewrite Hread. vm_compute. reflexivity.
Defined.

(** X6. The last write wins and nothing else is lost: after two
    writes under one key, the second taken by the storage, [getCache]
    returns the second payload and the age is counted from the second
    write; the items under every other key are as before both writes. *)
Theorem last_write_wins (P : Platform) (st : Storage) (key : string)
    (first second : value) (t1 t2 : number) :
  storage_accepts (setCache P t1 st key first) (CACHE_KEY_PREFIX ++ key)
    (JSON_stringify P (CachedData second t2)) = true ->
  JSON_roundtrips P (CachedData second t2) ->
  let st2 := setCache P t2 (setCache P t1 st key first) key second in
  getCache P st2 key = second /\
  (forall later ttl, isCacheValid P later st2 key ttl = lt (sub later t2) ttl) /\
  (forall k, k <> CACHE_KEY_PREFIX ++ key -> items st2 !! k = items st !! k).
Proof.
  intros Hacc Hjson st2. subst st2.
  split; [apply getCache_setCache; assumption|].
  split; [intros later ttl; apply isCacheValid_setCache; assumption|].
  intros k Hk.
  assert (Hkeep : forall now s0 d,
            items (setCache P now s0 key d) !! k = items s0 !! k).
  { intros now s0 d. unfold setCache, setItem.
    destruct (window_defined s0); cbn; [|reflexivity].
    destruct (accessible s0); cbn; [|reflexivity].
    destruct (used _ <=? quota s0)%nat; cbn; [|reflexivity].
    apply lookup_insert_ne. auto. }
  rewrite !Hkeep. reflexivity.
Qed.

Lemma last_write_wins_witness :
  getCache P0
    (setCache P0 (of_Z (t0 + 45120)) stored ("balance_" ++ toBase58 wallet)
       (VNum (of_Z 3)))
    ("balance_" ++ toBase58 wallet)
  = VNum (of_Z 3).
Proof.
  apply (last_write_wins P0 empty_storage ("balance_" ++ toBase58 wallet)
           cached_balance (VNum (of_Z 3)) (of_Z t0) (of_Z (t0 + 45120))).
  - vm_compute. reflexivity.
  - split; [vm_compute; discriminate|vm_compute; reflexivity].
Defined.

(** X7. What a live fetch writes, the next read is served: after a
    [fetchBalance] that went to the network, got the balance and had
    its write taken by the storage, a later non-forced [fetchBalance]
    on that storage, while the age counted from the reply's arrival is
    below the TTL, shows the same balance and makes no call. *)
Theorem fetched_balance_is_served_next (P : Platform) (H : Hooks P)
    (pk : PublicKey) (conn : Connection) (force : bool) (s s2 : St P)
    (bal : number) :
  publicKey H = Some pk -> connection H = Some conn ->
  goes_live P (balanceCacheKey P H) BALANCE_CACHE_TTL force s ->
  outcome (getBalance conn pk (clock (world s))) = Ok bal ->
  let arrival :=
    clock (world s) + Z.of_N (elapsed (getBalance conn pk (clock (world s)))) in
  let written := CachedData (VNum (div bal LAMPORTS_PER_SOL)) (of_Z arrival) in
  storage_accepts (localStorage (world s))
    (CACHE_KEY_PREFIX ++ balanceCacheKey P H) (JSON_stringify P written) = true ->
  JSON_roundtrips P written ->
  localStorage (world s2) = localStorage (world (snd (fetchBalance P H force s))) ->
  lt (sub (Date_now P (world s2)) (of_Z arrival)) BALANCE_CACHE_TTL = true ->
  balance (sheet (snd (fetchBalance P H false s2)))
  = balance (sheet (snd (fetchBalance P H force s))) /\
  world (snd (fetchBalance P H false s2)) = world s2.
Proof.
  intros Hpk Hconn Hlive Hreply arrival written Hacc Hjson Hstore Hage.
  pose proof (balance_not_served P H force s Hlive) as Hmiss.
  rewrite (fetchBalance_live P H pk conn Hpk Hconn force s Hmiss) in Hstore |- *.
  cbn in Hstore |- *. rewrite Hreply in Hstore |- *. fold arrival in Hstore.
  apply (served_from_cache P H pk conn KBalance s2
           (VNum (div bal LAMPORTS_PER_SOL)) Hpk Hconn).
  - cbn [cacheKey cacheTTL]. rewrite Hstore.
    rewrite isCacheValid_setCache by assumption. exact Hage.
  - cbn [cacheKey]. rewrite Hstore. apply getCache_setCache; assumption.
  - reflexivity.
Qed.

Lemma fetched_balance_is_served_next_witness :
  let s1 := snd (fetchBalance P0 (hooks P0 healthy) false (after 45000 blank)) in
  let s2 := on_storage (localStorage (world s1)) (t0 + 60000) blank in
  balance (sheet (snd (fetchBalance P0 (hooks P0 healthy) false s2))) = VNum (of_Z 3)
  /\ net_log (world (snd (fetchBalance P0 (hooks P0 healthy) false s2))) = [].
Proof.
  intros s1 s2.
  destruct (fetched_balance_is_served_next P0 (hooks P0 healthy) wallet healthy
              false (after 45000 blank) s2 (of_Z 3000000000) eq_refl eq_refl)
    as [Hshown Hworld].
  - right; left. vm_compute. reflexivity.
  - reflexivity.
  - vm_compute. reflexivity.
  - split; [vm_compute; discriminate|vm_compute; reflexivity].
  - reflexivity.
  - vm_compute. reflexivity.
  - split; [rewrite Hshown; reflexivity|rewrite Hworld; reflexivity].
Defined.

(** X8. A history query that succeeds shows one item per signature
    returned, in order and under that signature, marked failed exactly
    when the signature carries an error, and stamped with the time of
    arrival when it has no block time; what is shown is what is handed
    to the cache. *)
Theorem history_lists_every_signature (P : Platform) (H : Hooks P)
    (pk : PublicKey) (conn : Connection) (force : bool) (s : St P)
    (signatures : list SignatureInfo) :
  publicKey H = Some pk -> connection H = Some conn ->
  goes_live P (txCacheKey P H) TX_CACHE_TTL force s ->
  outcome (getSignaturesForAddress conn pk 10 (clock (world s))) = Ok signatures ->
  let arrival :=
    of_Z (clock (world s)
          + Z.of_N (elapsed (getSignaturesForAddress conn pk 10 (clock (world s))))) in
  let s' := snd (fetchTransactions P H force s) in
  exists txs,
    transactions (sheet s') = TransactionItems_value txs /\
    localStorage (world s')
    = setCache P arrival (localStorage (world s)) (txCacheKey P H)
        (TransactionItems_value txs) /\
    Forall2 (fun sig tx =>
               TransactionItem.signature tx = signature sig
               /\ (TransactionItem.status tx = failed <-> truthy (err sig) = true)
               /\ (truthy (blockTime sig) = false ->
                   TransactionItem.timestamp tx = arrival))
            signatures txs.
Proof.
  intros Hpk Hconn Hlive Hreply arrival s'. subst s'.
  pose proof (transactions_not_served P H force s Hlive) as Hmiss.
  rewrite (fetchTransactions_live P H pk conn Hpk Hconn force s Hmiss).
  cbn. rewrite Hreply.
  eexists. split; [reflexivity|]. split; [reflexivity|].
  apply summarise_items.
Qed.

Lemma history_lists_every_signature_witness :
  exists txs,
    transactions
      (sheet (snd (fetchTransactions P0 (hooks P0 with_history) false
                     (after 0 blank))))
    = TransactionItems_value txs /\
    map TransactionItem.signature txs
    = [ "5VERv8NMvzbJMEkV8xnrLkEaWRtSz9CosKDYjCJjBRnb";
        "2jg9xbGLtZRsiJBrDWQnz33JuLjDkiKSZuxZPdjJ3qrJ" ] /\
    map TransactionItem.status txs = [success; failed].
Proof.
  destruct (history_lists_every_signature P0 (hooks P0 with_history) wallet
              with_history false (after 0 blank)
              [ {| signature := "5VERv8NMvzbJMEkV8xnrLkEaWRtSz9CosKDYjCJjBRnb";
                   blockTime := VNum (of_Z 1700000000);
                   err := VNull |};
                {| signature := "2jg9xbGLtZRsiJBrDWQnz33JuLjDkiKSZuxZPdjJ3qrJ";
                   blockTime := VNull;
                   err := InstructionError |} ]
              eq_refl eq_refl)
    as (txs & Hshown & _ & Hitems).
  - right; left. vm_compute. reflexivity.
  - reflexivity.
  - exists txs. split; [exact Hshown|].
    inversion Hitems as [|sig1 tx1 l1 k1 (Hs1 & Hf1 & _) Htail]; subst.
    inversion Htail as [|sig2 tx2 l2 k2 (Hs2 & Hf2 & _) Hnil]; subst.
    inversion Hnil; subst. cbn [map]. rewrite Hs1, Hs2.
    split; [reflexivity|].
    assert (E2 : TransactionItem.status tx2 = failed)
      by (apply Hf2; reflexivity).
    assert (E1 : TransactionItem.status tx1 = success).
    { destruct (TransactionItem.status tx1) eqn:E; [reflexivity|].
      destruct Hf1 as [Hf1 _]. pose proof (Hf1 eq_refl) as Hno.
      vm_compute in Hno. discriminate Hno. }
    rewrite E1, E2. reflexivity.
Defined.

(** X9. The direction and the amount shown for a transaction are not
    derived from it: two history pages of the same length, whatever
    their signatures, block times and errors, fetched with the random
    source at the same point, show the same directions and amounts. *)
Theorem direction_and_amount_are_drawn (P : Platform)
    (now now' : number) (i : nat) (signatures signatures' : list SignatureInfo) :
  length signatures = length signatures' ->
  map (fun tx => (TransactionItem.type tx, TransactionItem.amount tx))
      (summarise P now i signatures)
  = map (fun tx => (TransactionItem.type tx, TransactionItem.amount tx))
        (summarise P now' i signatures').
Proof. intros Hlen. apply summarise_drawn. exact Hlen. Qed.

Lemma direction_and_amount_are_drawn_witness :
  map (fun tx => (TransactionItem.type tx, TransactionItem.amount tx))
      (summarise P0 (of_Z t0) 0
         [ {| signature := "5VERv8NMvzbJMEkV8xnrLkEaWRtSz9CosKDYjCJjBRnb";
              blockTime := VNum (of_Z 1700000000); err := VNull |} ])
  = map (fun tx => (TransactionItem.type tx, TransactionItem.amount tx))
        (summarise P0 (of_Z (t0 + 5)) 0
           [ {| signature := "2jg9xbGLtZRsiJBrDWQnz33JuLjDkiKSZuxZPdjJ3qrJ";
                blockTime := VNull; err := InstructionError |} ]).
Proof.
  apply (direction_and_amount_are_drawn P0 (of_Z t0) (of_Z (t0 + 5)) 0).
  reflexivity.
Defined.

End SheetExtras.

(** ** More on the send flow: what a submitted transfer ends in *)

Module SendExtras.
Import WalletSheet Vocabulary SendVocabulary SheetFacts SendClaims Scenario
  MoreScenarios.

#[local] Arguments lt : simpl never.
#[local] Arguments le : simpl never.
#[local] Arguments gt : simpl never.
#[local] Arguments isNaN : simpl never.
#[local] Arguments of_Z : simpl never.
#[local] Arguments div : simpl never.
#[local] Arguments mul : simpl never.
#[local] Arguments floor : simpl never.
#[local] Arguments LAMPORTS_PER_SOL : simpl never.
#[local] Arguments setCache : simpl never.

Section Outcomes.

Context (P : Platform) (H : Hooks P) (pk to : PublicKey) (conn : Connection)
  (send : Transaction P -> Z -> Reply string).
Hypothesis (Hpk : publicKey H = Some pk) (Hconn : connection H = Some conn)
  (Hsend : sendTransaction H = Some send).

Lemma submit_build_throws (a : number) (s : St P) (e : Error) :
  SystemProgram_transfer P
    {| fromPubkey := pk; toPubkey := to;
       lamports := floor (mul a LAMPORTS_PER_SOL) |} = Throw e ->
  snd (submitTransfer P H pk to conn send a s) = snd (sendFailed P e s).
Proof. intros Hbuilt. unfold submitTransfer. rewrite Hbuilt. reflexivity. Qed.

Lemma submit_send_throws (a : number) (s : St P) (ix : Instruction P) (e : Error) :
  SystemProgram_transfer P
    {| fromPubkey := pk; toPubkey := to;
       lamports := floor (mul a LAMPORTS_PER_SOL) |} = Ok ix ->
  outcome (send [ix] (clock (world s))) = Throw e ->
  snd (submitTransfer P H pk to conn send a s)
  = snd (sendFailed P e (snd (await P (CallSendTransaction [ix]) (send [ix]) s))).
Proof.
  intros Hbuilt Hreply. unfold submitTransfer. rewrite Hbuilt.
  unfold bind at 1, await. cbv beta iota zeta. rewrite Hreply. reflexivity.
Qed.

Lemma submit_confirm_throws (a : number) (s : St P) (ix : Instruction P)
    (sig : string) (e : Error) :
  SystemProgram_transfer P
    {| fromPubkey := pk; toPubkey := to;
       lamports := floor (mul a LAMPORTS_PER_SOL) |} = Ok ix ->
  outcome (send [ix] (clock (world s))) = Ok sig ->
  let s1 := snd (await P (CallSendTransaction [ix]) (send [ix]) s) in
  outcome (confirmTransaction conn sig "confirmed" (clock (world s1))) = Throw e ->
  snd (submitTransfer P H pk to conn send a s)
  = snd (sendFailed P e
           (snd (await P (CallConfirmTransaction sig "confirmed")
                   (confirmTransaction conn sig "confirmed") s1))).
Proof.
  intros Hbuilt Hreply s1 Hconfirm. unfold submitTransfer. rewrite Hbuilt.
  unfold bind at 1. unfold await at 1. cbv beta iota zeta. rewrite Hreply.
  unfold bind at 1. unfold await at 1. cbv beta iota zeta.
  subst s1. unfold await in Hconfirm. cbn [snd world clock] in Hconfirm.
  cbn [world clock]. rewrite Hconfirm. reflexivity.
Qed.

Lemma submit_confirmed (a : number) (s : St P) (ix : Instruction P) (sig : string) :
  SystemProgram_transfer P
    {| fromPubkey := pk; toPubkey := to;
       lamports := floor (mul a LAMPORTS_PER_SOL) |} = Ok ix ->
  outcome (send [ix] (clock (world s))) = Ok sig ->
  let s1 := snd (await P (CallSendTransaction [ix]) (send [ix]) s) in
  outcome (confirmTransaction conn sig "confirmed" (clock (world s1))) = Ok tt ->
  let s2 := snd (await P (CallConfirmTransaction sig "confirmed")
                   (confirmTransaction conn sig "confirmed") s1) in
  snd (submitTransfer P H pk to conn send a s)
  = snd (fetchBalance P H true
           (snd (setAmount P ""
                   (snd (setRecipient P ""
                           (snd (setSendSuccess P "Transaction sent successfully!"
                                   s2))))))).
Proof.
  intros Hbuilt Hreply s1 Hconfirm s2. unfold submitTransfer. rewrite Hbuilt.
  unfold bind at 1. unfold await at 1. cbv beta iota zeta. rewrite Hreply.
  unfold bind at 1. unfold await at 1. cbv beta iota zeta.
  subst s2 s1. unfold await in Hconfirm |- *. cbn [snd world clock] in Hconfirm |- *.
  rewrite Hconfirm.
  unfold setSendSuccess, setRecipient, setAmount.
  rewrite !bind_on_sheet. reflexivity.
Qed.

End Outcomes.

(** X10. A send that goes through: when the form passes the checks,
    the library builds the transfer, the wallet submits it and the
    node confirms it, [handleSend] ends with the success notice, no
    error, the form cleared and the sending flag down, after exactly
    three calls: the submission, its confirmation and a forced balance
    query. *)
Theorem confirmed_send_clears_the_form (P : Platform) (H : Hooks P)
    (pk to : PublicKey) (conn : Connection)
    (send : Transaction P -> Z -> Reply string) (s : St P)
    (ix : Instruction P) (sig : string) :
  publicKey H = Some pk -> connection H = Some conn ->
  sendTransaction H = Some send ->
  passes_validation P (sheet s) to ->
  SystemProgram_transfer P (transfer_of P (sheet s) pk to) = Ok ix ->
  outcome (send [ix] (clock (world s))) = Ok sig ->
  outcome (confirmTransaction conn sig "confirmed"
             (clock (world s) + Z.of_N (elapsed (send [ix] (clock (world s))))))
  = Ok tt ->
  let s' := snd (handleSend P H s) in
  sendSuccess (sheet s') = "Transaction sent successfully!" /\
  sendError (sheet s') = "" /\
  recipient (sheet s') = "" /\ amount (sheet s') = "" /\
  sending (sheet s') = false /\
  net_log (world s')
  = (net_log (world s)
     ++ [CallSendTransaction [ix]; CallConfirmTransaction sig "confirmed";
         CallGetBalance pk])%list.
Proof.
  intros Hpk Hconn Hsend Hvalid Hbuilt Hreply Hconfirm s'. subst s'.
  rewrite (handleSend_valid P H pk to conn send Hpk Hconn Hsend s Hvalid).
  rewrite (submit_confirmed P H pk to conn send _ (primed P s) ix sig
             Hbuilt Hreply Hconfirm).
  rewrite (fetchBalance_live P H pk conn Hpk Hconn true _ eq_refl).
  cbn. rewrite <- !app_assoc. repeat split.
Qed.

Lemma confirmed_send_clears_the_form_witness :
  let s' := snd (handleSend P0 (hooks P0 healthy) (filled VNull)) in
  sendSuccess (sheet s') = "Transaction sent successfully!" /\
  recipient (sheet s') = "" /\ amount (sheet s') = "" /\
  sending (sheet s') = false /\
  length (net_log (world s')) = 3%nat.
Proof.
  destruct (confirmed_send_clears_the_form P0 (hooks P0 healthy) wallet
              other_wallet healthy
              (fun _ _ => {| outcome := Ok "3nQ1fJ7mRk"; elapsed := 800 |})
              (filled VNull)
              {| fromPubkey := wallet; toPubkey := other_wallet;
                 lamports := JS.of_Z 100000000000 |}
              "3nQ1fJ7mRk" eq_refl eq_refl eq_refl)
    as (Hok & _ & Hto & Hamount & Hflag & Hlog).
  - repeat split; vm_compute; reflexivity.
  - vm_compute. reflexivity.
  - reflexivity.
  - reflexivity.
  - split; [exact Hok|]. split; [exact Hto|]. split; [exact Hamount|].
    split; [exact Hflag|]. rewrite Hlog. reflexivity.
Defined.

(** X11. A send that fails after the checks: whichever of the three
    steps throws (building the transfer, submitting it, confirming
    it), [handleSend] shows the message of the error, or "Transaction
    failed" for a thrown value that is no [Error]; it keeps the form as
    typed, lowers the sending flag, and makes no call after the one
    that threw: the balance shown and the storage are as before. *)
Theorem failed_send_keeps_the_form (P : Platform) (H : Hooks P)
    (pk to : PublicKey) (conn : Connection)
    (send : Transaction P -> Z -> Reply string) (s : St P) (e : Error) :
  publicKey H = Some pk -> connection H = Some conn ->
  sendTransaction H = Some send ->
  passes_validation P (sheet s) to ->
  let built := SystemProgram_transfer P (transfer_of P (sheet s) pk to) in
  let submitted ix := send [ix] (clock (world s)) in
  let confirmed ix sig :=
    confirmTransaction conn sig "confirmed"
      (clock (world s) + Z.of_N (elapsed (submitted ix))) in
  built = Throw e
  \/ (exists ix, built = Ok ix /\ outcome (submitted ix) = Throw e)
  \/ (exists ix sig,
        built = Ok ix /\ outcome (submitted ix) = Ok sig
        /\ outcome (confirmed ix sig) = Throw e) ->
  let s' := snd (handleSend P H s) in
  sendError (sheet s') = error_text e /\
  sendSuccess (sheet s') = "" /\
  recipient (sheet s') = recipient (sheet s) /\
  amount (sheet s') = amount (sheet s) /\
  sending (sheet s') = false /\
  balance (sheet s') = balance (sheet s) /\
  localStorage (world s') = localStorage (world s) /\
  net_log (world s')
  = (net_log (world s)
     ++ match built with
        | Throw _ => []
        | Ok ix =>
            CallSendTransaction [ix]
            :: match outcome (submitted ix) with
               | Throw _ => []
               | Ok sig => [CallConfirmTransaction sig "confirmed"]
               end
        end)%list.
Proof.
  intros Hpk Hconn Hsend Hvalid built submitted confirmed Hfail s'.
  subst s'.
  rewrite (handleSend_valid P H pk to conn send Hpk Hconn Hsend s Hvalid).
  destruct Hfail as [Hbuilt | [(ix & Hbuilt & Hreply)
                              | (ix & sig & Hbuilt & Hreply & Hconfirm)]].
  - rewrite (submit_build_throws P H pk to conn send _ (primed P s) e Hbuilt).
    rewrite Hbuilt. cbn. rewrite app_nil_r. repeat split.
  - rewrite (submit_send_throws P H pk to conn send _ (primed P s) ix e
               Hbuilt Hreply).
    rewrite Hbuilt. cbv beta iota zeta. rewrite Hreply. cbn. repeat split.
  - rewrite (submit_confirm_throws P H pk to conn send _ (primed P s) ix sig e
               Hbuilt Hreply Hconfirm).
    rewrite Hbuilt. cbv beta iota zeta. rewrite Hreply. cbn.
    rewrite <- !app_assoc. repeat split.
Qed.

Lemma failed_send_keeps_the_form_witness :
  let s' := snd (handleSend P0 (declining P0) (filled VNull)) in
  sendError (sheet s') = "User rejected the request." /\
  recipient (sheet s') = "9WzDXwBbmkg8ZTbNMqUxvQRAyrZzDsGYdLVL9zYtAWWM" /\
  amount (sheet s') = "100" /\
  sending (sheet s') = false /\
  length (net_log (world s')) = 1%nat.
Proof.
  destruct (failed_send_keeps_the_form P0 (declining P0) wallet other_wallet
              healthy
              (fun _ _ => {| outcome := Throw UserRejected; elapsed := 4000 |})
              (filled VNull) UserRejected eq_refl eq_refl eq_refl)
    as (Herror & _ & Hto & Hamount & Hflag & _ & _ & Hlog).
  - repeat split; vm_compute; reflexivity.
  - right; left.
    exists {| fromPubkey := wallet; toPubkey := other_wallet;
              lamports := JS.of_Z 100000000000 |}.
    split; reflexivity.
  - split; [exact Herror|]. split; [exact Hto|]. split; [exact Hamount|].
    split; [exact Hflag|]. rewrite Hlog. reflexivity.
Defined.

End SendExtras.

(** ** More on the ownership resolver *)

Module ResolverExtras.
Import OwnedNFTs ResolverVocabulary ResolverFacts ResolverClaims
  ResolverScenario MoreResolverScenarios.

Lemma toOwned_rejects (P : Platform) (l : list TokenAccount) :
  Exists (fun a => PublicKey_new P (ParsedInfo.mint (info a)) = None) l ->
  exists a,
    a ∈ l
    /\ PublicKey_new P (ParsedInfo.mint (info a)) = None
    /\ toOwned P l = Throw (PublicKey_error P (ParsedInfo.mint (info a))).
Proof.
  induction 1 as [a l Hbad | a l _ (b & Hb & Hnone & IH)].
  - exists a. split; [left|]. split; [exact Hbad|].
    cbn. rewrite Hbad. reflexivity.
  - destruct (PublicKey_new P (ParsedInfo.mint (info a))) eqn:Ha.
    + exists b. split; [right; exact Hb|]. split; [exact Hnone|].
      cbn. rewrite Ha, IH. reflexivity.
    + exists a. split; [left|]. split; [exact Ha|].
      cbn. rewrite Ha. reflexivity.
Qed.

(** X12. Hard failures keep the previous list: when the enumeration
    throws, or when the mint text of a retained holding is rejected by
    the [PublicKey] constructor, [refetch] surfaces "Failed to fetch
    NFTs", lowers the loading flag, keeps the records of the previous
    pass and logs one line, whatever the per-NFT lookups would answer
    and in whatever order; no record of this pass is emitted. *)
Theorem hard_failure_keeps_previous_list (P : Platform) (G : Program)
    (connection : Connection) (schedule : list nat) (owner : PublicKey)
    (s : HookState) :
  (exists e, getParsedTokenAccountsByOwner connection owner = Throw e)
  \/ (exists accounts,
        getParsedTokenAccountsByOwner connection owner = Ok accounts
        /\ Exists (fun a => isNFT a = true
                            /\ PublicKey_new P (ParsedInfo.mint (info a)) = None)
                  accounts) ->
  exists e,
    refetch P G connection schedule (Some owner) s
    = ({| nfts := nfts s; loading := false;
          error := Some "Failed to fetch NFTs" |},
       [("Error fetching NFTs:", e)]).
Proof.
  unfold refetch, nftAccounts.
  intros [[e ->] | (accounts & -> & Hbad)]; [exists e; reflexivity|].
  destruct (toOwned_rejects P (List.filter isNFT accounts))
    as (b & _ & _ & Hthrown).
  { apply Exists_exists in Hbad as (a & Ha & Hnft & Hmint).
    apply Exists_exists. exists a. split; [|exact Hmint].
    apply list_elem_of_In, filter_In.
    split; [apply list_elem_of_In; exact Ha|exact Hnft]. }
  rewrite Hthrown. eexists. reflexivity.
Qed.

Lemma hard_failure_keeps_previous_list_witness :
  fst (refetch P0 program offline second_first (Some wallet) showing)
  = {| nfts := [recordA]; loading := false;
       error := Some "Failed to fetch NFTs" |}.
Proof.
  destruct (hard_failure_keeps_previous_list P0 program offline second_first
              wallet showing) as [e Hresult].
  - left. exists Scenario.TransportError. reflexivity.
  - rewrite Hresult. reflexivity.
Defined.

(** X13. A reply that never arrives keeps the call pending: when the
    enumeration succeeds and some retained holding has received no
    reply at all, the loading flag stays up, no error is set and the
    records shown are still those of the previous pass. *)
Theorem missing_reply_keeps_loading (P : Platform) (G : Program)
    (connection : Connection) (schedule : list nat) (owner : PublicKey)
    (accounts : list TokenAccount) (s : HookState) (j : nat) :
  getParsedTokenAccountsByOwner connection owner = Ok accounts ->
  well_formed_mints P accounts ->
  (j < length (List.filter isNFT accounts))%nat ->
  arrivals schedule j = 0%nat ->
  fst (refetch P G connection schedule (Some owner) s)
  = {| nfts := nfts s; loading := true; error := None |}.
Proof.
  intros Henum Hmints Hj Hnone.
  destruct (toOwned_total P _ Hmints) as [owned Howned].
  pose proof (Forall2_length _ _ _ (toOwned_drawn P _ _ Howned)) as Hlen.
  unfold refetch, nftAccounts. rewrite Henum, Howned.
  assert (Hpending : Promise_all (run G connection schedule (launch owned)) = None).
  { unfold Promise_all. apply mapM_None.
    destruct (lookup_lt_is_Some_2 owned j) as [nft Hnft]; [lia|].
    apply Exists_exists. exists (AwaitListing nft). split; [|reflexivity].
    apply (list_elem_of_lookup_2 _ j).
    rewrite run_lookup, launch_lookup, Hnft, Hnone. reflexivity. }
  rewrite Hpending. reflexivity.
Qed.

Lemma missing_reply_keeps_loading_witness :
  fst (refetch P0 program chain first_only (Some wallet) showing)
  = {| nfts := [recordA]; loading := true; error := None |}.
Proof.
  apply (missing_reply_keeps_loading P0 program chain first_only wallet
           holdings showing 1 eq_refl scenario_well_formed).
  - vm_compute. lia.
  - reflexivity.
Defined.

(** X14. Every record the resolver emits is a holding of quantity one:
    in the output of a completed resolution the [amount] of each record
    is a number strictly equal to 1. *)
Theorem every_record_has_quantity_one (P : Platform) (G : Program)
    (connection : Connection) (schedule : list nat) (owner : PublicKey)
    (accounts : list TokenAccount) (s : HookState) (o : OwnedNFT) :
  getParsedTokenAccountsByOwner connection owner = Ok accounts ->
  well_formed_mints P accounts ->
  all_arrive schedule (length (List.filter isNFT accounts)) ->
  o ∈ nfts (fst (refetch P G connection schedule (Some owner) s)) ->
  exists n, amount o = Some n /\ strict_eq n (of_Z 1) = true.
Proof.
  intros Henum Hmints Hall Ho.
  destruct (refetch_resolved P G connection schedule owner accounts s
              Henum Hmints Hall) as (owned & Howned & _ & Hstate).
  rewrite Hstate in Ho. cbn in Ho.
  change (map (settle G connection) owned) with (settle G connection <$> owned) in Ho.
  apply list_elem_of_fmap in Ho as (o0 & -> & Ho0).
  rewrite settle_amount.
  apply list_elem_of_lookup in Ho0 as [i Hi].
  destruct (Forall2_lookup_r _ _ _ _ _ (toOwned_amount P _ _ Howned) Hi)
    as (a & Ha & Hamount).
  apply list_elem_of_lookup_2, list_elem_of_In, filter_In in Ha as [_ Hnft].
  unfold isNFT, is_one in Hnft. apply andb_prop in Hnft as [Hone _].
  rewrite Hamount.
  destruct (uiAmount (ParsedInfo.tokenAmount (info a))) as [n|]; [|discriminate].
  exists n. auto.
Qed.

Lemma every_record_has_quantity_one_witness :
  exists n, amount recordB = Some n /\ strict_eq n (of_Z 1) = true.
Proof.
  apply (every_record_has_quantity_one P0 program chain second_first wallet
           holdings idle recordB eq_refl scenario_well_formed
           (scenario_all_arrive second_first eq_refl)).
  apply list_elem_of_In. vm_compute. right. left. reflexivity.
Defined.

Lemma or_else_not_empty (text : option string) (fallback : string) :
  fallback <> "" -> or_else text fallback <> "".
Proof.
  intros Hfallback. unfold or_else.
  destruct text as [t|]; [|exact Hfallback].
  destruct (String.eqb t "") eqn:Ht; [exact Hfallback|].
  apply String.eqb_neq. exact Ht.
Qed.

(** X15. What the pages get from [useNFTs]: one record per owned NFT,
    in order, keyed by the text of its mint; its name is never empty
    (a missing or empty metadata name gives "NFT #" and the first
    characters of the mint), and its image is never empty as long as
    the placeholder is not. *)
Theorem pages_get_named_records (PLACEHOLDER_IMAGE : string)
    (owned : list OwnedNFT) :
  map NFT.mint (useNFTs PLACEHOLDER_IMAGE owned)
  = map (fun o => PublicKey_toString (mint o)) owned /\
  Forall (fun n =>
            NFT.name n <> ""
            /\ (PLACEHOLDER_IMAGE <> "" -> NFT.image n <> ""))
         (useNFTs PLACEHOLDER_IMAGE owned) /\
  Forall2 (fun o n =>
             (metadata o = None
              \/ (exists m, metadata o = Some m /\ name m = "")) ->
             NFT.name n
             = "NFT #" ++ substring 0 4 (PublicKey_toString (mint o)))
          owned (useNFTs PLACEHOLDER_IMAGE owned).
Proof.
  unfold useNFTs. split; [|split].
  - rewrite map_map. reflexivity.
  - apply Forall_forall. intros n Hn.
    change (map ?f owned) with (f <$> owned) in Hn.
    apply list_elem_of_fmap in Hn as (o & -> & _). cbn. split.
    + apply or_else_not_empty. discriminate.
    + intros Hph. apply or_else_not_empty. exact Hph.
  - induction owned as [|o owned IH]; cbn [map]; constructor; [|exact IH].
    intros [Hnone | (m & Hsome & Hempty)]; cbn [simplify NFT.name].
    + rewrite Hnone. reflexivity.
    + rewrite Hsome. cbn [fmap option_fmap option_map or_else].
      rewrite Hempty. reflexivity.
Qed.

(** X16. An asset whose metadata could not be fetched is still handed
    to the pages, under a generated name and with the placeholder
    image, without description and not flagged as listed. *)
Theorem failed_metadata_gets_fallbacks (P : Platform) (G : Program)
    (connection : Connection) (schedule : list nat) (owner : PublicKey)
    (accounts : list TokenAccount) (s : HookState) (o : OwnedNFT) (e : Error)
    (PLACEHOLDER_IMAGE : string) :
  getParsedTokenAccountsByOwner connection owner = Ok accounts ->
  well_formed_mints P accounts ->
  all_arrive schedule (length (List.filter isNFT accounts)) ->
  o ∈ nfts (fst (refetch P G connection schedule (Some owner) s)) ->
  fetchNFTMetadataFromChain G (mint o) = Throw e ->
  let shown := simplify PLACEHOLDER_IMAGE o in
  shown ∈ useNFTs PLACEHOLDER_IMAGE
            (nfts (fst (refetch P G connection schedule (Some owner) s))) /\
  NFT.name shown = "NFT #" ++ substring 0 4 (toBase58 (mint o)) /\
  NFT.image shown = PLACEHOLDER_IMAGE /\
  NFT.description shown = None /\
  NFT.isListed shown = false.
Proof.
  intros Henum Hmints Hall Ho Hthrow shown. subst shown.
  split.
  { unfold useNFTs.
    change (map ?f ?l) with (f <$> l). apply list_elem_of_fmap_2. exact Ho. }
  destruct (refetch_resolved P G connection schedule owner accounts s
              Henum Hmints Hall) as (owned & _ & _ & Hstate).
  rewrite Hstate in Ho. cbn in Ho.
  change (map (settle G connection) owned) with (settle G connection <$> owned) in Ho.
  apply list_elem_of_fmap in Ho as (o0 & -> & _).
  rewrite settle_mint in Hthrow |- *.
  destruct (settle_metadata_absent G connection o0 e Hthrow) as [Hmeta Hlisted].
  unfold simplify. cbn. rewrite Hmeta, Hlisted, settle_mint. cbn. auto.
Qed.

Lemma failed_metadata_gets_fallbacks_witness :
  NFT.name (simplify PLACEHOLDER_IMAGE recordB) = "NFT #8JUj" /\
  NFT.image (simplify PLACEHOLDER_IMAGE recordB) = "/placeholder-nft.png".
Proof.
  destruct (failed_metadata_gets_fallbacks P0 program chain second_first wallet
              holdings idle recordB Scenario.TransportError PLACEHOLDER_IMAGE
              eq_refl scenario_well_formed
              (scenario_all_arrive second_first eq_refl))
    as (_ & Hname & Himage & _).
  - apply list_elem_of_In. vm_compute. right. left. reflexivity.
  - reflexivity.
  - split; [rewrite Hname; reflexivity|exact Himage].
Defined.

End ResolverExtras.

(** ** The console of the ownership resolver *)

Module ConsoleExtras.
Import OwnedNFTs ResolverVocabulary ConsoleVocabulary ResolverFacts ResolverClaims
  ResolverScenario MoreResolverScenarios.

Lemma sum_agree (f g : nat -> nat) (n : nat) :
  forall start,
    (forall j, (start <= j < start + n)%nat -> f j = g j) ->
    sum_list (map f (seq start n)) = sum_list (map g (seq start n)).
Proof.
  induction n as [|n IH]; intros start Hfg; cbn; [reflexivity|].
  rewrite (Hfg start) by lia. rewrite (IH (S start)); [reflexivity|].
  intros j Hj. apply Hfg. lia.
Qed.

(** Two summands that agree but at [i], where [f] is [c] ahead. *)
Lemma sum_ahead (f g : nat -> nat) (i c n : nat) :
  forall start,
    (forall j, j <> i -> f j = g j) ->
    f i = (c + g i)%nat ->
    (start <= i < start + n)%nat ->
    sum_list (map f (seq start n)) = (c + sum_list (map g (seq start n)))%nat.
Proof.
  induction n as [|n IH]; intros start Hfg Hi Hrange; [lia|]. cbn.
  destruct (decide (start = i)) as [->|Hne].
  - rewrite Hi. rewrite (sum_agree f g n (S i)); [lia|].
    intros j Hj. apply Hfg. lia.
  - rewrite (Hfg start) by exact Hne.
    rewrite (IH (S start)) by (auto; lia). lia.
Qed.

Lemma sum_over_list {A : Type} (h : A -> nat) (l : list A) :
  forall start,
    sum_list (map (fun j => match l !! (j - start)%nat with
                            | Some x => h x
                            | None => 0%nat
                            end) (seq start (length l)))
    = sum_list (map h l).
Proof.
  induction l as [|x l IH]; intros start; cbn; [reflexivity|].
  rewrite Nat.sub_diag. cbn. f_equal.
  rewrite <- (IH (S start)). apply sum_agree.
  intros j Hj. replace (j - start)%nat with (S (j - S start)) by lia.
  reflexivity.
Qed.

Section Console.

Context (G : Program) (connection : Connection).

Abbreviation resume := (resume G connection).
Abbreviation run := (run G connection).
Abbreviation deliver := (deliver G connection).
Abbreviation advance := (advance G connection).
Abbreviation emitted := (emitted G connection).
Abbreviation to_come := (to_come G connection).
Abbreviation failing := (failing G connection).

Lemma emitted_settled (k : nat) (r : OwnedNFT) : emitted k (Settled r) = 0%nat.
Proof. induction k as [|k IH]; cbn; [reflexivity|exact IH]. Qed.

(** Once both replies are in, a callback has written one line if one
    of its lookups threw, and none otherwise. *)
Lemma emitted_enough (k : nat) (nft : OwnedNFT) :
  (2 <= k)%nat ->
  emitted k (AwaitListing nft) = if failing nft then 1%nat else 0%nat.
Proof.
  intros Hk. destruct k as [|[|k]]; try lia.
  unfold ConsoleVocabulary.failing. cbn.
  unfold ResolverVocabulary.advance. cbn.
  destruct (getListingPDA G (mint nft)) as [pda bump]. cbn.
  destruct (getAccountInfo connection pda) as [account|e]; cbn.
  - destruct (fetchNFTMetadataFromChain G (mint nft)); cbn;
      rewrite emitted_settled; reflexivity.
  - rewrite emitted_settled. reflexivity.
Qed.

Lemma deliver_length (pool : Pool) (i : nat) :
  length (tasks (deliver pool i)) = length (tasks pool).
Proof.
  unfold OwnedNFTs.deliver. destruct (tasks pool !! i); [|reflexivity].
  destruct (resume t). cbn. apply length_insert.
Qed.

(** The lines written so far and those still to come add up to the
    same number before and after a reply is delivered. *)
Lemma deliver_console (schedule : list nat) (pool : Pool) (i : nat) :
  (length (console (deliver pool i))
   + sum_list (map (to_come schedule (deliver pool i))
                   (seq 0 (length (tasks pool)))))%nat
  = (length (console pool)
     + sum_list (map (to_come (i :: schedule) pool)
                     (seq 0 (length (tasks pool)))))%nat.
Proof.
  destruct (tasks pool !! i) as [t|] eqn:Hi.
  - assert (Hlt : (i < length (tasks pool))%nat)
      by (eapply lookup_lt_Some; eassumption).
    rewrite (sum_ahead (to_come (i :: schedule) pool)
               (to_come schedule (deliver pool i)) i
               (length (snd (resume t))) _ 0).
    + unfold OwnedNFTs.deliver. rewrite Hi.
      destruct (resume t) as [t' lines]. cbn. rewrite length_app. lia.
    + intros j Hne. unfold ConsoleVocabulary.to_come.
      rewrite deliver_lookup.
      destruct (decide (i = j)) as [->|_]; [congruence|].
      unfold arrivals. cbn.
      destruct (Nat.eq_dec i j) as [->|_]; [congruence|reflexivity].
    + unfold ConsoleVocabulary.to_come. rewrite deliver_lookup, Hi.
      destruct (decide (i = i)) as [_|Hn]; [|congruence]. cbn.
      unfold arrivals. cbn.
      destruct (Nat.eq_dec i i) as [_|Hn]; [|congruence]. reflexivity.
    + lia.
  - assert (Hsame : deliver pool i = pool)
      by (unfold OwnedNFTs.deliver; rewrite Hi; reflexivity).
    rewrite Hsame. f_equal. apply sum_agree. intros j Hj.
    unfold ConsoleVocabulary.to_come.
    destruct (tasks pool !! j) as [tj|] eqn:Hj'; [|reflexivity].
    unfold arrivals. cbn.
    destruct (Nat.eq_dec i j) as [->|_]; [congruence|reflexivity].
Qed.

Lemma to_come_nil (pool : Pool) (n : nat) :
  forall start, sum_list (map (to_come [] pool) (seq start n)) = 0%nat.
Proof.
  induction n as [|n IH]; intros start; cbn; [reflexivity|].
  rewrite IH. unfold ConsoleVocabulary.to_come.
  destruct (tasks pool !! start); reflexivity.
Qed.

(** Every line of the console is accounted for by a slot. *)
Lemma run_console (schedule : list nat) :
  forall pool,
    length (console (run schedule pool))
    = (length (console pool)
       + sum_list (map (to_come schedule pool) (seq 0 (length (tasks pool)))))%nat.
Proof.
  induction schedule as [|i schedule IH]; intros pool.
  - cbn. rewrite to_come_nil. lia.
  - unfold OwnedNFTs.run in *. cbn [fold_left]. rewrite IH.
    rewrite deliver_length. apply deliver_console.
Qed.

Lemma failing_count (owned : list OwnedNFT) :
  sum_list (map (fun nft => if failing nft then 1%nat else 0%nat) owned)
  = length (List.filter failing owned).
Proof.
  induction owned as [|nft owned IH]; cbn; [reflexivity|].
  destruct (failing nft); cbn; rewrite IH; reflexivity.
Qed.

Lemma complete_console (schedule : list nat) (owned : list OwnedNFT) :
  all_arrive schedule (length owned) ->
  length (console (run schedule (launch owned)))
  = length (List.filter failing owned).
Proof.
  intros Hall. rewrite run_console. cbn. rewrite length_map.
  rewrite <- failing_count.
  rewrite <- (sum_over_list (fun nft => if failing nft then 1%nat else 0%nat)
                owned 0).
  apply sum_agree. intros j Hj. rewrite Nat.sub_0_r.
  unfold ConsoleVocabulary.to_come. rewrite launch_lookup.
  destruct (owned !! j) as [nft|]; [|reflexivity]. cbn.
  apply emitted_enough. apply Hall. lia.
Qed.

Lemma failing_settle (nft : OwnedNFT) :
  failing (settle G connection nft) = failing nft.
Proof. unfold ConsoleVocabulary.failing. rewrite settle_mint. reflexivity. Qed.

Lemma failing_settled (owned : list OwnedNFT) :
  length (List.filter failing (map (settle G connection) owned))
  = length (List.filter failing owned).
Proof.
  induction owned as [|nft owned IH]; cbn; [reflexivity|].
  rewrite failing_settle. destruct (failing nft); cbn; rewrite IH; reflexivity.
Qed.

End Console.



End ConsoleExtras.

(** ** The effects of the wallet side-panel *)

Module PanelExtras.
Import WalletSheet WalletPanel Vocabulary CacheFacts CacheClaims SheetFacts
  Scenario MoreScenarios.

#[local] Arguments getCache : simpl never.
#[local] Arguments isCacheValid : simpl never.
#[local] Arguments setCache : simpl never.
#[local] Arguments of_Z : simpl never.
#[local] Arguments div : simpl never.
#[local] Arguments LAMPORTS_PER_SOL : simpl never.
#[local] Arguments summarise : simpl never.

Section Halves.

Context (P : Platform) (H : Hooks P) (pk : PublicKey) (conn : Connection).
Hypothesis (Hpk : publicKey H = Some pk) (Hconn : connection H = Some conn).

(** The two halves of a fetch, run one after the other, are the fetch. *)
Lemma fetchBalance_split (force : bool) (s : St P) :
  fetchBalance P H force s
  = alone P (beginBalance P H force) (completeBalance P H) s.
Proof.
  unfold fetchBalance, alone, beginBalance, completeBalance, now.
  rewrite Hpk, Hconn. unfold bind.
  destruct (balanceFromCache P H force s) as [[] s1] eqn:Hcheck; cbn;
    [reflexivity|].
  apply (balanceFromCache_miss P H) in Hcheck as ->.
  unfold await, Date_now. cbn.
  destruct (outcome (getBalance conn pk (clock (world s)))); reflexivity.
Qed.

Lemma fetchTransactions_split (force : bool) (s : St P) :
  fetchTransactions P H force s
  = alone P (beginTransactions P H force) (completeTransactions P H) s.
Proof.
  unfold fetchTransactions, alone, beginTransactions, completeTransactions, now.
  rewrite Hpk, Hconn. unfold bind.
  destruct (transactionsFromCache P H force s) as [[] s1] eqn:Hcheck; cbn;
    [reflexivity|].
  apply (transactionsFromCache_miss P H) in Hcheck as ->.
  unfold await, Date_now. cbn.
  destruct (outcome (getSignaturesForAddress conn pk 10 (clock (world s))));
    reflexivity.
Qed.

(** The first half of a fetch that is not served from the cache. *)
Lemma beginBalance_live (force : bool) (s : St P) :
  balanceFromCache P H force s = (false, s) ->
  beginBalance P H force s
  = (Some (getBalance conn pk (clock (world s))),
     snd (issue P (CallGetBalance pk) (getBalance conn pk)
            (snd (setLoadingBalance P true s)))).
Proof.
  intros Hlive. unfold beginBalance. rewrite Hpk, Hconn.
  unfold bind at 1. rewrite Hlive. reflexivity.
Qed.

Lemma beginTransactions_live (force : bool) (s : St P) :
  transactionsFromCache P H force s = (false, s) ->
  beginTransactions P H force s
  = (Some (getSignaturesForAddress conn pk 10 (clock (world s))),
     snd (issue P (CallGetSignaturesForAddress pk 10)
            (getSignaturesForAddress conn pk 10)
            (snd (setLoadingTxs P true s)))).
Proof.
  intros Hlive. unfold beginTransactions. rewrite Hpk, Hconn.
  unfold bind at 1. rewrite Hlive. reflexivity.
Qed.

End Halves.

(** X18. The effect run when the sheet opens does nothing while the
    sheet is closed or no wallet is connected; on the assets, send and
    receive tabs it is exactly a non-forced [fetchBalance], so that the
    history is queried on the activity tab only. *)
Theorem open_effect_follows_the_tab (P : Platform) (H : Hooks P)
    (isOpen connected : bool) (activeTab : TabType) (s : St P) :
  (isOpen = false \/ connected = false \/ publicKey H = None ->
   openEffect P H isOpen connected activeTab s = (tt, s)) /\
  (isOpen = true -> connected = true -> activeTab <> activity ->
   openEffect P H isOpen connected activeTab s = fetchBalance P H false s).
Proof.
  split.
  - unfold openEffect.
    intros [-> | [-> | ->]]; [reflexivity| |].
    + destruct isOpen; reflexivity.
    + destruct isOpen, connected; reflexivity.
  - intros -> -> Htab. unfold openEffect.
    destruct (publicKey H) as [pk|] eqn:Hpk; cbn [andb].
    + destruct (connection H) as [conn|] eqn:Hconn.
      * rewrite (fetchBalance_split P H pk conn Hpk Hconn false s).
        unfold alone, bind, ret.
        destruct (now P s) as [issued s0].
        destruct (beginBalance P H false s0) as [[b|] s1];
          destruct activeTab; try reflexivity; congruence.
      * unfold fetchBalance, beginBalance, bind, now, ret.
        rewrite Hpk, Hconn. destruct activeTab; try reflexivity; congruence.
    + unfold fetchBalance. rewrite Hpk. reflexivity.
Qed.

Lemma open_effect_follows_the_tab_witness :
  openEffect P0 (hooks P0 healthy) false true activity (after 90000 blank)
  = (tt, after 90000 blank) /\
  net_log (world (snd (openEffect P0 (hooks P0 healthy) true true send
                         (after 90000 blank))))
  = [CallGetBalance wallet].
Proof.
  destruct (open_effect_follows_the_tab P0 (hooks P0 healthy) false true activity
              (after 90000 blank)) as [Hclosed _].
  destruct (open_effect_follows_the_tab P0 (hooks P0 healthy) true true send
              (after 90000 blank)) as [_ Htab].
  split; [exact (Hclosed (or_introl eq_refl))|].
  rewrite (Htab eq_refl eq_refl); [reflexivity|discriminate].
Defined.

(** X19. On the activity tab with neither read served from the cache,
    both requests go out at once, before either reply is handled: the
    log grows by the balance query then the history query, the history
    reply is the one for the time of opening, and the effect is over
    when the later of the two replies has arrived. Both spinners are
    then off, and the balance and the history shown are those of their
    own replies, whichever came first. *)
Theorem open_effect_runs_both_fetches (P : Platform) (H : Hooks P)
    (pk : PublicKey) (conn : Connection) (s : St P) :
  publicKey H = Some pk -> connection H = Some conn ->
  goes_live P (balanceCacheKey P H) BALANCE_CACHE_TTL false s ->
  goes_live P (txCacheKey P H) TX_CACHE_TTL false s ->
  let opened := clock (world s) in
  let b := getBalance conn pk opened in
  let t := getSignaturesForAddress conn pk 10 opened in
  let s' := snd (openEffect P H true true activity s) in
  net_log (world s')
  = (net_log (world s)
     ++ [CallGetBalance pk; CallGetSignaturesForAddress pk 10])%list /\
  clock (world s') = opened + Z.of_N (N.max (elapsed b) (elapsed t)) /\
  loadingBalance (sheet s') = false /\
  loadingTxs (sheet s') = false /\
  balance (sheet s')
  = match outcome b with
    | Ok bal => VNum (div bal LAMPORTS_PER_SOL)
    | Throw _ => VNull
    end /\
  transactions (sheet s')
  = match outcome t with
    | Ok signatures =>
        TransactionItems_value
          (summarise P (of_Z (opened + Z.of_N (elapsed t))) (draws (world s))
             signatures)
    | Throw _ => transactions (sheet s)
    end.
Proof.
  intros Hpk Hconn Hlive_b Hlive_t opened b t s'. subst s'.
  pose proof (balance_not_served P H false s Hlive_b) as Hmiss_b.
  unfold openEffect. rewrite Hpk. cbn [andb].
  rewrite (bind_run (now P) _ s s (clock (world s)) eq_refl).
  rewrite (bind_run _ _ _ _ _ (beginBalance_live P H pk conn Hpk Hconn false s Hmiss_b)).
  pose proof (transactions_not_served P H false
                (snd (issue P (CallGetBalance pk) (getBalance conn pk)
                        (snd (setLoadingBalance P true s)))) Hlive_t) as Hmiss_t.
  rewrite (bind_run _ _ _ _ _
             (beginTransactions_live P H pk conn Hpk Hconn false _ Hmiss_t)).
  unfold issue, setLoadingBalance, setLoadingTxs, on_sheet.
  cbn [snd fst sheet world clock].
  fold opened. fold b. fold t.
  destruct (elapsed b <=? elapsed t)%N eqn:Horder.
  - apply N.leb_le in Horder. rewrite N.max_r by exact Horder.
    unfold bind, arrive, completeBalance, completeTransactions, setBalance,
      setTransactions, setLoadingBalance, setLoadingTxs, writeCache,
      console_error, mapSignatures, on_sheet, on_world, Date_now, ret.
    cbn. destruct (outcome b), (outcome t); cbn; rewrite <- app_assoc;
      repeat split.
  - apply N.leb_gt in Horder. rewrite N.max_l by lia.
    unfold bind, arrive, completeBalance, completeTransactions, setBalance,
      setTransactions, setLoadingBalance, setLoadingTxs, writeCache,
      console_error, mapSignatures, on_sheet, on_world, Date_now, ret.
    cbn. destruct (outcome b), (outcome t); cbn; rewrite <- app_assoc;
      repeat split.
Qed.

Lemma open_effect_runs_both_fetches_witness :
  let s' := snd (openEffect P0 (hooks P0 with_history) true true activity
                   (after 90000 blank)) in
  net_log (world s')
  = [CallGetBalance wallet; CallGetSignaturesForAddress wallet 10] /\
  clock (world s') = t0 + 90200 /\
  balance (sheet s') = VNum (of_Z 3).
Proof.
  destruct (open_effect_runs_both_fetches P0 (hooks P0 with_history) wallet
              with_history (after 90000 blank) eq_refl eq_refl)
    as (Hlog & Hclock & _ & _ & Hshown & _).
  - right; left. vm_compute. reflexivity.
  - right; left. vm_compute. reflexivity.
  - split; [exact Hlog|]. split; [exact Hclock|exact Hshown].
Defined.

(** X20. On mount the panel shows what the cache holds whatever its
    age: once a payload has been written for the wallet (the storage
    taking the write, the JSON functions carrying it through),
    [loadCached] on that storage shows it at any later time, and it
    never touches the world: no call, no write. *)
Theorem mount_shows_cached_data_of_any_age (P : Platform) (H : Hooks P)
    (pk : PublicKey) (k : CacheKind) (v : payload k) (st : Storage)
    (written : number) (s : St P) :
  publicKey H = Some pk ->
  storage_accepts st (CACHE_KEY_PREFIX ++ cacheKey H k)
    (JSON_stringify P (CachedData (payload_value v) written)) = true ->
  JSON_roundtrips P (CachedData (payload_value v) written) ->
  localStorage (world s) = setCache P written st (cacheKey H k) (payload_value v) ->
  shown k (sheet (snd (loadCached P H s))) = payload_value v /\
  world (snd (loadCached P H s)) = world s.
Proof.
  intros Hpk Hacc Hjson Hstore.
  assert (Hread : getCache P (localStorage (world s)) (cacheKey H k)
                  = payload_value v)
    by (rewrite Hstore; apply getCache_setCache; assumption).
  unfold loadCached. rewrite Hpk.
  unfold bind, readCache, setBalance, setTransactions, on_sheet, ret. cbn.
  destruct k; cbn [cacheKey shown] in *.
  - rewrite Hread. cbn.
    destruct (not_null (getCache P (localStorage (world s)) (txCacheKey P H)));
      cbn; split; reflexivity.
  - destruct (not_null (getCache P (localStorage (world s)) (balanceCacheKey P H)));
      cbn; rewrite Hread; cbn; split; reflexivity.
Qed.

Lemma mount_shows_cached_data_of_any_age_witness :
  balance (sheet (snd (loadCached P0 (hooks P0 healthy) (after 86400000 blank))))
  = cached_balance /\
  isCacheValid P0 (Date_now P0 (world (after 86400000 blank))) stored
    (balanceCacheKey P0 (hooks P0 healthy)) BALANCE_CACHE_TTL = false.
Proof.
  destruct (mount_shows_cached_data_of_any_age P0 (hooks P0 healthy) wallet
              KBalance (div (of_Z 5) (of_Z 2)) empty_storage (of_Z t0)
              (after 86400000 blank) eq_refl) as [Hshown _].
  - vm_compute. reflexivity.
  - split; [vm_compute; discriminate|vm_compute; reflexivity].
  - reflexivity.
  - split; [exact Hshown|vm_compute; reflexivity].
Defined.

Lemma Math_max_not_negative (x : number) :
  lt (Math_max (JS.of_Z 0) x) (JS.of_Z 0) = false.
Proof. destruct x as [[]|[]| |[] m e]; reflexivity. Qed.

(** X21. MAX never fills in a negative amount: with no balance known
    it changes nothing; with a balance shown it sets the amount to the
    six-digit text of a number that is not below zero, and touches
    nothing else. *)
Theorem max_amount_is_not_negative (P : Platform)
    (toFixed : number -> nat -> string) (s : St P) :
  (balance (sheet s) = VNull -> setMaxAmount P toFixed s = (tt, s)) /\
  (balance (sheet s) <> VNull ->
   let max := Math_max (JS.of_Z 0) (sub (ToNumber P (balance (sheet s))) milli) in
   lt max (JS.of_Z 0) = false /\
   setMaxAmount P toFixed s = setAmount P (toFixed max 6%nat) s).
Proof.
  unfold setMaxAmount, bind, gets. split.
  - intros ->. reflexivity.
  - intros Hknown. cbv zeta. split; [apply Math_max_not_negative|].
    destruct (balance (sheet s)); try reflexivity. congruence.
Qed.

Lemma max_amount_is_not_negative_witness :
  amount (sheet (snd (setMaxAmount P0 whole_toFixed dust))) = "0.000000".
Proof.
  destruct (max_amount_is_not_negative P0 whole_toFixed dust) as [_ Hknown].
  destruct Hknown as [_ Hset]; [discriminate|].
  rewrite Hset. reflexivity.
Defined.

End PanelExtras.

(** ** The profile page: tabs and the available view *)

Module ProfileExtras.
Import OwnedNFTs ProfilePage ProfileTabs ResolverVocabulary PageScenarios.

Lemma listed_by_wallet (key : PublicKey) (listings : list Listing) (m : string) :
  m ∈ listedMints (myListings (Some key) listings) <->
  exists l, l ∈ listings
            /\ PublicKey_equals (seller (account l)) key = true
            /\ PublicKey_toString (nftMint (account l)) = m.
Proof.
  rewrite ProfileClaims.listedMints_member. split.
  - intros (l & Hl & Hm). apply ProfileClaims.myListings_member in Hl as [Hl Hs].
    exists l. auto.
  - intros (l & Hl & Hs & Hm). exists l.
    split; [apply ProfileClaims.myListings_member; auto|exact Hm].
Qed.

Lemma available_member (publicKey : option PublicKey) (listings : list Listing)
    (nfts : list NFT.t) (n : NFT.t) :
  n ∈ availableToList publicKey listings nfts <->
  n ∈ nfts /\ NFT.mint n ∉ listedMints (myListings publicKey listings).
Proof.
  unfold availableToList, ownedNotListed.
  rewrite list_elem_of_In, filter_In, <- list_elem_of_In.
  rewrite negb_true_iff, bool_decide_eq_false. reflexivity.
Qed.

Lemma length_zero {A : Type} (l : list A) : (length l =? 0)%nat = true <-> l = [].
Proof. destruct l; cbn; split; intros; congruence. Qed.

Lemma nothing_available (publicKey : option PublicKey) (listings : list Listing)
    (nfts : list NFT.t) :
  availableToList publicKey listings nfts = [] <->
  forall n, n ∈ nfts -> NFT.mint n ∈ listedMints (myListings publicKey listings).
Proof.
  split.
  - intros Hnone n Hn.
    destruct (decide (NFT.mint n ∈ listedMints (myListings publicKey listings)))
      as [Hin|Hout]; [exact Hin|].
    assert (Hav : n ∈ availableToList publicKey listings nfts)
      by (apply available_member; auto).
    rewrite Hnone in Hav. inversion Hav.
  - intros Hall.
    destruct (availableToList publicKey listings nfts) as [|n rest] eqn:Hview;
      [reflexivity|].
    assert (Hav : n ∈ availableToList publicKey listings nfts)
      by (rewrite Hview; left).
    apply available_member in Hav as [Hn Hout]. destruct (Hout (Hall n Hn)).
Qed.

Lemma myListings_none (key : PublicKey) (listings : list Listing) :
  myListings (Some key) listings = [] <->
  Forall (fun l => PublicKey_equals (seller (account l)) key = false) listings.
Proof.
  unfold myListings. induction listings as [|l listings IH]; cbn.
  - split; [constructor|reflexivity].
  - destruct (PublicKey_equals (seller (account l)) key) eqn:Hs.
    + split; [discriminate|]. intros Hall. inversion Hall; congruence.
    + rewrite IH. split; [constructor; assumption|].
      intros Hall. inversion Hall; assumption.
Qed.

Lemma all_available (publicKey : option PublicKey) (listings : list Listing)
    (nfts : list NFT.t) :
  myListings publicKey listings = [] ->
  availableToList publicKey listings nfts = nfts.
Proof.
  unfold availableToList, ownedNotListed. intros ->.
  induction nfts as [|n nfts IH]; [reflexivity|].
  cbn [List.filter]. rewrite IH.
  rewrite bool_decide_eq_false_2; [reflexivity|].
  unfold listedMints. cbn. apply not_elem_of_empty.
Qed.

(** X22. With the NFTs loaded, the Owned tab says that all NFTs are
    listed exactly when the wallet owns at least one NFT and each of
    them has a listing of the wallet for its mint; it says that the
    wallet owns none exactly when the list of NFTs is empty. *)
Theorem owned_tab_empty_states (key : PublicKey) (listings : list Listing)
    (nfts : list NFT.t) (nftsLoading : bool) :
  (ownedTab (Some key) listings nfts nftsLoading = OwnedEmpty ALL_LISTED <->
   nftsLoading = false /\ nfts <> [] /\
   forall n, n ∈ nfts ->
     exists l, l ∈ listings
               /\ PublicKey_equals (seller (account l)) key = true
               /\ PublicKey_toString (nftMint (account l)) = NFT.mint n) /\
  (ownedTab (Some key) listings nfts nftsLoading = OwnedEmpty NONE_OWNED <->
   nftsLoading = false /\ nfts = []).
Proof.
  unfold ownedTab. cbv zeta.
  destruct nftsLoading.
  { split; split; try discriminate; intros [? _]; discriminate. }
  destruct (length (availableToList (Some key) listings nfts) =? 0)%nat eqn:Hlen.
  - apply length_zero in Hlen.
    pose proof (proj1 (nothing_available _ _ _) Hlen) as Hall. clear Hlen.
    destruct nfts as [|n0 nfts]; cbn [length Nat.ltb Nat.leb].
    + split; split.
      * discriminate.
      * intros (_ & Habs & _). destruct Habs. reflexivity.
      * auto.
      * reflexivity.
    + split; split.
      * intros _. split; [reflexivity|]. split; [discriminate|].
        intros n Hn. apply listed_by_wallet, Hall, Hn.
      * reflexivity.
      * discriminate.
      * intros [_ Habs]. discriminate.
  - assert (Hsome : availableToList (Some key) listings nfts <> []).
    { intros Hnil. apply length_zero in Hnil. congruence. }
    split; split; try discriminate.
    + intros (_ & _ & Hall). destruct Hsome. apply nothing_available.
      intros n Hn. apply listed_by_wallet, Hall, Hn.
    + intros [_ ->]. destruct Hsome. reflexivity.
Qed.

(** X23. The Listed tab shows its empty state exactly when the
    listings are loaded and none has the wallet as seller; its "List an
    NFT" button is there exactly when the wallet owns an NFT. With no
    listing of the wallet, every owned NFT is available, in the order
    of the list. *)
Theorem listed_tab_empty_state (key : PublicKey) (listings : list Listing)
    (nfts : list NFT.t) (listingsLoading : bool) :
  (forall b,
     listedTab (Some key) listings nfts listingsLoading = ListedEmpty b <->
     listingsLoading = false
     /\ Forall (fun l => PublicKey_equals (seller (account l)) key = false) listings
     /\ b = (0 <? length nfts)%nat) /\
  (Forall (fun l => PublicKey_equals (seller (account l)) key = false) listings ->
   availableToList (Some key) listings nfts = nfts).
Proof.
  split.
  - intros b. unfold listedTab. cbv zeta. destruct listingsLoading.
    { split; [discriminate|]. intros [? _]. discriminate. }
    destruct (length (myListings (Some key) listings) =? 0)%nat eqn:Hlen.
    + apply length_zero in Hlen.
      rewrite (all_available _ _ nfts Hlen).
      apply myListings_none in Hlen. split.
      * intros [= <-]. auto.
      * intros (_ & _ & ->). reflexivity.
    + split; [discriminate|]. intros (_ & Hnone & _).
      apply myListings_none, length_zero in Hnone. congruence.
  - intros Hnone. apply all_available, myListings_none, Hnone.
Qed.

Lemma listed_tab_empty_state_witness :
  availableToList (Some wallet) [foreignA] cards = cards.
Proof.
  apply (listed_tab_empty_state wallet [foreignA] cards false).
  constructor; [reflexivity|constructor].
Defined.

(** X24. The available view reads nothing of an NFT but its mint: a
    relabelling of the cards that keeps every mint (the listed flag of
    the resolver, say) goes through the view unchanged. *)
Theorem available_view_reads_only_the_mint (publicKey : option PublicKey)
    (listings : list Listing) (f : NFT.t -> NFT.t) (nfts : list NFT.t) :
  (forall n, NFT.mint (f n) = NFT.mint n) ->
  availableToList publicKey listings (map f nfts)
  = map f (availableToList publicKey listings nfts).
Proof.
  intros Hmint. unfold availableToList, ownedNotListed.
  induction nfts as [|n nfts IH]; cbn; [reflexivity|].
  rewrite Hmint, IH.
  destruct (negb (bool_decide
              (NFT.mint n ∈ listedMints (myListings publicKey listings))));
    reflexivity.
Qed.

Lemma available_view_reads_only_the_mint_witness :
  availableToList (Some wallet) market (map (flagged true) cards)
  = map (flagged true) (availableToList (Some wallet) market cards).
Proof.
  apply (available_view_reads_only_the_mint (Some wallet) market (flagged true)).
  intros n. reflexivity.
Defined.

Section EndToEnd.

Context (P : Platform) (G : Program) (connection : Connection).

Lemma simplify_mint (placeholder : string) (o : OwnedNFT) :
  NFT.mint (simplify placeholder o) = PublicKey_toString (mint o).
Proof. reflexivity. Qed.

(** X25. From the chain to the grid: when the enumeration succeeds and
    every reply arrives, each card among those available to list
    stands for a unit holding of the wallet whose mint no listing of
    the wallet names, and each such holding has its card. *)
Theorem available_cards_are_unlisted_unit_holdings (schedule : list nat)
    (owner : PublicKey) (accounts : list TokenAccount) (s : HookState)
    (listings : list Listing) (placeholder : string) :
  getParsedTokenAccountsByOwner connection owner = Ok accounts ->
  well_formed_mints P accounts ->
  all_arrive schedule (length (List.filter isNFT accounts)) ->
  let owned := nfts (fst (refetch P G connection schedule (Some owner) s)) in
  let view := availableToList (Some owner) listings (useNFTs placeholder owned) in
  let unlisted (key : PublicKey) :=
    forall l, l ∈ listings ->
      PublicKey_equals (seller (account l)) owner = true ->
      PublicKey_toString (nftMint (account l)) <> PublicKey_toString key in
  (forall n, n ∈ view ->
     exists a key,
       a ∈ accounts /\ unit_holding a
       /\ PublicKey_new P (ParsedInfo.mint (info a)) = Some key
       /\ NFT.mint n = PublicKey_toString key
       /\ unlisted key) /\
  (forall a key,
     a ∈ accounts -> unit_holding a ->
     PublicKey_new P (ParsedInfo.mint (info a)) = Some key ->
     unlisted key ->
     exists n, n ∈ view /\ NFT.mint n = PublicKey_toString key).
Proof.
  intros Henum Hmints Hall owned view unlisted.
  destruct (ResolverClaims.refetch_resolved P G connection schedule owner
              accounts s Henum Hmints Hall) as (owned0 & _ & Hdrawn & Hstate).
  pose proof (ResolverClaims.settled_drawn P G connection _ _ Hdrawn) as Hout.
  assert (Heq : owned = map (settle G connection) owned0).
  { subst owned. rewrite Hstate. reflexivity. }
  rewrite <- Heq in Hout. clear Heq Hstate Hdrawn owned0.
  assert (Hunlisted : forall key,
            unlisted key <->
            PublicKey_toString key
              ∉ listedMints (myListings (Some owner) listings)).
  { intros key. rewrite listed_by_wallet. subst unlisted. cbv beta. split.
    - intros Hno (l & Hl & Hs & Hm). exact (Hno l Hl Hs Hm).
    - intros Hno l Hl Hs Hm. apply Hno. exists l. auto. }
  split.
  - intros n Hn. subst view. apply available_member in Hn as [Hn Hfree].
    unfold useNFTs in Hn. change (map ?f owned) with (f <$> owned) in Hn.
    apply list_elem_of_fmap in Hn as (o & -> & Ho).
    apply list_elem_of_lookup in Ho as [i Hi].
    destruct (Forall2_lookup_r _ _ _ _ _ Hout Hi) as (a & Ha & _ & Hkey).
    apply list_elem_of_lookup_2, ResolverClaims.retained_member in Ha
      as [Ha Hunit].
    exists a, (mint o). repeat split; auto.
    apply Hunlisted. exact Hfree.
  - intros a key Ha Hunit Hkey Hfree.
    assert (Hin : a ∈ List.filter isNFT accounts)
      by (apply ResolverClaims.retained_member; auto).
    apply list_elem_of_lookup in Hin as [i Hi].
    destruct (Forall2_lookup_l _ _ _ _ _ Hout Hi) as (o & Ho & _ & Hkey').
    assert (key = mint o) by congruence. subst key.
    exists (simplify placeholder o). split; [|reflexivity].
    subst view. apply available_member. split.
    + unfold useNFTs. change (map ?f owned) with (f <$> owned).
      apply list_elem_of_fmap. exists o.
      split; [reflexivity|eapply list_elem_of_lookup_2; eassumption].
    + apply Hunlisted. exact Hfree.
Qed.

End EndToEnd.

Lemma available_cards_are_unlisted_unit_holdings_witness :
  exists n,
    n ∈ availableToList (Some ResolverScenario.wallet) market
          (useNFTs MoreResolverScenarios.PLACEHOLDER_IMAGE
             (nfts (fst ResolverScenario.resolution)))
    /\ NFT.mint n = ResolverScenario.mintA.
Proof.
  destruct (available_cards_are_unlisted_unit_holdings
              ResolverScenario.P0 ResolverScenario.program
              ResolverScenario.chain ResolverScenario.second_first
              ResolverScenario.wallet ResolverScenario.holdings
              ResolverScenario.idle market
              MoreResolverScenarios.PLACEHOLDER_IMAGE eq_refl
              ResolverClaims.scenario_well_formed
              (ResolverClaims.scenario_all_arrive
                 ResolverScenario.second_first eq_refl)) as [_ Hcomplete].
  apply (Hcomplete
           (ResolverScenario.holding
              "3h1zGmCwsRJnVk5BuRNMLsPaQu1y2aqXqXDWYCgrp5UG"
              ResolverScenario.mintA 1 0) keyA).
  - left.
  - exists (of_Z 1). split; [reflexivity|]. split; reflexivity.
  - reflexivity.
  - intros l Hl Hs Hm.
    apply list_elem_of_In in Hl. destruct Hl as [<-|[<-|[]]]; discriminate.
Defined.

End ProfileExtras.

(** ** The NFT detail page *)

Module DetailExtras.
Import ProfilePage NFTDetailPage DetailVocabulary PageScenarios DetailScenarios.

Lemma PublicKey_equals_sym (a b : PublicKey) :
  PublicKey_equals a b = PublicKey_equals b a.
Proof. apply String.eqb_sym. Qed.

Lemma isOwner_seller (key : PublicKey) (l : Listing) :
  isOwner (Some key) (Some l) = PublicKey_equals (seller (account l)) key.
Proof. apply PublicKey_equals_sym. Qed.

Section Handler.

Context (P : Platform) (mintAddress : string)
  (call : PublicKey -> Z -> Reply string) (s : Page).

Lemma fails_with_invalid :
  PublicKey_new P mintAddress = None ->
  forall e, fails_with P mintAddress call s e <-> e = PublicKey_error P mintAddress.
Proof.
  intros Hnone e. unfold fails_with. split.
  - intros [[_ He] | (mint & Hmint & _)]; [exact He|congruence].
  - intros ->. left. auto.
Qed.

Lemma fails_with_reply (mint : PublicKey) :
  PublicKey_new P mintAddress = Some mint ->
  forall e, fails_with P mintAddress call s e
            <-> outcome (call mint (now s)) = Throw e.
Proof.
  intros Hmint e. unfold fails_with. split.
  - intros [[Hnone _] | (mint' & Hmint' & He)]; [congruence|].
    assert (mint' = mint) by congruence. subst mint'. exact He.
  - intros He. right. exists mint. auto.
Qed.

Lemma goes_through_reply (mint : PublicKey) :
  PublicKey_new P mintAddress = Some mint ->
  forall sig, goes_through P mintAddress call s sig
              <-> outcome (call mint (now s)) = Ok sig.
Proof.
  intros Hmint sig. unfold goes_through. split.
  - intros (mint' & Hmint' & Hsig).
    assert (mint' = mint) by congruence. subst mint'. exact Hsig.
  - intros Hsig. exists mint. auto.
Qed.

Lemma goes_through_invalid :
  PublicKey_new P mintAddress = None ->
  forall sig, ~ goes_through P mintAddress call s sig.
Proof. intros Hnone sig (mint & Hmint & _). congruence. Qed.

End Handler.

Lemma logged_last {A : Type} (l : list A) (x y : A) :
  (l ++ [x])%list = (l ++ [y])%list -> x = y.
Proof. intros Heq. apply app_inv_head in Heq. congruence. Qed.

(** The page after a handler whose transaction went through. *)
Lemma settles_through (P : Platform) (mintAddress : string)
    (call : PublicKey -> Z -> Reply string) (label notice : string)
    (T : Timeout) (s s' : Page) (sig : string) :
  goes_through P mintAddress call s sig ->
  isOpen s' = true -> copied s' = copied s ->
  txState s' = success -> txSignature s' = sig -> txMessage s' = notice ->
  console s' = console s ->
  timeouts s' = (timeouts s ++ [(now s' + 2000, T)])%list ->
  settles P mintAddress call label notice T s s'.
Proof.
  intros. split; [assumption|]. split; [assumption|]. left. exists sig.
  repeat split; assumption.
Qed.

(** The page after a handler whose transaction failed. *)
Lemma settles_failed (P : Platform) (mintAddress : string)
    (call : PublicKey -> Z -> Reply string) (label notice : string)
    (T : Timeout) (s s' : Page) (e : Error) :
  fails_with P mintAddress call s e ->
  isOpen s' = true -> copied s' = copied s ->
  txState s' = error -> txMessage s' = shown_for e ->
  console s' = (console s ++ [(label, e)])%list ->
  txSignature s' = txSignature s -> timeouts s' = timeouts s ->
  settles P mintAddress call label notice T s s'.
Proof.
  intros. split; [assumption|]. split; [assumption|]. right. exists e.
  repeat split; assumption.
Qed.


(** X27. The two pages agree on whose listing it is: for the same
    connected wallet, a listing is on the Listed tab of the profile
    exactly when its detail page offers "Cancel Listing", and a click
    there runs the cancellation; every other listing gets "Buy Now",
    and the click runs the purchase. *)
Theorem own_listings_offer_cancel (P : Platform) (L : Library)
    (key : PublicKey) (program : option (ProgramClient L))
    (listings : list Listing) (l : Listing) (mintAddress : string) (s : Page) :
  l ∈ listings ->
  (l ∈ myListings (Some key) listings <->
   action (Some key) true (Some l) = CancelListing)
  /\ (l ∈ myListings (Some key) listings ->
      click P L (Some key) true program (Some l) mintAddress s
      = handleCancel P L program (Some l) mintAddress s)
  /\ (l ∉ myListings (Some key) listings ->
      action (Some key) true (Some l) = BuyNow
      /\ click P L (Some key) true program (Some l) mintAddress s
         = handleBuy P L program (Some l) mintAddress s).
Proof.
  intros Hl. rewrite ProfileClaims.myListings_member.
  unfold click, action. cbn [negb]. rewrite isOwner_seller.
  destruct (PublicKey_equals (seller (account l)) key).
  - split; [split; auto|]. split; [reflexivity|].
    intros Hnot. destruct Hnot. auto.
  - split; [split; [intros [_ ?]|intros ?]; discriminate|].
    split; [intros [_ ?]; discriminate|]. auto.
Qed.


Lemma own_listings_offer_cancel_witness :
  action (Some wallet) true (Some listingB) = CancelListing
  /\ txState (click Scenario.P0 library (Some wallet) true (Some tt)
                (Some listingB) ResolverScenario.mintB at_rest) = error.
Proof.
  destruct (own_listings_offer_cancel Scenario.P0 library wallet (Some tt)
              market listingB ResolverScenario.mintB at_rest)
    as (Hbutton & Hclick & _).
  - right. left.
  - assert (Hmine : listingB ∈ myListings (Some wallet) market) by left.
    split; [apply Hbutton; exact Hmine|].
    rewrite (Hclick Hmine). reflexivity.
Defined.

End DetailExtras.
